(** * DailyYogaAttendance: the client-side attendance state engine

    A shallow embedding of [src/app.js] (modules Store, StorageManager,
    Handlers and MergeView) together with the constants of [src/config.js]
    that they read, and the properties of the attendance ledger, the computed
    view cache, the lock discipline, the save flow and local persistence.

    Conventions of the embedding.
    - JavaScript strings are [string]; [===] on strings is decidable equality.
    - A JavaScript [Map], a [Set] and a plain object used as a dictionary are
      stdpp's [gmap string _] and [gset string]: the entries of the [Map],
      the own properties of the object.
    - A cell group is either a [Map] (created by the running session) or a
      plain object (restored by [JSON.parse]); the code branches on
      [instanceof Map], and so does the embedding.  A read [o[k]] of a
      student id on such an object looks at the own properties and then at
      [Object.prototype], a write [o[k] = v] goes through the setter of
      [__proto__]: see [Js.prop] and [Js.assign].  A value read this way is
      a [Js.value], a string or an inherited member.
    - The date keys of [Store.attendance] are values of the date picker and
      the batch keys the two batch ids: [attendance[dateKey][batchKey]] is
      the lookup of own properties.
    - The mutable singletons [Store], [CONFIG], [localStorage] and the private
      fields of [Handlers] form one record [World]; every method is a function
      on it.  What is painted on the page is not part of the state.
    - [JSON.parse (JSON.stringify d)] is taken to return [d] for the state
      that [saveState] stores (objects with string keys and string values,
      arrays of strings), and [localStorage.setItem] to succeed.  The
      records that [saveRecords] stores are never read back; their item is
      the value handed to [JSON.stringify]. *)

From Stdlib Require Import Ascii ZArith.
From Stdlib Require String.
From stdpp Require Import gmap strings list fin_maps.

Local Open Scope Z_scope.

(** ** String primitives of the host language *)

Module Js.

(** [a || d] for a string that may be [undefined]: the empty string and
    [undefined] are falsy. *)
Definition or_else (a : option string) (d : string) : string :=
  match a with
  | Some EmptyString => d
  | Some s => s
  | None => d
  end.

(** Truthiness of a string. *)
Definition truthy (s : string) : bool :=
  match s with
  | EmptyString => false
  | String _ _ => true
  end.

(** [s.startsWith(p)]. *)
Definition startsWith (s p : string) : bool := String.prefix p s.

(** [s.includes(q)]. *)
Fixpoint includes (s q : string) : bool :=
  String.prefix q s ||
  match s with
  | EmptyString => false
  | String _ s' => includes s' q
  end.

(** [toLowerCase] on the ASCII letters; other bytes are kept. *)
Definition lower_ascii (c : ascii) : ascii :=
  let n := N_of_ascii c in
  if ((65 <=? n) && (n <=? 90))%N then ascii_of_N (n + 32) else c.

Fixpoint toLowerCase (s : string) : string :=
  match s with
  | EmptyString => EmptyString
  | String c s' => String (lower_ascii c) (toLowerCase s')
  end.

(** The white space [trim] removes, in UTF-8: the characters of one byte
    (space, tab, line feed, vertical tab, form feed, carriage return), the
    no-break space [C2 A0], and those of three bytes: U+1680, U+2000 to
    U+200A, U+2028, U+2029, U+202F, U+205F, U+3000 and U+FEFF. *)
Definition is_space (c : ascii) : bool :=
  let n := N_of_ascii c in
  ((n =? 32) || ((9 <=? n) && (n <=? 13)))%N.

Definition is_space2 (c1 c2 : ascii) : bool :=
  ((N_of_ascii c1 =? 194) && (N_of_ascii c2 =? 160))%N.

Definition is_space3 (c1 c2 c3 : ascii) : bool :=
  let n1 := N_of_ascii c1 in
  let n2 := N_of_ascii c2 in
  let n3 := N_of_ascii c3 in
  (((n1 =? 225) && (n2 =? 154) && (n3 =? 128)) ||
   ((n1 =? 226) && (n2 =? 128) &&
    (((128 <=? n3) && (n3 <=? 138)) || (n3 =? 168) || (n3 =? 169) ||
     (n3 =? 175))) ||
   ((n1 =? 226) && (n2 =? 129) && (n3 =? 159)) ||
   ((n1 =? 227) && (n2 =? 128) && (n3 =? 128)) ||
   ((n1 =? 239) && (n2 =? 187) && (n3 =? 191)))%N.

Fixpoint trimStart (s : string) : string :=
  match s with
  | EmptyString => EmptyString
  | String c1 s1 =>
      if is_space c1 then trimStart s1
      else
        match s1 with
        | EmptyString => s
        | String c2 s2 =>
            if is_space2 c1 c2 then trimStart s2
            else
              match s2 with
              | EmptyString => s
              | String c3 s3 =>
                  if is_space3 c1 c2 c3 then trimStart s3 else s
              end
        end
  end.

(** A string of white space only. *)
Definition blank (s : string) : bool :=
  match trimStart s with
  | EmptyString => true
  | String _ _ => false
  end.

Fixpoint trimEnd (s : string) : string :=
  match s with
  | EmptyString => EmptyString
  | String c s' => if blank s then EmptyString else String c (trimEnd s')
  end.

Definition trim (s : string) : string := trimEnd (trimStart s).

(** What a read of a dictionary of strings gives: a string, or a member
    inherited from [Object.prototype] (a function, and the prototype itself
    for [__proto__]).  An inherited member is truthy and [===] to no
    string. *)
Inductive value :=
| Str (s : string)
| Inherited (name : string).

Definition value_eq_dec : EqDecision value := ltac:(solve_decision).
#[global] Existing Instance value_eq_dec.

(** The property names of [Object.prototype]. *)
Definition ObjectPrototype : list string :=
  [ "constructor"; "hasOwnProperty"; "isPrototypeOf";
    "propertyIsEnumerable"; "toLocaleString"; "toString"; "valueOf";
    "__proto__"; "__defineGetter__"; "__defineSetter__";
    "__lookupGetter__"; "__lookupSetter__" ].

(** [o[k]] on a plain object with the own properties [o]: the own property
    if there is one, the member of the prototype otherwise; [None] is
    [undefined]. *)
Definition prop (o : gmap string string) (k : string) : option value :=
  match o !! k with
  | Some s => Some (Str s)
  | None =>
      if bool_decide (k ∈ ObjectPrototype) then Some (Inherited k) else None
  end.

(** [v || d] for such a value. *)
Definition or_default (v : option value) (d : string) : value :=
  match v with
  | Some (Str EmptyString) => Str d
  | Some v' => v'
  | None => Str d
  end.

(** [o[k] = v] for a string [v]: an own property is overwritten; a new one
    is created, except for [__proto__], whose setter on the prototype
    ignores a string. *)
Definition assign (o : gmap string string) (k v : string)
    : gmap string string :=
  match o !! k with
  | Some _ => <[k := v]> o
  | None => if bool_decide (k = "__proto__") then o else <[k := v]> o
  end.

End Js.

(** A string is used as a value without further mark. *)
Coercion Js.Str : string >-> Js.value.

(** ** More primitives: URI components, [split] and [join]

    Strings are read as the UTF-8 bytes of well-formed text: on such text
    [encodeURIComponent] works byte by byte.  [decodeURIComponent] fails
    here on a [%] that is not followed by two hexadecimal digits; the
    error it also throws when the escaped bytes are not UTF-8 does not
    arise on what [encodeURIComponent] produces from such text and is not
    modelled. *)

Module JsUri.

(** The characters [encodeURIComponent] keeps: letters, digits and
    [- _ . ! ~ * ' ( )]. *)
Definition is_unreserved (c : ascii) : bool :=
  let n := N_of_ascii c in
  (((48 <=? n) && (n <=? 57)) || ((65 <=? n) && (n <=? 90)) ||
   ((97 <=? n) && (n <=? 122)) ||
   (n =? 45) || (n =? 95) || (n =? 46) || (n =? 33) || (n =? 126) ||
   (n =? 42) || (n =? 39) || (n =? 40) || (n =? 41))%N.

Definition hexDigit (n : N) : ascii :=
  if (n <? 10)%N then ascii_of_N (48 + n) else ascii_of_N (55 + n).

Fixpoint encodeURIComponent (s : string) : string :=
  match s with
  | EmptyString => EmptyString
  | String c s' =>
      if is_unreserved c then String c (encodeURIComponent s')
      else
        String "%"
          (String (hexDigit (N_of_ascii c / 16))
             (String (hexDigit (N_of_ascii c mod 16))
                (encodeURIComponent s')))
  end.

Definition hexValue (c : ascii) : option N :=
  let n := N_of_ascii c in
  if ((48 <=? n) && (n <=? 57))%N then Some (n - 48)%N
  else if ((65 <=? n) && (n <=? 70))%N then Some (n - 55)%N
  else if ((97 <=? n) && (n <=? 102))%N then Some (n - 87)%N
  else None.

(** [None] stands for the [URIError] thrown on a malformed escape. *)
Fixpoint decodeURIComponent (s : string) : option string :=
  match s with
  | EmptyString => Some EmptyString
  | String c s' =>
      if Ascii.eqb c "%" then
        match s' with
        | String h (String l rest) =>
            match hexValue h, hexValue l with
            | Some a, Some b =>
                String (ascii_of_N (16 * a + b)) <$> decodeURIComponent rest
            | _, _ => None
            end
        | _ => None
        end
      else String c <$> decodeURIComponent s'
  end.

(** [s.split(sep)] for a separator of one character. *)
Fixpoint split (sep : ascii) (s : string) : list string :=
  match s with
  | EmptyString => [EmptyString]
  | String c s' =>
      if Ascii.eqb c sep then EmptyString :: split sep s'
      else
        match split sep s' with
        | h :: t => String c h :: t
        | [] => [String c EmptyString]
        end
  end.

(** [l.join(sep)]. *)
Fixpoint join (sep : string) (l : list string) : string :=
  match l with
  | [] => EmptyString
  | [x] => x
  | x :: rest => x +:+ sep +:+ join sep rest
  end.

End JsUri.

(** ** [config.js] *)

Module CONFIG.

Module STATUSES.
Definition LEAVE : string := "leave".
Definition PRESENT : string := "present".
Definition ABSENT : string := "absent".
End STATUSES.

Module STORAGE_KEYS.
Definition ATTENDANCE : string := "yoga_attendance_data".
End STORAGE_KEYS.

Record Batch := {
  batch_id : string;
  batch_name : string;
  batch_time : string;
  batch_shortName : string
}.

Definition BATCHES : list Batch :=
  [ {| batch_id := "batch_01"; batch_name := "Batch 01";
       batch_time := "5:30 AM"; batch_shortName := "B1 (5:30)" |};
    {| batch_id := "batch_02"; batch_name := "Batch 02";
       batch_time := "6:00 AM"; batch_shortName := "B2 (6:00)" |} ].

End CONFIG.

Import CONFIG.STATUSES.

(** The marker of a batch without data in the merge report. *)
Definition MISSING : string := "—".

(** ** Data model *)

Record Student := {
  student_id : string;
  student_name : string;
  student_appNumber : string;
  student_active : bool
}.

(** The value of the batch selector, which [Store.currentBatch] holds: its
    options are the two entries of [CONFIG.BATCHES]. *)
Inductive BatchId := batch_01 | batch_02.

Definition batchKeyOf (b : BatchId) : string :=
  match b with
  | batch_01 => "batch_01"
  | batch_02 => "batch_02"
  end.

(** [attendance[dateKey][batchKey]]: a [Map] or a plain object. *)
Inductive CellGroup :=
| JsMap (entries : gmap string string)
| JsObject (props : gmap string string).

Definition groupEntries (g : CellGroup) : gmap string string :=
  match g with
  | JsMap m => m
  | JsObject o => o
  end.

(** [Store._cache]. *)
Record Cache := {
  cache_valid : bool;
  cache_visible : list Student;
  cache_present : list Student;
  cache_absent : list Student;
  cache_leave : list Student
}.

(** The four arrays a reader of the computed view destructures. *)
Record View := {
  visible : list Student;
  present : list Student;
  absent : list Student;
  leave : list Student
}.

Definition viewOf (c : Cache) : View :=
  {| visible := cache_visible c; present := cache_present c;
     absent := cache_absent c; leave := cache_leave c |}.

Record StoreState := {
  studentMap : gmap string Student;
  studentOrder : list string;
  attendance : gmap string (gmap string CellGroup);
  lockedBatches : gset string;
  photoUrls : gmap string string;
  currentDate : string;
  currentBatch : BatchId;
  searchQuery : string;
  photoBase64 : option string;
  _cache : Cache
}.

Definition initialStore : StoreState :=
  {| studentMap := ∅; studentOrder := []; attendance := ∅;
     lockedBatches := ∅; photoUrls := ∅;
     currentDate := ""; currentBatch := batch_01; searchQuery := "";
     photoBase64 := None;
     _cache := {| cache_valid := false; cache_visible := [];
                  cache_present := []; cache_absent := [];
                  cache_leave := [] |} |}.

(** Field updates. *)
Definition set_roster (m : gmap string Student) (o : list string)
    (st : StoreState) : StoreState :=
  {| studentMap := m; studentOrder := o; attendance := attendance st;
     lockedBatches := lockedBatches st; photoUrls := photoUrls st;
     currentDate := currentDate st; currentBatch := currentBatch st;
     searchQuery := searchQuery st; photoBase64 := photoBase64 st;
     _cache := _cache st |}.

Definition set_attendance (a : gmap string (gmap string CellGroup))
    (st : StoreState) : StoreState :=
  {| studentMap := studentMap st; studentOrder := studentOrder st;
     attendance := a;
     lockedBatches := lockedBatches st; photoUrls := photoUrls st;
     currentDate := currentDate st; currentBatch := currentBatch st;
     searchQuery := searchQuery st; photoBase64 := photoBase64 st;
     _cache := _cache st |}.

Definition set_lockedBatches (l : gset string) (st : StoreState) : StoreState :=
  {| studentMap := studentMap st; studentOrder := studentOrder st;
     attendance := attendance st;
     lockedBatches := l; photoUrls := photoUrls st;
     currentDate := currentDate st; currentBatch := currentBatch st;
     searchQuery := searchQuery st; photoBase64 := photoBase64 st;
     _cache := _cache st |}.

Definition set_photoUrls (p : gmap string string) (st : StoreState)
    : StoreState :=
  {| studentMap := studentMap st; studentOrder := studentOrder st;
     attendance := attendance st;
     lockedBatches := lockedBatches st; photoUrls := p;
     currentDate := currentDate st; currentBatch := currentBatch st;
     searchQuery := searchQuery st; photoBase64 := photoBase64 st;
     _cache := _cache st |}.

Definition set_cache (c : Cache) (st : StoreState) : StoreState :=
  {| studentMap := studentMap st; studentOrder := studentOrder st;
     attendance := attendance st;
     lockedBatches := lockedBatches st; photoUrls := photoUrls st;
     currentDate := currentDate st; currentBatch := currentBatch st;
     searchQuery := searchQuery st; photoBase64 := photoBase64 st;
     _cache := c |}.

Definition set_current (d : string) (b : BatchId) (q : string)
    (st : StoreState) : StoreState :=
  {| studentMap := studentMap st; studentOrder := studentOrder st;
     attendance := attendance st;
     lockedBatches := lockedBatches st; photoUrls := photoUrls st;
     currentDate := d; currentBatch := b;
     searchQuery := q; photoBase64 := photoBase64 st;
     _cache := _cache st |}.

Definition set_photoBase64 (p : option string) (st : StoreState)
    : StoreState :=
  {| studentMap := studentMap st; studentOrder := studentOrder st;
     attendance := attendance st;
     lockedBatches := lockedBatches st; photoUrls := photoUrls st;
     currentDate := currentDate st; currentBatch := currentBatch st;
     searchQuery := searchQuery st; photoBase64 := p;
     _cache := _cache st |}.

(** ** [localStorage], the event bus and the world *)

(** [data.savedBatches] as [loadState] distinguishes it: an array of lock
    keys, the older nested object, or anything else. *)
Inductive SavedBatches :=
| SavedArray (keys : list string)
| SavedNested (flags : gmap string (gmap string bool))
| SavedOther.

(** The object [saveState] serialises and [loadState] parses. *)
Record SavedState := {
  saved_attendance : option (gmap string (gmap string (gmap string string)));
  saved_savedBatches : SavedBatches;
  saved_photoUrls : option (gmap string string)
}.

(** One row of a submitted batch. *)
Record AttendanceRecord := {
  rec_date : string;
  rec_batch : string;
  rec_batchTime : string;
  rec_studentId : string;
  rec_studentName : string;
  rec_appNumber : string;
  rec_status : Js.value;
  rec_time : string
}.

Record SavedRecords := {
  saved_records : list AttendanceRecord;
  saved_savedAt : string;
  saved_photoIncluded : bool
}.

Inductive StorageItem :=
| ItemState (d : SavedState)
| ItemRecords (r : SavedRecords).

Inductive Event :=
| StudentsLoaded (count : nat)
| StatusChanged (studentId : string) (oldStatus : Js.value)
    (newStatus : string)
| BatchLocked.

(** The private fields of [Handlers]; a pending single-tap timer keeps the
    student and the pile status its closure captured. *)
Record HandlersState := {
  _lastTapTime : Z;
  _lastTapStudentId : option string;
  _singleTapTimer : option (string * string);
  _popoverStudentId : option string
}.

Record World := {
  store : StoreState;
  localStorage : gmap string StorageItem;
  API_URL : string;
  emitted : list Event;
  handlers : HandlersState
}.

Definition with_store (st : StoreState) (w : World) : World :=
  {| store := st; localStorage := localStorage w; API_URL := API_URL w;
     emitted := emitted w; handlers := handlers w |}.

Definition with_localStorage (ls : gmap string StorageItem)
    (w : World) : World :=
  {| store := store w; localStorage := ls; API_URL := API_URL w;
     emitted := emitted w; handlers := handlers w |}.

Definition with_handlers (h : HandlersState) (w : World) : World :=
  {| store := store w; localStorage := localStorage w; API_URL := API_URL w;
     emitted := emitted w; handlers := h |}.

(** [EventBus.emit]: no handler is ever subscribed, the event is only
    recorded. *)
Definition emit (e : Event) (w : World) : World :=
  {| store := store w; localStorage := localStorage w; API_URL := API_URL w;
     emitted := emitted w ++ [e]; handlers := handlers w |}.

(** [Store.lockKey], which [StorageManager.loadState] calls as well. *)
Definition lockKey (dateKey batchKey : string) : string :=
  dateKey +:+ "|" +:+ batchKey.

(** ** MODULE 5: StorageManager *)

Module StorageManager.

(** [Object.fromEntries(batchData)] for a [Map], the object itself
    otherwise. *)
Definition plainOf (g : CellGroup) : gmap string string :=
  match g with
  | JsMap m => m
  | JsObject o => o
  end.

(** The [data] object of [saveState]. *)
Definition serialize (st : StoreState) : SavedState :=
  {| saved_attendance :=
       Some ((fun day : gmap string CellGroup => plainOf <$> day)
               <$> attendance st);
     saved_savedBatches := SavedArray (elements (lockedBatches st));
     saved_photoUrls := Some (photoUrls st) |}.

Definition saveState (w : World) : World :=
  with_localStorage
    (<[CONFIG.STORAGE_KEYS.ATTENDANCE := ItemState (serialize (store w))]>
       (localStorage w)) w.

(** The migration loop of [loadState] over the nested object: a key is
    added for every flag that is set. *)
Definition migrateNested (flags : gmap string (gmap string bool))
    : gset string :=
  map_fold (fun dateKey day acc =>
    map_fold (fun batchKey flag acc' =>
      if flag : bool then {[ lockKey dateKey batchKey ]} ∪ acc' else acc')
      acc day) ∅ flags.

Definition restore (d : SavedState) (st : StoreState) : StoreState :=
  let st1 :=
    set_attendance
      ((fun day : gmap string (gmap string string) => JsObject <$> day)
         <$> default ∅ (saved_attendance d)) st in
  let st2 :=
    match saved_savedBatches d with
    | SavedArray keys => set_lockedBatches (list_to_set keys) st1
    | SavedNested flags => set_lockedBatches (migrateNested flags) st1
    | SavedOther => st1
    end in
  set_photoUrls (default ∅ (saved_photoUrls d)) st2.

Definition loadState (w : World) : World :=
  match localStorage w !! CONFIG.STORAGE_KEYS.ATTENDANCE with
  | Some (ItemState d) => with_store (restore d (store w)) w
  | _ => w
  end.

Definition recordsKey (st : StoreState) : string :=
  "yoga_records_" +:+ currentDate st +:+ "_" +:+
  batchKeyOf (currentBatch st).

(** [savedAt] is the clock reading at the call. *)
Definition saveRecords (records : list AttendanceRecord) (savedAt : string)
    (w : World) : World :=
  with_localStorage
    (<[recordsKey (store w) :=
         ItemRecords {| saved_records := records;
                        saved_savedAt := savedAt;
                        saved_photoIncluded :=
                          match photoBase64 (store w) with
                          | Some s => Js.truthy s
                          | None => false
                          end |}]>
       (localStorage w)) w.

End StorageManager.

(** ** MODULE 2: Store *)

Module Store.

Definition _invalidateCache (st : StoreState) : StoreState :=
  set_cache
    {| cache_valid := false;
       cache_visible := cache_visible (_cache st);
       cache_present := cache_present (_cache st);
       cache_absent := cache_absent (_cache st);
       cache_leave := cache_leave (_cache st) |} st.

(** [studentMap.clear()] then one [set] per student, in order: a later
    student with the same id replaces an earlier one. *)
Definition setStudents (students : list Student) (w : World) : World :=
  let m := foldl (fun acc s => <[student_id s := s]> acc) ∅ students in
  let st := _invalidateCache
              (set_roster m (student_id <$> students) (store w)) in
  emit (StudentsLoaded (length students)) (with_store st w).

Definition getStudent (id : string) (st : StoreState) : option Student :=
  studentMap st !! id.

(** [getAllStudents]: an id of [studentOrder] without entry maps to
    [undefined]. *)
Definition getAllStudents (st : StoreState) : list (option Student) :=
  (fun id => studentMap st !! id) <$> studentOrder st.

Definition initDateBatch (dateKey batchKey : string) (st : StoreState)
    : StoreState :=
  let day := default ∅ (attendance st !! dateKey) in
  match day !! batchKey with
  | Some _ => set_attendance (<[dateKey := day]> (attendance st)) st
  | None =>
      let batchMap := (fun _ => LEAVE) <$> studentMap st in
      set_attendance
        (<[dateKey := <[batchKey := JsMap batchMap]> day]> (attendance st))
        st
  end.

(** [this.attendance[dateKey]?.[batchKey]]. *)
Definition batchDataAt (dateKey batchKey : string) (st : StoreState)
    : option CellGroup :=
  match attendance st !! dateKey with
  | Some day => day !! batchKey
  | None => None
  end.

(** The body of [getStatus] for a given date and batch: [Map.get] on a
    [Map], a property read on a plain object. *)
Definition getStatusAt (dateKey batchKey studentId : string) (st : StoreState)
    : Js.value :=
  match batchDataAt dateKey batchKey st with
  | Some (JsMap m) => Js.or_else (m !! studentId) LEAVE
  | Some (JsObject o) => Js.or_default (Js.prop o studentId) LEAVE
  | None => LEAVE
  end.

Definition getStatus (studentId : string) (st : StoreState) : Js.value :=
  getStatusAt (currentDate st) (batchKeyOf (currentBatch st)) studentId st.

Definition setStatus (studentId status : string) (w : World) : World :=
  let st := store w in
  let dateKey := currentDate st in
  let batchKey := batchKeyOf (currentBatch st) in
  let day := default ∅ (attendance st !! dateKey) in
  let batchData := default (JsMap ∅) (day !! batchKey) in
  let oldStatus : Js.value :=
    match batchData with
    | JsMap m => Js.or_else (m !! studentId) LEAVE
    | JsObject o => Js.or_default (Js.prop o studentId) LEAVE
    end in
  let batchData' :=
    match batchData with
    | JsMap m => JsMap (<[studentId := status]> m)
    | JsObject o => JsObject (Js.assign o studentId status)
    end in
  let st' :=
    _invalidateCache
      (set_attendance
         (<[dateKey := <[batchKey := batchData']> day]> (attendance st))
         st) in
  emit (StatusChanged studentId oldStatus status)
    (StorageManager.saveState (with_store st' w)).

Definition isDateBatchLocked (dateKey batchKey : string) (st : StoreState)
    : bool :=
  bool_decide (lockKey dateKey batchKey ∈ lockedBatches st).

Definition isLocked (st : StoreState) : bool :=
  isDateBatchLocked (currentDate st) (batchKeyOf (currentBatch st)) st.

Definition lockCurrentBatch (photoUrl : option string) (w : World)
    : World :=
  let st := store w in
  let key := lockKey (currentDate st) (batchKeyOf (currentBatch st)) in
  let st1 := set_lockedBatches ({[ key ]} ∪ lockedBatches st) st in
  let st2 :=
    match photoUrl with
    | Some (String c u) =>
        set_photoUrls (<[key := String c u]> (photoUrls st1)) st1
    | _ => st1
    end in
  emit BatchLocked (StorageManager.saveState (with_store st2 w)).

Definition presentIds (entries : gmap string string) : gset string :=
  dom (filter (fun kv => kv.2 = PRESENT) entries).

Definition getBatch1PresentSet (st : StoreState) : gset string :=
  match currentBatch st with
  | batch_01 => ∅
  | batch_02 =>
      match batchDataAt (currentDate st) "batch_01" st with
      | None => ∅
      | Some (JsMap m) => presentIds m
      | Some (JsObject o) => presentIds o
      end
  end.

Definition push (s : Student) (l : list Student) : list Student := l ++ [s].

(** The search test of the loop: [true] when the student is filtered
    out. *)
Definition searchMiss (q : string) (s : Student) : bool :=
  Js.truthy q &&
  negb (Js.includes (Js.toLowerCase (student_name s)) q) &&
  negb (Js.includes (Js.toLowerCase (student_appNumber s)) q) &&
  negb (Js.includes (Js.toLowerCase (student_id s)) q).

(** One iteration of the loop of [getComputed]. *)
Definition computeStep (st : StoreState) (batch1Present : gset string)
    (q : string) (acc : View) (id : string) : View :=
  match studentMap st !! id with
  | None => acc
  | Some s =>
      if negb (student_active s) then acc
      else if bool_decide (0 < size batch1Present)%nat
              && bool_decide (id ∈ batch1Present) then acc
      else if searchMiss q s then acc
      else
        let status := getStatus id st in
        if bool_decide (status = PRESENT) then
          {| visible := push s (visible acc);
             present := push s (present acc);
             absent := absent acc; leave := leave acc |}
        else if bool_decide (status = ABSENT) then
          {| visible := push s (visible acc);
             present := present acc;
             absent := push s (absent acc); leave := leave acc |}
        else
          {| visible := push s (visible acc);
             present := present acc;
             absent := absent acc; leave := push s (leave acc) |}
  end.

Definition emptyView : View :=
  {| visible := []; present := []; absent := []; leave := [] |}.

(** The recomputation of [getComputed], past the cache test. *)
Definition computeFresh (st : StoreState) : View :=
  let batch1Present := getBatch1PresentSet st in
  let q := Js.toLowerCase (Js.trim (searchQuery st)) in
  foldl (computeStep st batch1Present q) emptyView (studentOrder st).

Definition getComputed (st : StoreState) : Cache * StoreState :=
  if cache_valid (_cache st) then (_cache st, st)
  else
    let v := computeFresh st in
    let c := {| cache_valid := true; cache_visible := visible v;
                cache_present := present v; cache_absent := absent v;
                cache_leave := leave v |} in
    (c, set_cache c st).

Definition getFinalStatus (b1 b2 : Js.value) : string :=
  if bool_decide (b1 = "present") || bool_decide (b2 = "present")
  then "present"
  else if bool_decide (b1 = "absent") || bool_decide (b2 = "absent")
  then "absent"
  else "leave".

End Store.

(** ** MODULE 7: Renderer *)

Module Renderer.

(** [renderAll] reads the computed view (filling the cache) and the lock
    flag, and paints them. *)
Definition renderAll (w : World) : World :=
  with_store (Store.getComputed (store w)).2 w.

End Renderer.

(** ** MODULE 9: Handlers *)

(** How the save request of [onConfirmSave] ends: the callback is called
    with a result, the script fails to load, or thirty seconds pass. *)
Inductive SaveResponse :=
| SaveResult (success : bool)
| SaveScriptError
| SaveTimeout.

Module Handlers.

Definition resetTap (h : HandlersState) : HandlersState :=
  {| _lastTapTime := 0; _lastTapStudentId := None;
     _singleTapTimer := None;
     _popoverStudentId := _popoverStudentId h |}.

(** [value] is the value of the date picker.  The request that follows
    for the cloud data of that date is not part of this function. *)
Definition onDateChange (value : string) (w : World) : World :=
  let st := store w in
  let st1 := set_current value (currentBatch st) (searchQuery st) st in
  let st2 :=
    Store.initDateBatch (currentDate st1) (batchKeyOf (currentBatch st1))
      st1 in
  Renderer.renderAll (with_store (Store._invalidateCache st2) w).

(** [value] is the value of the batch selector. *)
Definition onBatchChange (value : BatchId) (w : World) : World :=
  let st := store w in
  let st1 := set_current (currentDate st) value (searchQuery st) st in
  let st2 :=
    Store.initDateBatch (currentDate st1) (batchKeyOf (currentBatch st1))
      st1 in
  Renderer.renderAll (with_store (Store._invalidateCache st2) w).

(** The debounced body of [onSearch], with the render it schedules. *)
Definition onSearch (value : string) (w : World) : World :=
  let st := store w in
  let st1 := set_current (currentDate st) (currentBatch st) value st in
  Renderer.renderAll (with_store (Store._invalidateCache st1) w).

(** [card] is the student card under the click, with its [studentId] and
    [status] data attributes; [now] is [Date.now()]. *)
Definition onStudentClick (card : option (string * string)) (now : Z)
    (w : World) : World :=
  match card with
  | None => w
  | Some (studentId, currentStatus) =>
      if Store.isLocked (store w) then w
      else
        let h := handlers w in
        if bool_decide (_lastTapStudentId h = Some studentId)
           && bool_decide (now - _lastTapTime h < 250)
        then
          let w1 := with_handlers (resetTap h) w in
          let w2 :=
            if bool_decide (currentStatus = ABSENT)
            then Store.setStatus studentId LEAVE w1
            else Store.setStatus studentId ABSENT w1 in
          Renderer.renderAll w2
        else
          with_handlers
            {| _lastTapTime := now; _lastTapStudentId := Some studentId;
               _singleTapTimer := Some (studentId, currentStatus);
               _popoverStudentId := _popoverStudentId h |} w
  end.

(** The callback of the single-tap timer, 250 ms after the click that
    armed it. *)
Definition onSingleTapTimeout (w : World) : World :=
  match _singleTapTimer (handlers w) with
  | None => w
  | Some (studentId, currentStatus) =>
      let w1 := with_handlers (resetTap (handlers w)) w in
      let w2 :=
        if bool_decide (currentStatus = LEAVE)
        then Store.setStatus studentId PRESENT w1
        else if bool_decide (currentStatus = PRESENT)
        then Store.setStatus studentId LEAVE w1
        else if bool_decide (currentStatus = ABSENT)
        then Store.setStatus studentId LEAVE w1
        else w1 in
      Renderer.renderAll w2
  end.

Definition onPopoverAction (action : string) (w : World) : World :=
  match _popoverStudentId (handlers w) with
  | Some (String c s) =>
      if negb (Store.isLocked (store w)) then
        let w1 := Store.setStatus (String c s) action w in
        let h := handlers w1 in
        Renderer.renderAll
          (with_handlers
             {| _lastTapTime := _lastTapTime h;
                _lastTapStudentId := _lastTapStudentId h;
                _singleTapTimer := _singleTapTimer h;
                _popoverStudentId := None |} w1)
      else w
  | _ => w
  end.

(** Opening the save dialog: nothing happens on a locked batch;
    otherwise the photo is reset and the summary is read from the
    computed view. *)
Definition onSaveClick (w : World) : World :=
  if Store.isLocked (store w) then w
  else
    let st1 := set_photoBase64 None (store w) in
    with_store (Store.getComputed st1).2 w.

(** The callback [onPhotoSelected] passes to [ImageUtils.compress], with
    the compressed picture. *)
Definition onPhotoCompressed (base64 : string) (w : World) : World :=
  with_store (set_photoBase64 (Some base64) (store w)) w.

Definition batchConfigOf (b : BatchId) : CONFIG.Batch :=
  match b with
  | batch_01 =>
      {| CONFIG.batch_id := "batch_01"; CONFIG.batch_name := "Batch 01";
         CONFIG.batch_time := "5:30 AM";
         CONFIG.batch_shortName := "B1 (5:30)" |}
  | batch_02 =>
      {| CONFIG.batch_id := "batch_02"; CONFIG.batch_name := "Batch 02";
         CONFIG.batch_time := "6:00 AM";
         CONFIG.batch_shortName := "B2 (6:00)" |}
  end.

(** [records] of [onConfirmSave]: one row per visible student. *)
Definition buildRecords (st : StoreState) (vis : list Student)
    (timeStr : string) : list AttendanceRecord :=
  let batchConfig := batchConfigOf (currentBatch st) in
  (fun s =>
     {| rec_date := currentDate st;
        rec_batch := CONFIG.batch_name batchConfig;
        rec_batchTime := CONFIG.batch_time batchConfig;
        rec_studentId := student_id s;
        rec_studentName := student_name s;
        rec_appNumber := student_appNumber s;
        rec_status := Store.getStatus (student_id s) st;
        rec_time := timeStr |}) <$> vis.

(** [cloudSaved] after the request: only a result whose [success] is set
    counts; an error or a timeout rejects the promise and is caught. *)
Definition cloudSavedOf (response : SaveResponse) : bool :=
  match response with
  | SaveResult success => success
  | SaveScriptError => false
  | SaveTimeout => false
  end.

(** The save flow.  [response] is how the request ends when one is sent,
    [timeStr] and [savedAt] are the clock readings.  No other handler is
    taken to run while the request is pending; the separate upload of the
    photo changes nothing in the state. *)
Definition onConfirmSave (response : SaveResponse)
    (timeStr savedAt : string) (w : World) : World :=
  match photoBase64 (store w) with
  | Some (String _ _) =>
      let '(c, st1) := Store.getComputed (store w) in
      let w1 := with_store st1 w in
      let records := buildRecords st1 (cache_visible c) timeStr in
      let photoUrl : option string := None in
      let cloudSaved :=
        if Js.truthy (API_URL w1) then cloudSavedOf response else false in
      if cloudSaved || negb (Js.truthy (API_URL w1)) then
        Renderer.renderAll
          (StorageManager.saveRecords records savedAt
             (Store.lockCurrentBatch photoUrl w1))
      else
        Renderer.renderAll
          (StorageManager.saveRecords records savedAt w1)
  | _ => w
  end.

(** [confirmed] is the answer to the confirmation dialog. *)
Definition onClearToday (confirmed : bool) (w : World) : World :=
  if negb confirmed then w
  else
    let st := store w in
    let dateKey := currentDate st in
    let st1 := set_attendance (delete dateKey (attendance st)) st in
    let st2 :=
      set_lockedBatches
        (filter (fun k => Js.startsWith k (dateKey +:+ "|") = false)
           (lockedBatches st1)) st1 in
    let w1 := StorageManager.saveState (with_store st2 w) in
    let st3 :=
      Store.initDateBatch (currentDate (store w1))
        (batchKeyOf (currentBatch (store w1))) (store w1) in
    Renderer.renderAll (with_store (Store._invalidateCache st3) w1).

(** [confirmed] is the answer to the confirmation dialog. *)
Definition onClearAll (confirmed : bool) (w : World) : World :=
  if negb confirmed then w
  else
    let st1 := set_lockedBatches ∅ (set_attendance ∅ (store w)) in
    let w1 :=
      with_localStorage
        (delete CONFIG.STORAGE_KEYS.ATTENDANCE (localStorage w))
        (with_store st1 w) in
    let st2 :=
      Store.initDateBatch (currentDate (store w1))
        (batchKeyOf (currentBatch (store w1))) (store w1) in
    Renderer.renderAll (with_store (Store._invalidateCache st2) w1).

(** [statusMap[r.status] || 'l'] of [onConfirmSave]: the letter of the
    three statuses, [l] for anything else.  (For a status that names a
    member of [Object.prototype] the code sends the text of that member in
    the place of the letter; the backend expands it to [Leave] as it does
    the letter [l] that stands for it here.) *)
Definition statusCode (status : Js.value) : string :=
  if bool_decide (status = "present") then "p"
  else if bool_decide (status = "absent") then "a"
  else if bool_decide (status = "leave") then "l"
  else "l".

(** One element of [compactRecords]: [id:status:name:appNum]. *)
Definition compactRecord (r : AttendanceRecord) : string :=
  JsUri.encodeURIComponent (rec_studentId r) +:+ ":" +:+
  statusCode (rec_status r) +:+ ":" +:+
  JsUri.encodeURIComponent (rec_studentName r) +:+ ":" +:+
  JsUri.encodeURIComponent (rec_appNumber r).

(** The [records] parameter of the save request. *)
Definition compactRecords (records : list AttendanceRecord) : string :=
  JsUri.join "|" (compactRecord <$> records).

End Handlers.

(** ** MODULE 11: MergeView *)

Module MergeView.

Definition getVal (data : option CellGroup) (id : string) : Js.value :=
  match data with
  | None => MISSING
  | Some (JsMap m) => Js.or_else (m !! id) "leave"
  | Some (JsObject o) => Js.or_default (Js.prop o id) "leave"
  end.

(** The expression bound to [finalStatus] in [open] and to [final] in
    [getMergedExportData]. *)
Definition finalStatus (b1 b2 : Js.value) : string :=
  if negb (bool_decide (b1 = MISSING)) || negb (bool_decide (b2 = MISSING))
  then Store.getFinalStatus
         (if bool_decide (b1 = MISSING) then Js.Str "leave" else b1)
         (if bool_decide (b2 = MISSING) then Js.Str "leave" else b2)
  else MISSING.

Record MergedRow := {
  row_name : string;
  row_appNumber : string;
  row_id : string;
  batch1Status : Js.value;
  batch2Status : Js.value;
  row_finalStatus : string
}.

Definition mergedRow (batch1Data batch2Data : option CellGroup)
    (s : Student) : MergedRow :=
  let b1 := getVal batch1Data (student_id s) in
  let b2 := getVal batch2Data (student_id s) in
  {| row_name := student_name s; row_appNumber := student_appNumber s;
     row_id := student_id s; batch1Status := b1; batch2Status := b2;
     row_finalStatus := finalStatus b1 b2 |}.

(** The rows [open] builds, before they are sorted by name: none when
    neither batch has a cell group for the current date.  The roster is
    read through [getAllStudents]; ids without a student are skipped
    here. *)
Definition mergedRows (st : StoreState) : option (list MergedRow) :=
  let batch1Data := Store.batchDataAt (currentDate st) "batch_01" st in
  let batch2Data := Store.batchDataAt (currentDate st) "batch_02" st in
  match batch1Data, batch2Data with
  | None, None => None
  | _, _ =>
      Some (mergedRow batch1Data batch2Data
              <$> omap id (Store.getAllStudents st))
  end.

(** The three status values of each row of [getMergedExportData], before
    they are capitalised and the rows sorted; there is no early return
    here. *)
Definition exportRows (st : StoreState) : list MergedRow :=
  let batch1Data := Store.batchDataAt (currentDate st) "batch_01" st in
  let batch2Data := Store.batchDataAt (currentDate st) "batch_02" st in
  mergedRow batch1Data batch2Data <$> omap id (Store.getAllStudents st).

(** The seven counters of [open]. *)
Record Counts := {
  b1Present : nat;
  b1Absent : nat;
  b2Present : nat;
  b2Absent : nat;
  finalPresent : nat;
  finalAbsent : nat;
  finalLeave : nat
}.

Definition zeroCounts : Counts :=
  {| b1Present := 0; b1Absent := 0; b2Present := 0; b2Absent := 0;
     finalPresent := 0; finalAbsent := 0; finalLeave := 0 |}.

(** The counting done in one iteration of the loop of [open]. *)
Definition countRow (c : Counts) (r : MergedRow) : Counts :=
  let b1 := batch1Status r in
  let b2 := batch2Status r in
  let f := row_finalStatus r in
  {| b1Present :=
       if bool_decide (b1 = "present") then S (b1Present c) else b1Present c;
     b1Absent :=
       if bool_decide (b1 = "present") then b1Absent c
       else if bool_decide (b1 = "absent") then S (b1Absent c)
       else b1Absent c;
     b2Present :=
       if bool_decide (b2 = "present") then S (b2Present c) else b2Present c;
     b2Absent :=
       if bool_decide (b2 = "present") then b2Absent c
       else if bool_decide (b2 = "absent") then S (b2Absent c)
       else b2Absent c;
     finalPresent :=
       if bool_decide (f = "present") then S (finalPresent c)
       else finalPresent c;
     finalAbsent :=
       if bool_decide (f = "present") then finalAbsent c
       else if bool_decide (f = "absent") then S (finalAbsent c)
       else finalAbsent c;
     finalLeave :=
       if bool_decide (f = "present") then finalLeave c
       else if bool_decide (f = "absent") then finalLeave c
       else if bool_decide (f = "leave") then S (finalLeave c)
       else finalLeave c |}.

(** The counters [open] shows above the table, when it builds one. *)
Definition reportCounts (st : StoreState) : option Counts :=
  foldl countRow zeroCounts <$> mergedRows st.

End MergeView.

(** ** MODULE 6: API *)

Module API.

(** [_onStudentsLoaded]: the roster is replaced, the cell group of the
    current date and batch is initialised and the page is painted. *)
Definition _onStudentsLoaded (students : list Student) (w : World) : World :=
  let w1 := Store.setStudents students w in
  let st2 :=
    Store.initDateBatch (currentDate (store w1))
      (batchKeyOf (currentBatch (store w1))) (store w1) in
  Renderer.renderAll (with_store st2 w1).

(** A row of the answer to the attendance query: the values of its cells
    0 (date), 1 (batch), 2 (student id) and 5 (status); [None] is a cell
    that is [null] or has no value. *)
Record SheetRow := {
  cell_date : option string;
  cell_batch : option string;
  cell_studentId : option string;
  cell_status : option string
}.

(** [cells[k] && cells[k].v ? String(cells[k].v).trim() : ''] *)
Definition cellText (c : option string) : string :=
  match c with
  | Some (String a s) => Js.trim (String a s)
  | _ => EmptyString
  end.

(** The status of a row, ['leave'] when the cell has no value. *)
Definition cellStatus (c : option string) : string :=
  match c with
  | Some (String a s) => Js.toLowerCase (Js.trim (String a s))
  | _ => "leave"
  end.

(** The batch key and the record a row contributes, if it is kept. *)
Definition parseRow (date : string) (row : SheetRow)
    : option (string * (string * string)) :=
  let rowDate := cellText (cell_date row) in
  let batchName := cellText (cell_batch row) in
  let studentId := cellText (cell_studentId row) in
  let status := cellStatus (cell_status row) in
  if negb (Js.truthy studentId) || negb (bool_decide (rowDate = date))
  then None
  else
    let batchKey :=
      if Js.includes batchName "01" || Js.includes batchName "5:30"
      then "batch_01" else "batch_02" in
    Some (batchKey, (studentId, status)).

(** The object [batches]: the kept records of each batch key, in the order
    of the rows. *)
Definition groupRows (date : string) (rows : list SheetRow)
    : gmap string (list (string * string)) :=
  foldl (fun acc row =>
           match parseRow date row with
           | None => acc
           | Some (batchKey, rec) =>
               <[batchKey := default [] (acc !! batchKey) ++ [rec]]> acc
           end) ∅ rows.

(** The Map built for one batch: every student of the roster on leave,
    then the records of the cloud in order. *)
Definition cloudBatchMap (roster : gmap string Student)
    (recs : list (string * string)) : gmap string string :=
  foldl (fun m rec => <[rec.1 := Js.or_else (Some rec.2) LEAVE]> m)
    ((fun _ => LEAVE) <$> roster) recs.

(** One iteration of the loop over the keys of [batches]. *)
Definition mergeBatch (dateKey : string)
    (batches : gmap string (list (string * string)))
    (st : StoreState) (batchKey : string) : StoreState :=
  match batches !! batchKey with
  | None => st
  | Some recs =>
      let day := default ∅ (attendance st !! dateKey) in
      let st1 :=
        set_attendance
          (<[dateKey :=
               <[batchKey := JsMap (cloudBatchMap (studentMap st) recs)]>
                 day]> (attendance st)) st in
      set_lockedBatches ({[ lockKey dateKey batchKey ]} ∪ lockedBatches st1)
        st1
  end.

(** The callback of [fetchAttendance] for the date [date].  [response] is
    [Some rows] for an answer with a table, [None] for any other answer, a
    failed request or a timeout; the result is the value the promise
    resolves to.  The keys of [batches] are among the two batch keys, and
    the iterations for different keys write different cells. *)
Definition onAttendanceResponse (date : string)
    (response : option (list SheetRow)) (w : World) : bool * World :=
  match response with
  | None => (false, w)
  | Some [] => (false, w)
  | Some rows =>
      let st := store w in
      let st0 :=
        set_attendance
          (<[date := default ∅ (attendance st !! date)]> (attendance st))
          st in
      let batches := groupRows date rows in
      let st1 := foldl (mergeBatch date batches) st0
                   ["batch_01"; "batch_02"] in
      (true,
       Renderer.renderAll
         (StorageManager.saveState
            (with_store (Store._invalidateCache st1) w)))
  end.

End API.

(** ** MODULE 12: SectionView *)

Module SectionView.

Record Stats := {
  stat_present : nat;
  stat_absent : nat;
  stat_leave : nat
}.

Definition countStatus (status : string) (acc : Stats) : Stats :=
  if bool_decide (status = "present") then
    {| stat_present := S (stat_present acc); stat_absent := stat_absent acc;
       stat_leave := stat_leave acc |}
  else if bool_decide (status = "absent") then
    {| stat_present := stat_present acc; stat_absent := S (stat_absent acc);
       stat_leave := stat_leave acc |}
  else
    {| stat_present := stat_present acc; stat_absent := stat_absent acc;
       stat_leave := S (stat_leave acc) |}.

(** [getStats]: the values of the cell group counted by status. *)
Definition getStats (data : option CellGroup) : Stats :=
  match data with
  | None => {| stat_present := 0; stat_absent := 0; stat_leave := 0 |}
  | Some g =>
      map_fold (fun _ status acc => countStatus status acc)
        {| stat_present := 0; stat_absent := 0; stat_leave := 0 |}
        (groupEntries g)
  end.

End SectionView.

(** ** MODULE 4: Utils *)

Module Utils.

(** [s.replace(/c/g, by)] for a pattern of one character. *)
Fixpoint replaceAll (c : ascii) (by_ : string) (s : string) : string :=
  match s with
  | EmptyString => EmptyString
  | String a s' =>
      if Ascii.eqb a c then by_ +:+ replaceAll c by_ s'
      else String a (replaceAll c by_ s')
  end.

Definition escapeHtml (text : string) : string :=
  replaceAll "034" "&quot;"
    (replaceAll ">" "&gt;"
       (replaceAll "<" "&lt;"
          (replaceAll "&" "&amp;" text))).

End Utils.

(** ** The Apps Script backend of [config.js]

    The attendance sheet is the list of its rows below the header row,
    which [getAttendanceSheet] writes when it creates the sheet; a cell
    holds the string that was written to it. *)

Module CodeGs.

Record Row := {
  col_date : string;
  col_batch : string;
  col_studentId : string;
  col_studentName : string;
  col_appNumber : string;
  col_status : string;
  col_time : string;
  col_photoUrl : string;
  col_savedAt : string
}.

(** The [locked] field of the answer of [checkBatchLocked]. *)
Definition checkBatchLocked (date batch : string) (sheet : list Row) : bool :=
  existsb (fun r => bool_decide (col_date r = date)
                    && bool_decide (col_batch r = batch)) sheet.

(** The parameters of a [saveViaGet] request; [None] is a missing one. *)
Record Params := {
  param_date : option string;
  param_batch : option string;
  param_time : option string;
  param_records : option string
}.

Inductive Reply :=
| Saved (saved : nat)
| Failed (error : string).

(** A parameter that is present and not empty. *)
Definition given (p : option string) : option string :=
  match p with
  | Some (String c s) => Some (String c s)
  | _ => None
  end.

(** The status a code expands to. *)
Definition expandStatus (statusCode : string) : string :=
  if bool_decide (statusCode = "p") then "Present"
  else if bool_decide (statusCode = "a") then "Absent"
  else "Leave".

(** One iteration of the parsing loop: [Some None] when the part is
    skipped, [None] when a field cannot be decoded. *)
Definition parsePart (date batch time savedAt : string) (part : string)
    : option (option Row) :=
  match JsUri.split ":" part with
  | p0 :: statusCode :: more =>
      studentId ← JsUri.decodeURIComponent p0;
      studentName ←
        match more with
        | p2 :: _ => JsUri.decodeURIComponent p2
        | [] => Some EmptyString
        end;
      appNumber ←
        match more with
        | _ :: p3 :: _ => JsUri.decodeURIComponent p3
        | _ => Some EmptyString
        end;
      Some (Some {| col_date := date; col_batch := batch;
                    col_studentId := studentId;
                    col_studentName := studentName;
                    col_appNumber := appNumber;
                    col_status := expandStatus statusCode;
                    col_time := time; col_photoUrl := EmptyString;
                    col_savedAt := savedAt |})
  | _ => Some None
  end.

(** The rows of the whole [records] parameter, in order. *)
Fixpoint parseParts (date batch time savedAt : string) (parts : list string)
    : option (list Row) :=
  match parts with
  | [] => Some []
  | part :: rest =>
      r ← parsePart date batch time savedAt part;
      rows ← parseParts date batch time savedAt rest;
      Some (match r with Some row => row :: rows | None => rows end)
  end.

(** [saveAttendanceViaGet], with the clock readings [nowTime] and
    [savedAt]; an exception is caught by [doGet] and answered as a
    failure. *)
Definition saveAttendanceViaGet (params : Params) (nowTime savedAt : string)
    (sheet : list Row) : Reply * list Row :=
  match given (param_date params), given (param_batch params),
        given (param_records params) with
  | Some date, Some batch, Some records =>
      let time := default nowTime (given (param_time params)) in
      if checkBatchLocked date batch sheet then
        (Failed "This batch is already saved and locked.", sheet)
      else
        match parseParts date batch time savedAt (JsUri.split "|" records) with
        | None => (Failed "URIError: URI malformed", sheet)
        | Some rows => (Saved (length rows), sheet ++ rows)
        end
  | _, _, _ => (Failed "Missing date, batch, or records", sheet)
  end.

(** A record of the answer of [getAttendance]. *)
Record Fetched := {
  got_date : string;
  got_batch : string;
  got_studentId : string;
  got_studentName : string;
  got_status : string;
  got_time : string;
  got_photoUrl : string
}.

Definition fetchedOf (r : Row) : Fetched :=
  {| got_date := col_date r; got_batch := col_batch r;
     got_studentId := col_studentId r;
     got_studentName := col_studentName r;
     got_status := Js.toLowerCase (col_status r);
     got_time := col_time r; got_photoUrl := col_photoUrl r |}.

(** The records and the [locked] flag of the answer of [getAttendance]. *)
Definition getAttendance (date batch : string) (sheet : list Row)
    : list Fetched * bool :=
  let records :=
    fetchedOf <$>
      filter (fun r => col_date r = date /\ col_batch r = batch) sheet in
  (records, bool_decide (0 < length records)%nat).

(** The request [onConfirmSave] sends for the records of a batch, as the
    backend receives its parameters, the query string decoded. *)
Definition saveRequest (st : StoreState) (records : list AttendanceRecord)
    (timeStr : string) : Params :=
  {| param_date := Some (currentDate st);
     param_batch :=
       Some (CONFIG.batch_name (Handlers.batchConfigOf (currentBatch st)));
     param_time := Some timeStr;
     param_records := Some (Handlers.compactRecords records) |}.

(** The row the backend stores for a record of the app. *)
Definition rowOfRecord (date batch time savedAt : string)
    (r : AttendanceRecord) : Row :=
  {| col_date := date; col_batch := batch;
     col_studentId := rec_studentId r;
     col_studentName := rec_studentName r;
     col_appNumber := rec_appNumber r;
     col_status := expandStatus (Handlers.statusCode (rec_status r));
     col_time := time; col_photoUrl := EmptyString;
     col_savedAt := savedAt |}.

End CodeGs.

(** ** The Apps Script backend with duplicate detection

    The sheet is the list of all its rows, the header row first. *)

Module AppsScript.

Record Row := {
  col_date : string;
  col_batch : string;
  col_batchTime : string;
  col_studentId : string;
  col_studentName : string;
  col_appNumber : string;
  col_status : string;
  col_savedAt : string
}.

Definition HEADERS : Row :=
  {| col_date := "Date"; col_batch := "Batch";
     col_batchTime := "Batch Time"; col_studentId := "Student ID";
     col_studentName := "Student Name"; col_appNumber := "App Number";
     col_status := "Status"; col_savedAt := "Saved At" |}.

Definition isEmptyRow (r : Row) : bool :=
  negb (Js.truthy (col_date r)) && negb (Js.truthy (col_batch r)) &&
  negb (Js.truthy (col_batchTime r)) && negb (Js.truthy (col_studentId r)) &&
  negb (Js.truthy (col_studentName r)) && negb (Js.truthy (col_appNumber r)) &&
  negb (Js.truthy (col_status r)) && negb (Js.truthy (col_savedAt r)).

(** [ensureHeaders]: the first row is written when it is empty. *)
Definition ensureHeaders (sheet : list Row) : list Row :=
  match sheet with
  | [] => [HEADERS]
  | first :: rest => if isEmptyRow first then HEADERS :: rest else sheet
  end.

(** The key of duplicate detection: date, batch and student id. *)
Definition keyOf (date batch studentId : string) : string :=
  date +:+ "|" +:+ batch +:+ "|" +:+ studentId.

Definition rowKey (r : Row) : string :=
  keyOf (col_date r) (col_batch r) (col_studentId r).

(** A record of the request body, as [JSON.parse] gives it. *)
Record BodyRecord := {
  body_date : string;
  body_batch : string;
  body_batchTime : string;
  body_studentId : string;
  body_studentName : string;
  body_appNumber : string;
  body_status : string;
  body_time : string
}.

Definition recordKey (r : BodyRecord) : string :=
  keyOf (body_date r) (body_batch r) (body_studentId r).

(** [existingKeys]: the keys of the rows below the first one. *)
Definition existingKeys (sheet : list Row) : gset string :=
  list_to_set (rowKey <$> tail sheet).

Definition newRow (savedAt : string) (r : BodyRecord) : Row :=
  {| col_date := body_date r; col_batch := body_batch r;
     col_batchTime := body_batchTime r; col_studentId := body_studentId r;
     col_studentName := body_studentName r;
     col_appNumber := body_appNumber r;
     col_status := body_status r; col_savedAt := savedAt |}.

Inductive Reply :=
| Saved (saved skipped total : nat)
| Failed (error : string).

(** [handleSaveAttendance] for the records of the request body, with the
    clock reading [savedAt]; the optional copy of the photo to the drive
    does not touch the sheet. *)
Definition handleSaveAttendance (records : list BodyRecord)
    (savedAt : string) (sheet : list Row) : Reply * list Row :=
  match records with
  | [] => (Failed "No records provided", sheet)
  | _ =>
      let sheet1 := ensureHeaders sheet in
      let keys := existingKeys sheet1 in
      let fresh :=
        filter (fun r => recordKey r ∉ keys) records in
      let newRows := newRow savedAt <$> fresh in
      (Saved (length newRows) (length records - length newRows)
         (length records),
       sheet1 ++ newRows)
  end.

End AppsScript.

(** ** Sample states *)

Definition idleHandlers : HandlersState :=
  {| _lastTapTime := 0; _lastTapStudentId := None;
     _singleTapTimer := None; _popoverStudentId := None |}.

Definition studentA : Student :=
  {| student_id := "S1"; student_name := "Asha";
     student_appNumber := "APP-1"; student_active := true |}.
Definition studentB : Student :=
  {| student_id := "S2"; student_name := "Bina";
     student_appNumber := "APP-2"; student_active := true |}.
Definition studentC : Student :=
  {| student_id := "S3"; student_name := "Chitra";
     student_appNumber := "APP-3"; student_active := true |}.

(** A page on 2024-05-02 with an endpoint configured and nothing loaded. *)
Definition bootWorld : World :=
  {| store :=
       {| studentMap := ∅; studentOrder := []; attendance := ∅;
          lockedBatches := ∅; photoUrls := ∅;
          currentDate := "2024-05-02"; currentBatch := batch_01;
          searchQuery := ""; photoBase64 := None;
          _cache := _cache initialStore |};
     localStorage := ∅;
     API_URL := "https://script.example/exec";
     emitted := [];
     handlers := idleHandlers |}.

(** The roster A, B, C loaded, no cell group yet. *)
Definition rosterWorld : World :=
  Store.setStudents [studentA; studentB; studentC] bootWorld.

(** The same with the cell group of the current batch initialised. *)
Definition readyWorld : World :=
  with_store
    (Store.initDateBatch "2024-05-02" "batch_01" (store rosterWorld))
    rosterWorld.

(** The current batch submitted and locked. *)
Definition lockedWorld : World := Store.lockCurrentBatch None readyWorld.

(** ** Notions used in the statements *)

(** The read of one student in a cell group, as [getStatus], [setStatus]
    and the merge report do it. *)
Definition groupRead (g : CellGroup) (i : string) : Js.value :=
  match g with
  | JsMap m => Js.or_else (m !! i) LEAVE
  | JsObject o => Js.or_default (Js.prop o i) LEAVE
  end.

(** A page that starts on the storage another session left. *)
Definition reloaded (boot : StoreState) (w : World) : World :=
  StorageManager.loadState (with_store boot w).

(** The session of [readyWorld] after A was marked present, and the page
    started again on what it stored. *)
Definition markedWorld : World := Store.setStatus "S1" "present" readyWorld.

Definition restartedWorld : World := reloaded (store bootWorld) markedWorld.

(** The batch of [markedWorld] submitted with a photo link, and the page
    started on the state [saveState] writes for it. *)
Definition submittedWorld : World :=
  Store.lockCurrentBatch (Some "https://drive.example/photo-1") markedWorld.

Definition resumedWorld : World :=
  StorageManager.loadState
    (with_store (store bootWorld) (StorageManager.saveState submittedWorld)).

(** No status stored for the current date is the marker of missing data
    itself. *)
Definition markerFree (st : StoreState) : Prop :=
  map_Forall
    (fun _ g => map_Forall (fun _ v => v <> MISSING) (groupEntries g))
    (default ∅ (attendance st !! currentDate st)).

(** The rule in the words of the specification: the marker of missing data
    is read as [leave], then [present] wins over [absent], which wins over
    [leave]. *)
Definition normalizeMissing (b : Js.value) : Js.value :=
  if bool_decide (b = MISSING) then Js.Str "leave" else b.

Definition precedenceRule (b1 b2 : Js.value) : string :=
  let n1 := normalizeMissing b1 in
  let n2 := normalizeMissing b2 in
  if bool_decide (n1 = "present" \/ n2 = "present") then "present"
  else if bool_decide (n1 = "absent" \/ n2 = "absent") then "absent"
  else "leave".

(** A date key never contains the separator of lock keys; ISO dates such as
    [2024-05-01] and the empty value of the date picker are of this kind. *)
Fixpoint noBar (s : string) : bool :=
  match s with
  | EmptyString => true
  | String c s' => negb (Ascii.eqb c "|") && noBar s'
  end.

(** A roster keyed by the students' own ids, as [setStudents] builds it. *)
Definition rosterKeyed (st : StoreState) : Prop :=
  forall id s, studentMap st !! id = Some s -> student_id s = id.

(** The cache, when marked valid, holds the recomputed view. *)
Definition cacheCoherent (st : StoreState) : Prop :=
  cache_valid (_cache st) = true -> viewOf (_cache st) = Store.computeFresh st.

(** The students a view mentions. *)
Definition viewStudents (v : View) : list Student :=
  visible v ++ present v ++ absent v ++ leave v.

(** Batch 2 selected after A was marked present in batch 1, and A marked
    absent in batch 2. *)
Definition batch2World : World :=
  Store.setStatus "S1" "absent"
    (Handlers.onBatchChange batch_02
       (Store.setStatus "S1" "present" readyWorld)).

(** A session of writes and reads of the computed view. *)
Inductive Op :=
| OpSetStatus (studentId status : string)
| OpRead.

(** The reads of a session, through [getComputed] and its cache. *)
Fixpoint runCached (ops : list Op) (w : World) : list View :=
  match ops with
  | [] => []
  | OpSetStatus studentId status :: rest =>
      runCached rest (Store.setStatus studentId status w)
  | OpRead :: rest =>
      let r := Store.getComputed (store w) in
      viewOf r.1 :: runCached rest (with_store r.2 w)
  end.

(** The reads of the same session when every read recomputes the view from
    the roster, the ledger, the current date and batch and the search text,
    without looking at the cache. *)
Fixpoint runFromScratch (ops : list Op) (w : World) : list View :=
  match ops with
  | [] => []
  | OpSetStatus studentId status :: rest =>
      runFromScratch rest (Store.setStatus studentId status w)
  | OpRead :: rest =>
      Store.computeFresh (store w) :: runFromScratch rest w
  end.

(** The world with another content of [Store._cache]. *)
Definition with_cache (c : Cache) (w : World) : World :=
  with_store (set_cache c (store w)) w.

(** Reads before and after writes, two of them in a row. *)
Definition sampleSession : list Op :=
  [ OpRead; OpSetStatus "S1" "present"; OpRead; OpRead;
    OpSetStatus "S2" "absent"; OpSetStatus "S1" "leave"; OpRead ].

(** The save dialog open on batch 1 with A marked present and a photo
    attached. *)
Definition saveWorld : World :=
  Handlers.onPhotoCompressed "data:image/jpeg;base64,AAAA"
    (Handlers.onSaveClick (Store.setStatus "S1" "present" readyWorld)).

(** The test of the loop of [getComputed] for one id of the roster order:
    the student shown for it, if any. *)
Definition shownStudent (st : StoreState) (id : string) : option Student :=
  match studentMap st !! id with
  | None => None
  | Some s =>
      if student_active s
         && negb (bool_decide (id ∈ Store.getBatch1PresentSet st))
         && negb (Store.searchMiss
                    (Js.toLowerCase (Js.trim (searchQuery st))) s)
      then Some s else None
  end.

(** The records of the answer to the attendance query that are kept for
    one batch key, in the order of the rows. *)
Definition recordsFor (date : string) (rows : list API.SheetRow)
    (batchKey : string) : list (string * string) :=
  omap (fun row =>
          match API.parseRow date row with
          | Some (k, rec) =>
              if bool_decide (k = batchKey) then Some rec else None
          | None => None
          end) rows.

(** The status the last record of a student gives, [leave] when the
    student has no record or the record an empty status. *)
Definition lastStatusOf (recs : list (string * string)) (i : string)
    : string :=
  match last (filter (fun r => r.1 = i) recs) with
  | Some r => Js.or_else (Some r.2) LEAVE
  | None => LEAVE
  end.

(** The store right after the loop of the callback. *)
Definition mergedStore (date : string) (rows : list API.SheetRow)
    (st : StoreState) : StoreState :=
  foldl (API.mergeBatch date (API.groupRows date rows))
    (set_attendance
       (<[date := default ∅ (attendance st !! date)]> (attendance st)) st)
    ["batch_01"; "batch_02"].

(** An answer of the cloud for 2024-05-02: A present and B absent in
    batch 1, a row of another date and a row without student id. *)
Definition sampleRows : list API.SheetRow :=
  [ {| API.cell_date := Some "2024-05-02"; API.cell_batch := Some "Batch 01";
       API.cell_studentId := Some "S1"; API.cell_status := Some "Present" |};
    {| API.cell_date := Some "2024-05-02"; API.cell_batch := Some "Batch 01";
       API.cell_studentId := Some "S2"; API.cell_status := Some "Absent" |};
    {| API.cell_date := Some "2024-05-01"; API.cell_batch := Some "Batch 02";
       API.cell_studentId := Some "S3"; API.cell_status := Some "Present" |};
    {| API.cell_date := Some "2024-05-02"; API.cell_batch := Some "Batch 02";
       API.cell_studentId := None; API.cell_status := Some "Present" |} ].

(** A state stored in the older format. *)
Definition legacyWorld : World :=
  with_localStorage
    {[ CONFIG.STORAGE_KEYS.ATTENDANCE :=
         ItemState
           {| saved_attendance := None;
              saved_savedBatches :=
                SavedNested
                  {[ "2024-05-01" :=
                       {[ "batch_01" := true; "batch_02" := false ]} ]};
              saved_photoUrls := None |} ]}
    bootWorld.

(** A string without the character [c]. *)
Definition lacks (c : ascii) (s : string) : Prop :=
  Forall (fun a => a <> c) (String.list_ascii_of_string s).

(** The sheet with the present and absent marks of A and B for batch 1. *)
Definition sampleRecords : list AttendanceRecord :=
  Handlers.buildRecords (store saveWorld) [studentA; studentB] "06:05:00".

(** The same two records as the body of a request to the backend with
    duplicate detection. *)
Definition sampleBody : list AppsScript.BodyRecord :=
  [ {| AppsScript.body_date := "2024-05-02";
       AppsScript.body_batch := "Batch 01";
       AppsScript.body_batchTime := "5:30 AM";
       AppsScript.body_studentId := "S1";
       AppsScript.body_studentName := "Asha";
       AppsScript.body_appNumber := "APP-1";
       AppsScript.body_status := "present";
       AppsScript.body_time := "06:05:00" |};
    {| AppsScript.body_date := "2024-05-02";
       AppsScript.body_batch := "Batch 01";
       AppsScript.body_batchTime := "5:30 AM";
       AppsScript.body_studentId := "S2";
       AppsScript.body_studentName := "Bina";
       AppsScript.body_appNumber := "APP-2";
       AppsScript.body_status := "leave";
       AppsScript.body_time := "06:05:00" |} ].

(** The answer of the attendance query for a row of the sheet of
    [config.js]: a cell without text comes back as [null]. *)
Definition cellOf (v : string) : option string :=
  match v with
  | EmptyString => None
  | String _ _ => Some v
  end.

Definition queryRow (r : CodeGs.Row) : API.SheetRow :=
  {| API.cell_date := cellOf (CodeGs.col_date r);
     API.cell_batch := cellOf (CodeGs.col_batch r);
     API.cell_studentId := cellOf (CodeGs.col_studentId r);
     API.cell_status := cellOf (CodeGs.col_status r) |}.

(** The status that comes back from the sheet for a status sent to it. *)
Definition sheetStatus (status : Js.value) : string :=
  if bool_decide (status = "present") then "present"
  else if bool_decide (status = "absent") then "absent"
  else "leave".

(** * Properties *)

(** ** Elementary facts about the embedding *)

Lemma batchConfigOf_find (b : BatchId) :
  List.find (fun c => bool_decide (CONFIG.batch_id c = batchKeyOf b))
    CONFIG.BATCHES = Some (Handlers.batchConfigOf b).
Proof. destruct b; reflexivity. Qed.

(** [getComputed] only ever writes the cache. *)
Lemma getComputed_store (st : StoreState) :
  exists c, (Store.getComputed st).2 = set_cache c st.
Proof.
  unfold Store.getComputed. destruct (cache_valid (_cache st)) eqn:E.
  - exists (_cache st). destruct st; reflexivity.
  - eexists. reflexivity.
Qed.

Lemma getComputed_attendance (st : StoreState) :
  attendance (Store.getComputed st).2 = attendance st.
Proof. destruct (getComputed_store st) as [c ->]. reflexivity. Qed.

Lemma getComputed_lockedBatches (st : StoreState) :
  lockedBatches (Store.getComputed st).2 = lockedBatches st.
Proof. destruct (getComputed_store st) as [c ->]. reflexivity. Qed.

Lemma getComputed_photoUrls (st : StoreState) :
  photoUrls (Store.getComputed st).2 = photoUrls st.
Proof. destruct (getComputed_store st) as [c ->]. reflexivity. Qed.

Lemma getComputed_currentDate (st : StoreState) :
  currentDate (Store.getComputed st).2 = currentDate st.
Proof. destruct (getComputed_store st) as [c ->]. reflexivity. Qed.

Lemma getComputed_currentBatch (st : StoreState) :
  currentBatch (Store.getComputed st).2 = currentBatch st.
Proof. destruct (getComputed_store st) as [c ->]. reflexivity. Qed.

Lemma getComputed_photoBase64 (st : StoreState) :
  photoBase64 (Store.getComputed st).2 = photoBase64 st.
Proof. destruct (getComputed_store st) as [c ->]. reflexivity. Qed.

(** A status read depends on the ledger alone. *)
Lemma getStatusAt_attendance (st st' : StoreState) (d b i : string) :
  attendance st' = attendance st ->
  Store.getStatusAt d b i st' = Store.getStatusAt d b i st.
Proof.
  intros H. unfold Store.getStatusAt, Store.batchDataAt. now rewrite H.
Qed.

Lemma getStatusAt_entries (st : StoreState) (d b i : string) :
  Store.getStatusAt d b i st =
  match Store.batchDataAt d b st with
  | Some g => groupRead g i
  | None => Js.Str LEAVE
  end.
Proof.
  unfold Store.getStatusAt.
  destruct (Store.batchDataAt d b st) as [[m|o]|]; reflexivity.
Qed.

(** ** Reads of a plain object *)

Lemma prop_own (o : gmap string string) (k s : string) :
  o !! k = Some s -> Js.prop o k = Some (Js.Str s).
Proof. unfold Js.prop. now intros ->. Qed.

Lemma prop_not_inherited (o : gmap string string) (k : string) :
  k ∉ Js.ObjectPrototype -> Js.prop o k = Js.Str <$> o !! k.
Proof.
  intros H. unfold Js.prop. destruct (o !! k); [reflexivity |].
  now rewrite bool_decide_eq_false_2.
Qed.

Lemma or_default_Str (a : option string) (d : string) :
  Js.or_default (Js.Str <$> a) d = Js.Str (Js.or_else a d).
Proof. destruct a as [[|c s]|]; reflexivity. Qed.

(** A read that finds an own entry, or a name the prototype does not
    have, is the read of the entries. *)
Lemma groupRead_entries (g : CellGroup) (i : string) :
  i ∉ Js.ObjectPrototype \/ is_Some (groupEntries g !! i) ->
  groupRead g i = Js.Str (Js.or_else (groupEntries g !! i) LEAVE).
Proof.
  destruct g as [m|o]; cbn [groupRead groupEntries]; [reflexivity |].
  intros [H | [s H]].
  - now rewrite prop_not_inherited, or_default_Str.
  - now rewrite (prop_own o i s H), H, <- (or_default_Str (Some s)).
Qed.

(** A read gives a status only from an own entry. *)
Lemma groupRead_status (g : CellGroup) (i v : string) :
  v <> LEAVE -> v <> "" ->
  groupRead g i = Js.Str v <-> groupEntries g !! i = Some v.
Proof.
  intros Hv He.
  assert (Hl : Js.Str LEAVE = Js.Str v -> False)
    by (intros H; injection H as H; now destruct Hv).
  destruct g as [m|o]; cbn [groupRead groupEntries].
  - destruct (m !! i) as [[|c s]|]; cbn; split; intros H;
      try (now destruct Hl); try discriminate H;
      try (injection H as H); try (now rewrite H).
    now destruct He.
  - unfold Js.prop. destruct (o !! i) as [[|c s]|]; cbn;
      [| | case_bool_decide as Hp; cbn]; split; intros H;
      try (now destruct Hl); try discriminate H;
      try (injection H as H); try (now rewrite H).
    now destruct He.
Qed.

Lemma assign_other (o : gmap string string) (k v i : string) :
  i <> k -> Js.assign o k v !! i = o !! i.
Proof.
  intros H. unfold Js.assign.
  destruct (o !! k); [| case_bool_decide]; try reflexivity;
    now rewrite lookup_insert_ne.
Qed.

Lemma assign_same (o : gmap string string) (k v : string) :
  k <> "__proto__" \/ is_Some (o !! k) -> Js.assign o k v !! k = Some v.
Proof.
  unfold Js.assign. intros [H | [s H]].
  - destruct (o !! k); [| rewrite bool_decide_eq_false_2 by exact H];
      apply lookup_insert_eq.
  - rewrite H. apply lookup_insert_eq.
Qed.

Lemma prop_assign_other (o : gmap string string) (k v i : string) :
  i <> k -> Js.prop (Js.assign o k v) i = Js.prop o i.
Proof. intros H. unfold Js.prop. now rewrite assign_other. Qed.

(** ** Default status *)

(** What holds of the default: a read gives [leave] when there is no cell
    group, when the group is a [Map] without entry for the student, and
    when it is a plain object without own entry for a student whose id
    names no member of [Object.prototype]. *)
Lemma getStatusAt_without_entry
    (st : StoreState) (dateKey batchKey studentId : string) :
  Store.batchDataAt dateKey batchKey st = None \/
  (exists m, Store.batchDataAt dateKey batchKey st = Some (JsMap m) /\
             m !! studentId = None) \/
  (exists o, Store.batchDataAt dateKey batchKey st = Some (JsObject o) /\
             o !! studentId = None /\ studentId ∉ Js.ObjectPrototype) ->
  Store.getStatusAt dateKey batchKey studentId st = LEAVE.
Proof.
  rewrite getStatusAt_entries.
  intros [-> | [(m & -> & H) | (o & -> & H & Hp)]]; [reflexivity | |].
  - cbn [groupRead]. now rewrite H.
  - rewrite groupRead_entries by now left. cbn [groupEntries]. now rewrite H.
Qed.

(** C4. The default fails on a cell group restored by [loadState]: the
    page started again on the storage of a session whose cell group has
    entries for S1, S2 and S3 only reads, for the id [constructor], the
    member of that name of [Object.prototype] and not [leave]; the session
    that stored the group, where it is a [Map], reads [leave] for the same
    id. *)
Theorem getStatus_inherited_member :
  Store.batchDataAt "2024-05-02" "batch_01" (store restartedWorld) =
    Some (JsObject {[ "S1" := "present"; "S2" := "leave";
                     "S3" := "leave" ]}) /\
  Store.getStatus "constructor" (store restartedWorld) =
    Js.Inherited "constructor" /\
  Store.getStatus "constructor" (store restartedWorld) <> LEAVE /\
  Store.getStatus "constructor" (store markedWorld) = LEAVE /\
  Store.getStatus "S2" (store restartedWorld) = LEAVE.
Proof.
  assert (H : Store.getStatus "constructor" (store restartedWorld) =
              Js.Inherited "constructor") by (vm_compute; reflexivity).
  split; [vm_compute; reflexivity |]. split; [exact H |].
  split; [rewrite H; discriminate |].
  split; vm_compute; reflexivity.
Qed.

(** ** Final status of the merge report *)

Lemma normalizeMissing_eq (b : Js.value) (v : string) :
  v <> "leave" -> v <> MISSING ->
  normalizeMissing b = Js.Str v <-> b = Js.Str v.
Proof.
  intros Hl Hm. unfold normalizeMissing. case_bool_decide as E.
  - subst b. split; intros H; injection H as H; now subst v.
  - reflexivity.
Qed.

Lemma getFinalStatus_precedenceRule (b1 b2 : Js.value) :
  Store.getFinalStatus b1 b2 = precedenceRule b1 b2.
Proof.
  unfold Store.getFinalStatus, precedenceRule.
  assert (Hp : forall b, normalizeMissing b = Js.Str "present"
                         <-> b = Js.Str "present")
    by (intros b; now apply normalizeMissing_eq).
  assert (Ha : forall b, normalizeMissing b = Js.Str "absent"
                         <-> b = Js.Str "absent")
    by (intros b; now apply normalizeMissing_eq).
  repeat case_bool_decide; simpl; try reflexivity;
    rewrite ?Hp, ?Ha in *; tauto.
Qed.

(** The expression of the merge report is the rule as soon as one of the
    two values is not the marker. *)
Lemma finalStatus_rule (b1 b2 : Js.value) :
  b1 <> Js.Str MISSING \/ b2 <> Js.Str MISSING ->
  MergeView.finalStatus b1 b2 = precedenceRule b1 b2.
Proof.
  intros H. unfold MergeView.finalStatus.
  rewrite <- getFinalStatus_precedenceRule.
  unfold Store.getFinalStatus.
  repeat case_bool_decide; simpl; subst; try reflexivity;
    try tauto; try discriminate.
Qed.

(** The value read in a cell group is the marker only when the marker is
    stored there. *)
Lemma getVal_data (g : CellGroup) (i : string) :
  groupEntries g !! i <> Some MISSING ->
  MergeView.getVal (Some g) i <> Js.Str MISSING.
Proof.
  destruct g as [m|o]; cbn [MergeView.getVal groupEntries]; intros H.
  - destruct (m !! i) as [[|c s]|]; cbn; intros E;
      first [discriminate E | congruence].
  - unfold Js.prop. destruct (o !! i) as [[|c s]|]; cbn;
      [| | case_bool_decide; cbn]; intros E;
      first [discriminate E | congruence].
Qed.

(** C2. [Store.getFinalStatus] follows the precedence rule on every pair
    of values, the marker of missing data counting as [leave]; in particular
    it maps (present, absent) to present, (absent, leave) to absent,
    (leave, leave) to leave and two markers to leave.  The merge report
    replaces the marker by [leave] and applies this function: the final
    status of a row is the value of the rule whenever one of the two batch
    values is not the marker, and so it is for every row that [open] builds
    when no status stored for the date is the marker itself, since [open]
    returns early when neither batch has a cell group. *)
Theorem finalStatus_precedence (b1 b2 : Js.value) :
  Store.getFinalStatus b1 b2 = precedenceRule b1 b2 /\
  Store.getFinalStatus "present" "absent" = "present" /\
  Store.getFinalStatus "absent" "leave" = "absent" /\
  Store.getFinalStatus "leave" "leave" = "leave" /\
  Store.getFinalStatus MISSING MISSING = "leave" /\
  (b1 <> Js.Str MISSING \/ b2 <> Js.Str MISSING ->
   MergeView.finalStatus b1 b2 = precedenceRule b1 b2) /\
  (forall st rows,
     markerFree st ->
     MergeView.mergedRows st = Some rows ->
     Forall (fun r =>
               MergeView.row_finalStatus r =
               precedenceRule (MergeView.batch1Status r)
                 (MergeView.batch2Status r)) rows).
Proof.
  split; [apply getFinalStatus_precedenceRule |].
  do 4 (split; [reflexivity |]).
  split; [apply finalStatus_rule |].
  intros st rows Hfree Hrows. unfold MergeView.mergedRows in Hrows.
  assert (Hval : forall k g i,
            Store.batchDataAt (currentDate st) k st = Some g ->
            MergeView.getVal (Some g) i <> Js.Str MISSING).
  { intros k g i Hg. apply getVal_data. intros Hm.
    unfold Store.batchDataAt in Hg. unfold markerFree in Hfree.
    destruct (attendance st !! currentDate st) as [day|];
      [| discriminate Hg].
    cbn [from_option id] in Hfree.
    exact (Hfree k g Hg i MISSING Hm eq_refl). }
  destruct (Store.batchDataAt (currentDate st) "batch_01" st)
    as [g1|] eqn:E1.
  - injection Hrows as <-. apply Forall_fmap, Forall_forall. intros s _.
    cbn. apply finalStatus_rule. left. now apply (Hval "batch_01").
  - destruct (Store.batchDataAt (currentDate st) "batch_02" st)
      as [g2|] eqn:E2; [| discriminate Hrows].
    injection Hrows as <-. apply Forall_fmap, Forall_forall. intros s _.
    cbn. apply finalStatus_rule. right. now apply (Hval "batch_02").
Qed.

Lemma finalStatus_precedence_witness :
  MergeView.finalStatus "absent" MISSING = "absent" /\
  (exists rows, MergeView.mergedRows (store markedWorld) = Some rows /\
     Forall (fun r =>
               MergeView.row_finalStatus r =
               precedenceRule (MergeView.batch1Status r)
                 (MergeView.batch2Status r)) rows).
Proof.
  destruct (finalStatus_precedence "absent" MISSING)
    as (_ & _ & _ & _ & _ & Hrule & Hrows).
  split.
  - rewrite Hrule; [reflexivity | left; discriminate].
  - destruct (MergeView.mergedRows (store markedWorld)) as [rows|] eqn:E;
      [| vm_compute in E; discriminate E].
    exists rows. split; [reflexivity |].
    apply (Hrows (store markedWorld) rows); [| exact E].
    apply (bool_decide_unpack _). vm_compute. reflexivity.
Defined.

(** ** Persistence *)

Lemma restore_serialize_attendance (st boot : StoreState) (d b : string) :
  Store.batchDataAt d b
    (StorageManager.restore (StorageManager.serialize st) boot)
  = JsObject <$> (groupEntries <$> Store.batchDataAt d b st).
Proof.
  unfold Store.batchDataAt, StorageManager.restore, StorageManager.serialize.
  simpl. rewrite !lookup_fmap.
  destruct (attendance st !! d) as [day|]; simpl; [| reflexivity].
  rewrite !lookup_fmap. destruct (day !! b) as [[m|o]|]; reflexivity.
Qed.

Lemma restore_serialize_lockedBatches (st boot : StoreState) :
  lockedBatches (StorageManager.restore (StorageManager.serialize st) boot)
  = lockedBatches st.
Proof. simpl. apply list_to_set_elements_L. Qed.

Lemma restore_serialize_photoUrls (st boot : StoreState) :
  photoUrls (StorageManager.restore (StorageManager.serialize st) boot)
  = photoUrls st.
Proof. reflexivity. Qed.

Lemma loadState_saveState_store (w : World) (boot : StoreState) :
  store (StorageManager.loadState
           (with_store boot (StorageManager.saveState w)))
  = StorageManager.restore (StorageManager.serialize (store w)) boot.
Proof.
  unfold StorageManager.loadState, StorageManager.saveState. simpl.
  rewrite lookup_insert_eq. reflexivity.
Qed.

(** A restored cell group reads like the stored one wherever the read
    finds an own entry or a name the prototype does not have. *)
Lemma restore_serialize_read (st boot : StoreState) (d b i : string) :
  i ∉ Js.ObjectPrototype \/
  is_Some (Store.batchDataAt d b st ≫= fun g => groupEntries g !! i) ->
  Store.getStatusAt d b i
    (StorageManager.restore (StorageManager.serialize st) boot) =
  Store.getStatusAt d b i st.
Proof.
  intros H. rewrite !getStatusAt_entries, restore_serialize_attendance.
  destruct (Store.batchDataAt d b st) as [g|]; [| reflexivity].
  cbn [fmap option_fmap option_map mbind option_bind] in *.
  rewrite (groupRead_entries (JsObject _)) by exact H.
  now rewrite (groupRead_entries g) by exact H.
Qed.

(** C9. The round trip is not exact for reads.  The session of
    [submittedWorld] holds a [Map] for its batch and reads [leave] for the
    id [toString]; the page started on what [saveState] wrote holds a
    plain object with the same three entries and reads, for that id, the
    member of that name of [Object.prototype].  The lock set and the photo
    links are the same on both sides. *)
Theorem reload_changes_inherited_read :
  Store.getStatusAt "2024-05-02" "batch_01" "toString"
    (store submittedWorld) = LEAVE /\
  Store.getStatusAt "2024-05-02" "batch_01" "toString"
    (store resumedWorld) = Js.Inherited "toString" /\
  Store.getStatusAt "2024-05-02" "batch_01" "toString"
    (store resumedWorld) <>
  Store.getStatusAt "2024-05-02" "batch_01" "toString"
    (store submittedWorld) /\
  (Store.batchDataAt "2024-05-02" "batch_01" (store resumedWorld)
     ≫= fun g => groupEntries g !! "toString") = None /\
  lockedBatches (store resumedWorld) = lockedBatches (store submittedWorld)
  /\
  photoUrls (store resumedWorld) = photoUrls (store submittedWorld).
Proof.
  assert (H1 : Store.getStatusAt "2024-05-02" "batch_01" "toString"
                 (store submittedWorld) = LEAVE)
    by (vm_compute; reflexivity).
  assert (H2 : Store.getStatusAt "2024-05-02" "batch_01" "toString"
                 (store resumedWorld) = Js.Inherited "toString")
    by (vm_compute; reflexivity).
  split; [exact H1 |]. split; [exact H2 |].
  split; [rewrite H1, H2; discriminate |].
  split; [vm_compute; reflexivity |].
  split; vm_compute; reflexivity.
Qed.

(** ** Clearing the current date *)

(** C10. Clearing the attendance of the current date never touches the
    photo links: the map is the same before and after, for every key and
    whatever the answer to the confirmation dialog. *)
Theorem onClearToday_keeps_photoUrls (confirmed : bool) (w : World) :
  photoUrls (store (Handlers.onClearToday confirmed w)) = photoUrls (store w).
Proof.
  unfold Handlers.onClearToday. destruct confirmed; [| reflexivity].
  cbn [negb]. unfold Renderer.renderAll.
  cbn [store with_store]. rewrite getComputed_photoUrls.
  unfold Store.initDateBatch.
  match goal with |- context [match ?x with _ => _ end] => destruct x end;
    reflexivity.
Qed.

Lemma prefix_empty (s : string) : String.prefix "" s = true.
Proof. destruct s; reflexivity. Qed.

Lemma prefix_cons (a b : ascii) (s1 s2 : string) :
  String.prefix (String a s1) (String b s2) =
  if ascii_dec a b then String.prefix s1 s2 else false.
Proof. reflexivity. Qed.

Lemma append_cons (a : ascii) (s t : string) :
  String a s +:+ t = String a (s +:+ t).
Proof. reflexivity. Qed.

Lemma append_empty (t : string) : "" +:+ t = t.
Proof. reflexivity. Qed.

Lemma lockKey_startsWith (d b : string) :
  Js.startsWith (lockKey d b) (d +:+ "|") = true.
Proof.
  unfold Js.startsWith, lockKey. induction d as [|a d IH].
  - rewrite !append_empty, append_cons, prefix_cons.
    destruct (ascii_dec "|" "|") as [_|N]; [| now destruct N].
    apply prefix_empty.
  - rewrite !append_cons, prefix_cons.
    destruct (ascii_dec a a) as [_|N]; [exact IH | now destruct N].
Qed.

Lemma noBar_cons (c : ascii) (s : string) :
  noBar (String c s) = true -> c <> "|"%char /\ noBar s = true.
Proof.
  cbn [noBar]. intros H. apply andb_prop in H as [H1 H2]. split; [| exact H2].
  intros ->. rewrite Ascii.eqb_refl in H1. discriminate H1.
Qed.

Lemma lockKey_startsWith_inv (d d' b : string) :
  noBar d = true -> noBar d' = true ->
  Js.startsWith (lockKey d' b) (d +:+ "|") = true -> d = d'.
Proof.
  unfold Js.startsWith, lockKey. revert d'.
  induction d as [|a d IH]; intros [|c d'] Hd Hd' H.
  - reflexivity.
  - apply noBar_cons in Hd' as [Hc _].
    rewrite append_empty, !append_cons, prefix_cons in H.
    destruct (ascii_dec "|" c) as [E|_]; [| discriminate H].
    now destruct Hc.
  - apply noBar_cons in Hd as [Ha _].
    rewrite append_empty, !append_cons, prefix_cons in H.
    destruct (ascii_dec a "|") as [E|_]; [| discriminate H].
    now destruct Ha.
  - apply noBar_cons in Hd as [_ Hd]. apply noBar_cons in Hd' as [_ Hd'].
    rewrite !append_cons, prefix_cons in H.
    destruct (ascii_dec a c) as [->|_]; [| discriminate H].
    f_equal. now apply IH.
Qed.

(** The ledger and the lock set that [onClearToday] leaves. *)
Lemma onClearToday_attendance (w : World) :
  attendance (store (Handlers.onClearToday true w)) =
  <[currentDate (store w) :=
      {[ batchKeyOf (currentBatch (store w)) :=
           JsMap ((fun _ => LEAVE) <$> studentMap (store w)) ]}]>
    (delete (currentDate (store w)) (attendance (store w))).
Proof.
  unfold Handlers.onClearToday. cbn [negb]. unfold Renderer.renderAll.
  cbn [store with_store]. rewrite getComputed_attendance.
  unfold Store.initDateBatch, StorageManager.saveState.
  cbn [store with_store with_localStorage attendance set_attendance
       set_lockedBatches currentDate currentBatch studentMap].
  rewrite lookup_delete_eq. cbn [default]. rewrite lookup_empty.
  cbn [Store._invalidateCache set_cache attendance set_attendance].
  rewrite insert_empty. reflexivity.
Qed.

Lemma onClearToday_lockedBatches (w : World) :
  lockedBatches (store (Handlers.onClearToday true w)) =
  filter (fun k => Js.startsWith k (currentDate (store w) +:+ "|") = false)
    (lockedBatches (store w)).
Proof.
  unfold Handlers.onClearToday. cbn [negb]. unfold Renderer.renderAll.
  cbn [store with_store]. rewrite getComputed_lockedBatches.
  unfold Store.initDateBatch.
  match goal with |- context [match ?x with _ => _ end] => destruct x end;
    reflexivity.
Qed.

(** C7. Clearing the current date: afterwards every status read for that
    date gives [leave], whatever the batch and the student, and no batch of
    that date is locked; for every other date the statuses are as before,
    and so are the lock memberships (date keys do not contain the
    separator of lock keys). *)
Theorem onClearToday_frame (w : World) :
  let w' := Handlers.onClearToday true w in
  let dateKey := currentDate (store w) in
  (forall batchKey studentId,
     Store.getStatusAt dateKey batchKey studentId (store w') = LEAVE) /\
  (forall batchKey,
     Store.isDateBatchLocked dateKey batchKey (store w') = false) /\
  (forall other batchKey studentId,
     other <> dateKey ->
     Store.getStatusAt other batchKey studentId (store w') =
     Store.getStatusAt other batchKey studentId (store w)) /\
  (forall other batchKey,
     other <> dateKey -> noBar dateKey = true -> noBar other = true ->
     Store.isDateBatchLocked other batchKey (store w') =
     Store.isDateBatchLocked other batchKey (store w)).
Proof.
  intros w' dateKey. subst w'. repeat split.
  - intros b i. rewrite getStatusAt_entries. unfold Store.batchDataAt.
    rewrite onClearToday_attendance. fold dateKey.
    rewrite lookup_insert_eq.
    destruct (decide (batchKeyOf (currentBatch (store w)) = b)) as [<-|Hb].
    + rewrite lookup_singleton_eq. cbn [groupRead].
      rewrite lookup_fmap.
      destruct (studentMap (store w) !! i); reflexivity.
    + rewrite lookup_singleton_ne by exact Hb. reflexivity.
  - intros b. unfold Store.isDateBatchLocked.
    rewrite onClearToday_lockedBatches. fold dateKey.
    apply bool_decide_eq_false. rewrite elem_of_filter.
    intros [H _]. rewrite lockKey_startsWith in H. discriminate H.
  - intros other b i Hne. unfold Store.getStatusAt, Store.batchDataAt.
    rewrite onClearToday_attendance. fold dateKey.
    rewrite lookup_insert_ne by congruence.
    rewrite lookup_delete_ne by congruence. reflexivity.
  - intros other b Hne Hd Ho. unfold Store.isDateBatchLocked.
    rewrite onClearToday_lockedBatches. fold dateKey.
    apply bool_decide_ext. rewrite elem_of_filter. split; [tauto |].
    intros Hin. split; [| exact Hin].
    destruct (Js.startsWith (lockKey other b) (dateKey +:+ "|")) eqn:E;
      [| reflexivity].
    apply lockKey_startsWith_inv in E; congruence.
Qed.

Lemma onClearToday_frame_witness :
  Store.getStatusAt "2024-05-01" "batch_01" "S1"
    (store (Handlers.onClearToday true lockedWorld)) =
  Store.getStatusAt "2024-05-01" "batch_01" "S1" (store lockedWorld) /\
  Store.isDateBatchLocked "2024-05-01" "batch_01"
    (store (Handlers.onClearToday true lockedWorld)) =
  Store.isDateBatchLocked "2024-05-01" "batch_01" (store lockedWorld).
Proof.
  pose proof (onClearToday_frame lockedWorld) as H. cbv zeta in H.
  destruct H as (_ & _ & Hs & Hl). split.
  - apply Hs. discriminate.
  - apply Hl; [discriminate | reflexivity | reflexivity].
Defined.

(** ** Writing a status *)

Lemma setStatus_attendance (studentId status : string) (w : World) :
  attendance (store (Store.setStatus studentId status w)) =
  let day := default ∅ (attendance (store w) !! currentDate (store w)) in
  let batchData :=
    default (JsMap ∅) (day !! batchKeyOf (currentBatch (store w))) in
  <[currentDate (store w) :=
      <[batchKeyOf (currentBatch (store w)) :=
          match batchData with
          | JsMap m => JsMap (<[studentId := status]> m)
          | JsObject o => JsObject (Js.assign o studentId status)
          end]> day]> (attendance (store w)).
Proof. reflexivity. Qed.

Lemma setStatus_batchDataAt (studentId status : string) (w : World) :
  Store.batchDataAt (currentDate (store w))
    (batchKeyOf (currentBatch (store w)))
    (store (Store.setStatus studentId status w)) =
  Some match default (JsMap ∅)
               (Store.batchDataAt (currentDate (store w))
                  (batchKeyOf (currentBatch (store w))) (store w)) with
       | JsMap m => JsMap (<[studentId := status]> m)
       | JsObject o => JsObject (Js.assign o studentId status)
       end.
Proof.
  unfold Store.batchDataAt at 1. rewrite setStatus_attendance. cbv zeta.
  rewrite !lookup_insert_eq. unfold Store.batchDataAt.
  destruct (attendance (store w) !! currentDate (store w)) as [day|];
    [reflexivity |].
  cbn [default]. rewrite lookup_empty. reflexivity.
Qed.

(** What a read sees after a write of the same student.  The id
    [__proto__] is left out: on a plain object the write of a string to it
    goes to the setter of the prototype and stores nothing. *)
Lemma getStatus_setStatus_same (studentId status : string) (w : World) :
  studentId <> "__proto__" ->
  Store.getStatusAt (currentDate (store w))
    (batchKeyOf (currentBatch (store w))) studentId
    (store (Store.setStatus studentId status w)) =
  Js.or_else (Some status) LEAVE.
Proof.
  intros Hid. rewrite getStatusAt_entries, setStatus_batchDataAt.
  destruct (default _ _) as [m|o]; cbn [groupRead].
  - now rewrite lookup_insert_eq.
  - rewrite (prop_own _ _ status) by (apply assign_same; now left).
    now destruct status.
Qed.

(** C1, as the code has it. [Store.setStatus] writes the status whether
    the batch is locked or not; the lock is enforced by the handlers that
    call it: while the current batch is locked, a click on a student card
    and an action of the status popover return at once, and the whole state
    (ledger, locks, storage, pending timer) is the one before the call.
    The write is stated for every student id but [__proto__], which a cell
    group restored from storage does not store. *)
Theorem locked_handlers_leave_state (w : World) :
  Store.isLocked (store w) = true ->
  (forall card now, Handlers.onStudentClick card now w = w) /\
  (forall action, Handlers.onPopoverAction action w = w) /\
  (forall studentId status,
     studentId <> "__proto__" ->
     Store.getStatus studentId
       (store (Store.setStatus studentId status w)) =
     Js.or_else (Some status) LEAVE).
Proof.
  intros Hl. repeat split.
  - intros [[i s]|] now; unfold Handlers.onStudentClick;
      [now rewrite Hl | reflexivity].
  - intros action. unfold Handlers.onPopoverAction. rewrite Hl.
    destruct (_popoverStudentId (handlers w)) as [[|c s]|]; reflexivity.
  - intros i s Hi. apply (getStatus_setStatus_same i s w Hi).
Qed.

Lemma locked_handlers_leave_state_witness :
  Store.isLocked (store lockedWorld) = true /\
  Handlers.onStudentClick (Some ("S1", "leave")) 1000 lockedWorld
    = lockedWorld /\
  Handlers.onPopoverAction "present" lockedWorld = lockedWorld.
Proof.
  assert (Hl : Store.isLocked (store lockedWorld) = true)
    by (vm_compute; reflexivity).
  split; [exact Hl |].
  destruct (locked_handlers_leave_state lockedWorld Hl) as (Hc & Hp & _).
  split; [apply Hc | apply Hp].
Defined.

(** C1, as stated, fails: on a locked batch [Store.setStatus] still changes
    the status of a student. *)
Lemma setStatus_ignores_lock :
  Store.isLocked (store lockedWorld) = true /\
  Store.getStatus "S3" (store lockedWorld) = "leave" /\
  Store.getStatus "S3" (store (Store.setStatus "S3" "present" lockedWorld))
    = "present".
Proof. vm_compute. repeat split. Qed.

(** The write that stores nothing: on the cell group of a page started
    again, a plain object, [setStatus] for the id [__proto__] leaves the
    ledger as it is, and the read of that id is the prototype before and
    after. *)
Lemma setStatus_proto_setter :
  attendance (store (Store.setStatus "__proto__" "present" restartedWorld))
    = attendance (store restartedWorld) /\
  Store.getStatus "__proto__"
    (store (Store.setStatus "__proto__" "present" restartedWorld))
    = Js.Inherited "__proto__".
Proof. split; vm_compute; reflexivity. Qed.

Lemma initDateBatch_missing (d b : string) (st : StoreState) :
  Store.batchDataAt d b st = None ->
  attendance (Store.initDateBatch d b st) =
  <[d := <[b := JsMap ((fun _ => LEAVE) <$> studentMap st)]>
           (default ∅ (attendance st !! d))]> (attendance st).
Proof.
  unfold Store.batchDataAt, Store.initDateBatch. intros H.
  destruct (attendance st !! d) as [day|]; simpl in *.
  - now rewrite H.
  - now rewrite lookup_empty.
Qed.

Lemma or_else_leave_roster (m : gmap string Student) (i : string) :
  Js.or_else (((fun _ => LEAVE) <$> m) !! i) LEAVE = LEAVE.
Proof. rewrite lookup_fmap. destruct (m !! i); reflexivity. Qed.

(** C5, as the code has it. When the cell group of the current date and
    batch does not exist, [setStatus] creates an empty Map and writes the
    one entry of the given student; no other student of the roster is
    entered.  Every status read afterwards agrees with the read after
    [initDateBatch] followed by the same [setStatus], because a student
    without entry reads as [leave]. *)
Theorem setStatus_missing_group (studentId status : string) (w : World) :
  let st := store w in
  let d := currentDate st in
  let b := batchKeyOf (currentBatch st) in
  Store.batchDataAt d b st = None ->
  Store.batchDataAt d b (store (Store.setStatus studentId status w)) =
    Some (JsMap {[ studentId := status ]}) /\
  (forall dateKey batchKey i,
     Store.getStatusAt dateKey batchKey i
       (store (Store.setStatus studentId status w)) =
     Store.getStatusAt dateKey batchKey i
       (store (Store.setStatus studentId status
                 (with_store (Store.initDateBatch d b st) w)))).
Proof.
  intros st d b Hnone. split.
  - subst st d b. rewrite setStatus_batchDataAt, Hnone. cbn [from_option id].
    now rewrite insert_empty.
  - intros dk bk i. rewrite !getStatusAt_entries.
    unfold Store.batchDataAt. rewrite !setStatus_attendance.
    cbv zeta. cbn [store with_store].
    assert (Hd : currentDate (Store.initDateBatch d b st) = d)
      by (unfold Store.initDateBatch;
          destruct (default _ _ !! b); reflexivity).
    assert (Hb : currentBatch (Store.initDateBatch d b st) = currentBatch st)
      by (unfold Store.initDateBatch;
          destruct (default _ _ !! b); reflexivity).
    rewrite Hd, Hb, (initDateBatch_missing d b st Hnone).
    fold st d b. rewrite !lookup_insert_eq. cbn [from_option id].
    rewrite !lookup_insert_eq. cbn [from_option id].
    assert (Hday : default ∅ (attendance st !! d) !! b = None).
    { unfold Store.batchDataAt in Hnone.
      destruct (attendance st !! d); [exact Hnone | apply lookup_empty]. }
    rewrite Hday. cbn [from_option id].
    destruct (decide (d = dk)) as [<-|Hdk].
    + rewrite !lookup_insert_eq.
      destruct (decide (b = bk)) as [<-|Hbk].
      * rewrite !lookup_insert_eq. cbn [groupRead].
        destruct (decide (studentId = i)) as [<-|Hi].
        -- now rewrite !lookup_insert_eq.
        -- rewrite !lookup_insert_ne by exact Hi.
           rewrite lookup_empty. now rewrite or_else_leave_roster.
      * now rewrite !lookup_insert_ne by exact Hbk.
    + now rewrite !lookup_insert_ne by exact Hdk.
Qed.

Lemma setStatus_missing_group_witness :
  Store.batchDataAt "2024-05-02" "batch_01"
    (store (Store.setStatus "S1" "present" rosterWorld)) =
  Some (JsMap {[ "S1" := "present" ]}).
Proof.
  apply (setStatus_missing_group "S1" "present" rosterWorld).
  reflexivity.
Defined.

(** C5, as stated, fails: with the roster A, B, C and no cell group,
    [setStatus] for A leaves B without entry, while [initDateBatch] followed
    by the same [setStatus] enters B with [leave]; the two ledgers differ. *)
Lemma setStatus_missing_group_not_initialized :
  Store.batchDataAt "2024-05-02" "batch_01" (store rosterWorld) = None /\
  (Store.batchDataAt "2024-05-02" "batch_01"
     (store (Store.setStatus "S1" "present" rosterWorld))
     ≫= fun g => groupEntries g !! "S2") = None /\
  (Store.batchDataAt "2024-05-02" "batch_01"
     (store (Store.setStatus "S1" "present" readyWorld))
     ≫= fun g => groupEntries g !! "S2") = Some "leave" /\
  attendance (store (Store.setStatus "S1" "present" rosterWorld)) <>
  attendance (store (Store.setStatus "S1" "present" readyWorld)).
Proof.
  repeat split; try (vm_compute; reflexivity).
  intros H.
  apply (f_equal (fun a : gmap string (gmap string CellGroup) =>
                    a !! "2024-05-02" ≫= fun day =>
                    day !! "batch_01" ≫= fun g =>
                    groupEntries g !! "S2")) in H.
  vm_compute in H. discriminate H.
Qed.

(** ** The computed view *)

Lemma setStudents_rosterKeyed (students : list Student) (w : World) :
  rosterKeyed (store (Store.setStudents students w)).
Proof.
  unfold rosterKeyed, Store.setStudents. cbn [store emit with_store].
  cbn [Store._invalidateCache set_cache set_roster studentMap].
  assert (G : forall (l : list Student) (acc : gmap string Student),
             (forall id s, acc !! id = Some s -> student_id s = id) ->
             forall id s,
               foldl (fun a x => <[student_id x := x]> a) acc l !! id
                 = Some s ->
               student_id s = id).
  { induction l as [|x l IH]; intros acc Hacc id s; cbn [foldl].
    - apply Hacc.
    - apply IH. intros id' s'.
      destruct (decide (student_id x = id')) as [<-|Hne].
      + rewrite lookup_insert_eq. now intros [= <-].
      + rewrite lookup_insert_ne by exact Hne. apply Hacc. }
  apply G. intros id s. now rewrite lookup_empty.
Qed.

Lemma computeFresh_set_cache (c : Cache) (st : StoreState) :
  Store.computeFresh (set_cache c st) = Store.computeFresh st.
Proof. reflexivity. Qed.

Lemma view_eta (v : View) :
  {| visible := visible v; present := present v;
     absent := absent v; leave := leave v |} = v.
Proof. now destruct v. Qed.

Lemma getComputed_view (st : StoreState) :
  cacheCoherent st ->
  viewOf (Store.getComputed st).1 = Store.computeFresh st.
Proof.
  unfold cacheCoherent, Store.getComputed. intros H.
  destruct (cache_valid (_cache st)); [now apply H | apply view_eta].
Qed.

Lemma getComputed_coherent (st : StoreState) :
  cacheCoherent st -> cacheCoherent (Store.getComputed st).2.
Proof.
  unfold Store.getComputed. intros H.
  destruct (cache_valid (_cache st)) eqn:E; [exact H |].
  intros _. apply view_eta.
Qed.

(** Every operation of the store and every handler leaves the cache
    coherent: they invalidate it when they change what the view is computed
    from, and [renderAll] refills it with the recomputed view. *)
Lemma invalidateCache_coherent (st : StoreState) :
  cacheCoherent (Store._invalidateCache st).
Proof. intros H. discriminate H. Qed.

Lemma initialStore_coherent : cacheCoherent initialStore.
Proof. intros H. discriminate H. Qed.

Lemma setStudents_coherent (students : list Student) (w : World) :
  cacheCoherent (store (Store.setStudents students w)).
Proof. intros H. discriminate H. Qed.

Lemma setStatus_coherent (studentId status : string) (w : World) :
  cacheCoherent (store (Store.setStatus studentId status w)).
Proof. intros H. discriminate H. Qed.

Lemma lockCurrentBatch_coherent (photoUrl : option string) (w : World) :
  cacheCoherent (store w) ->
  cacheCoherent (store (Store.lockCurrentBatch photoUrl w)).
Proof.
  unfold cacheCoherent, Store.lockCurrentBatch.
  destruct photoUrl as [[|c u]|]; intros H; exact H.
Qed.

Lemma renderAll_coherent (w : World) :
  cacheCoherent (store w) -> cacheCoherent (store (Renderer.renderAll w)).
Proof. apply getComputed_coherent. Qed.

Lemma onBatchChange_coherent (value : BatchId) (w : World) :
  cacheCoherent (store (Handlers.onBatchChange value w)).
Proof. apply renderAll_coherent, invalidateCache_coherent. Qed.

Lemma onDateChange_coherent (value : string) (w : World) :
  cacheCoherent (store (Handlers.onDateChange value w)).
Proof. apply renderAll_coherent, invalidateCache_coherent. Qed.

Lemma onSearch_coherent (value : string) (w : World) :
  cacheCoherent (store (Handlers.onSearch value w)).
Proof. apply renderAll_coherent, invalidateCache_coherent. Qed.

Lemma onClearToday_coherent (confirmed : bool) (w : World) :
  cacheCoherent (store w) ->
  cacheCoherent (store (Handlers.onClearToday confirmed w)).
Proof.
  destruct confirmed; [intros _ | exact id].
  apply renderAll_coherent, invalidateCache_coherent.
Qed.

Lemma presentIds_spec (entries : gmap string string) (i : string) :
  i ∈ Store.presentIds entries <-> entries !! i = Some PRESENT.
Proof.
  unfold Store.presentIds. rewrite elem_of_dom. split.
  - intros [v Hv]. apply map_lookup_filter_Some in Hv as [Hv Hp].
    cbn in Hp. now subst v.
  - intros H. exists PRESENT. now apply map_lookup_filter_Some.
Qed.

Lemma getBatch1PresentSet_spec (st : StoreState) (i : string) :
  currentBatch st = batch_02 ->
  (i ∈ Store.getBatch1PresentSet st <->
   Store.getStatusAt (currentDate st) "batch_01" i st = PRESENT).
Proof.
  intros Hb. rewrite getStatusAt_entries.
  unfold Store.getBatch1PresentSet. rewrite Hb.
  destruct (Store.batchDataAt (currentDate st) "batch_01" st) as [g|].
  - rewrite (groupRead_status g i PRESENT) by discriminate.
    destruct g; cbn [groupEntries]; apply presentIds_spec.
  - split; [set_solver | discriminate].
Qed.

Lemma computeStep_excludes (st : StoreState) (b1 : gset string) (q : string)
    (x : string) (acc : View) (id : string) :
  rosterKeyed st -> x ∈ b1 ->
  (forall s, s ∈ viewStudents acc -> student_id s <> x) ->
  forall s, s ∈ viewStudents (Store.computeStep st b1 q acc id) ->
            student_id s <> x.
Proof.
  intros Hk Hx Hacc. unfold Store.computeStep.
  destruct (studentMap st !! id) as [s0|] eqn:Es; [| exact Hacc].
  destruct (negb (student_active s0)); [exact Hacc |].
  assert (Hsz : (0 < size b1)%nat).
  { destruct (size b1) eqn:Esz; [| lia].
    apply size_empty_inv in Esz. set_solver. }
  rewrite (bool_decide_eq_true_2 _ Hsz). cbn [andb].
  case_bool_decide as Hin; [exact Hacc |].
  destruct (Store.searchMiss q s0); [exact Hacc |].
  assert (Hs0 : student_id s0 <> x).
  { rewrite (Hk _ _ Es). intros ->. now apply Hin. }
  assert (Hstep : forall s, s ∈ viewStudents acc \/ s = s0 ->
                            student_id s <> x).
  { intros s [H | ->]; [now apply Hacc | exact Hs0]. }
  unfold viewStudents, Store.push in *.
  repeat case_bool_decide; cbn [visible present absent leave];
    intros s Hs; apply Hstep;
    rewrite !elem_of_app in *; rewrite ?list_elem_of_singleton in *; tauto.
Qed.

Lemma foldl_computeStep_excludes (st : StoreState) (b1 : gset string)
    (q : string) (x : string) (order : list string) (acc : View) :
  rosterKeyed st -> x ∈ b1 ->
  (forall s, s ∈ viewStudents acc -> student_id s <> x) ->
  forall s, s ∈ viewStudents (foldl (Store.computeStep st b1 q) acc order) ->
            student_id s <> x.
Proof.
  intros Hk Hx. revert acc.
  induction order as [|id order IH]; intros acc Hacc; cbn [foldl].
  - exact Hacc.
  - apply IH. now apply computeStep_excludes.
Qed.

(** C3. With batch 2 selected, a student whom the cell group of batch 1
    marks [present] for the current date appears in none of the arrays
    [visible], [present], [absent] and [leave] that [getComputed] returns,
    whatever the search text and the student's status in batch 2. *)
Theorem cross_batch_exclusion (st : StoreState) (x : string) :
  rosterKeyed st ->
  cacheCoherent st ->
  currentBatch st = batch_02 ->
  Store.getStatusAt (currentDate st) "batch_01" x st = PRESENT ->
  let c := (Store.getComputed st).1 in
  forall s,
    s ∈ cache_visible c \/ s ∈ cache_present c \/
    s ∈ cache_absent c \/ s ∈ cache_leave c ->
    student_id s <> x.
Proof.
  intros Hk Hc Hb Hp c s Hs.
  assert (Hv : viewOf c = Store.computeFresh st) by now apply getComputed_view.
  assert (Hin : s ∈ viewStudents (Store.computeFresh st)).
  { rewrite <- Hv. unfold viewStudents, viewOf.
    cbn [visible present absent leave]. rewrite !elem_of_app. tauto. }
  revert Hin. unfold Store.computeFresh.
  apply foldl_computeStep_excludes; [exact Hk | | ].
  - now apply getBatch1PresentSet_spec.
  - intros s'. unfold viewStudents. cbn. now rewrite elem_of_nil.
Qed.

Lemma cross_batch_exclusion_witness :
  cache_visible (Store.getComputed (store batch2World)).1
    = [studentB; studentC] /\
  student_id studentB <> "S1".
Proof.
  split; [vm_compute; reflexivity |].
  apply (cross_batch_exclusion (store batch2World) "S1").
  - assert (E : studentMap (store batch2World) =
                studentMap (store (Store.setStudents
                                     [studentA; studentB; studentC]
                                     bootWorld)))
      by (vm_compute; reflexivity).
    unfold rosterKeyed. rewrite E. apply setStudents_rosterKeyed.
  - intros H. vm_compute in H. discriminate H.
  - reflexivity.
  - vm_compute. reflexivity.
  - left. vm_compute. apply list_elem_of_here.
Defined.

(** ** Cache consistency *)

Lemma with_cache_self (w : World) : with_cache (_cache (store w)) w = w.
Proof. destruct w as [[] ? ? ? ?]. reflexivity. Qed.

Lemma setStatus_with_cache (c : Cache) (studentId status : string)
    (w : World) :
  Store.setStatus studentId status (with_cache c w) =
  with_cache
    {| cache_valid := false; cache_visible := cache_visible c;
       cache_present := cache_present c; cache_absent := cache_absent c;
       cache_leave := cache_leave c |}
    (Store.setStatus studentId status w).
Proof. reflexivity. Qed.

Lemma runCached_with_cache (ops : list Op) :
  forall (w : World) (c : Cache),
    cacheCoherent (store (with_cache c w)) ->
    runCached ops (with_cache c w) = runFromScratch ops w.
Proof.
  induction ops as [|[i s|] rest IH]; intros w c Hc;
    cbn [runCached runFromScratch].
  - reflexivity.
  - rewrite setStatus_with_cache. apply IH. intros H. discriminate H.
  - f_equal.
    + rewrite getComputed_view by exact Hc. reflexivity.
    + destruct (getComputed_store (store (with_cache c w))) as [c' E].
      pose proof (getComputed_coherent _ Hc) as Hc'.
      rewrite E in Hc' |- *.
      change (with_store (set_cache c' (store (with_cache c w)))
                (with_cache c w)) with (with_cache c' w).
      apply IH. exact Hc'.
Qed.

(** C6. In every session of [setStatus] calls and reads of the computed
    view that starts from a coherent cache (in particular an invalidated
    one), each read through [getComputed] returns exactly the four arrays
    that a recomputation from scratch gives on the ledger at that point. *)
Theorem cache_consistency (ops : list Op) (w : World) :
  cacheCoherent (store w) ->
  runCached ops w = runFromScratch ops w.
Proof.
  intros Hc. rewrite <- (with_cache_self w) at 1.
  apply runCached_with_cache. now rewrite with_cache_self.
Qed.

Lemma cache_consistency_witness :
  runCached sampleSession (Renderer.renderAll readyWorld) =
  runFromScratch sampleSession (Renderer.renderAll readyWorld).
Proof.
  apply (cache_consistency sampleSession (Renderer.renderAll readyWorld)).
  intros _. vm_compute. reflexivity.
Defined.

(** ** The save flow *)

Lemma buildRecords_set_cache (c : Cache) (st : StoreState)
    (vis : list Student) (timeStr : string) :
  Handlers.buildRecords (set_cache c st) vis timeStr =
  Handlers.buildRecords st vis timeStr.
Proof. reflexivity. Qed.

(** The flow once a photo is attached, with the view read at its start. *)
Lemma onConfirmSave_unfold (response : SaveResponse)
    (timeStr savedAt : string) (w : World) (c0 : ascii) (p : string) :
  photoBase64 (store w) = Some (String c0 p) ->
  exists c',
    let w1 := with_cache c' w in
    let records :=
      Handlers.buildRecords (store w)
        (cache_visible (Store.getComputed (store w)).1) timeStr in
    Handlers.onConfirmSave response timeStr savedAt w =
    if (if Js.truthy (API_URL w) then Handlers.cloudSavedOf response
        else false) || negb (Js.truthy (API_URL w))
    then Renderer.renderAll
           (StorageManager.saveRecords records savedAt
              (Store.lockCurrentBatch None w1))
    else Renderer.renderAll (StorageManager.saveRecords records savedAt w1).
Proof.
  intros Hp. destruct (getComputed_store (store w)) as [c' E].
  exists c'. cbv zeta. unfold Handlers.onConfirmSave. rewrite Hp.
  destruct (Store.getComputed (store w)) as [c st1]. cbn [fst snd] in *.
  subst st1. reflexivity.
Qed.

Lemma cloudSavedOf_true (response : SaveResponse) :
  Handlers.cloudSavedOf response = true <-> response = SaveResult true.
Proof.
  destruct response as [[]| |]; cbn; split; intros H;
    try reflexivity; try discriminate H.
Qed.

(** C8. When an endpoint is configured and the save request does not end
    with a successful result (a result without success, a failed request or
    a timeout), the save flow leaves the lock set and the ledger as they
    were, so a batch that was open stays open, and it still writes the
    records of the visible students to local storage.  A batch that was
    open is locked by the flow exactly when the request succeeded or no
    endpoint is configured. *)
Theorem onConfirmSave_failure_never_locks (response : SaveResponse)
    (timeStr savedAt : string) (w : World) :
  (exists c p, photoBase64 (store w) = Some (String c p)) ->
  let w' := Handlers.onConfirmSave response timeStr savedAt w in
  (Js.truthy (API_URL w) = true -> response <> SaveResult true ->
   lockedBatches (store w') = lockedBatches (store w) /\
   Store.isLocked (store w') = Store.isLocked (store w) /\
   attendance (store w') = attendance (store w) /\
   exists r,
     localStorage w' !! StorageManager.recordsKey (store w)
       = Some (ItemRecords r) /\
     saved_records r =
       Handlers.buildRecords (store w)
         (cache_visible (Store.getComputed (store w)).1) timeStr) /\
  (Store.isLocked (store w) = false ->
   (Store.isLocked (store w') = true <->
    response = SaveResult true \/ Js.truthy (API_URL w) = false)).
Proof.
  intros (c0 & p & Hp) w'. subst w'.
  destruct (onConfirmSave_unfold response timeStr savedAt w c0 p Hp)
    as [c' E]. cbv zeta in E. rewrite E. clear E.
  split.
  - intros Hapi Hresp. rewrite Hapi. cbn [negb].
    assert (Hc : Handlers.cloudSavedOf response = false).
    { destruct (Handlers.cloudSavedOf response) eqn:Ec; [| reflexivity].
      apply cloudSavedOf_true in Ec. contradiction. }
    rewrite Hc. cbn [orb]. unfold Renderer.renderAll.
    cbn [store with_store localStorage].
    unfold Store.isLocked, Store.isDateBatchLocked.
    rewrite getComputed_lockedBatches, getComputed_attendance,
      getComputed_currentDate, getComputed_currentBatch.
    repeat split. eexists. split; [apply lookup_insert_eq | reflexivity].
  - intros Hopen. unfold Renderer.renderAll.
    destruct (Js.truthy (API_URL w)) eqn:Hapi; cbn [negb orb].
    + destruct (Handlers.cloudSavedOf response) eqn:Ec; cbn [orb].
      * apply cloudSavedOf_true in Ec. split; [auto |]. intros _.
        unfold Store.isLocked, Store.isDateBatchLocked.
        cbn [store with_store].
        rewrite getComputed_lockedBatches, getComputed_currentDate,
          getComputed_currentBatch.
        apply bool_decide_eq_true. cbn. set_solver.
      * assert (Hne : response <> SaveResult true).
        { intros ->. discriminate Ec. }
        split.
        -- intros Hl. exfalso. revert Hl.
           unfold Store.isLocked, Store.isDateBatchLocked in *.
           cbn [store with_store].
           rewrite getComputed_lockedBatches, getComputed_currentDate,
             getComputed_currentBatch.
           cbn. cbn in Hopen. rewrite Hopen. discriminate.
        -- intros [H | H]; [contradiction | discriminate H].
    + split; [auto |]. intros _.
      unfold Store.isLocked, Store.isDateBatchLocked.
      cbn [store with_store].
      rewrite getComputed_lockedBatches, getComputed_currentDate,
        getComputed_currentBatch.
      apply bool_decide_eq_true. cbn. set_solver.
Qed.

Lemma onConfirmSave_failure_never_locks_witness :
  lockedBatches
    (store (Handlers.onConfirmSave SaveTimeout "06:05:00"
              "2024-05-02T00:35:00.000Z" saveWorld))
    = lockedBatches (store saveWorld) /\
  Store.isLocked
    (store (Handlers.onConfirmSave SaveTimeout "06:05:00"
              "2024-05-02T00:35:00.000Z" saveWorld)) = false /\
  Store.isLocked
    (store (Handlers.onConfirmSave (SaveResult true) "06:05:00"
              "2024-05-02T00:35:00.000Z" saveWorld)) = true.
Proof.
  assert (Hphoto : exists c p,
             photoBase64 (store saveWorld) = Some (String c p))
    by (eexists _, _; reflexivity).
  pose proof (onConfirmSave_failure_never_locks SaveTimeout "06:05:00"
                "2024-05-02T00:35:00.000Z" saveWorld Hphoto) as Hfail.
  pose proof (onConfirmSave_failure_never_locks (SaveResult true) "06:05:00"
                "2024-05-02T00:35:00.000Z" saveWorld Hphoto) as Hok.
  cbv zeta in Hfail, Hok.
  destruct Hfail as [Hfail _]. destruct Hok as [_ Hok].
  destruct (Hfail eq_refl ltac:(discriminate)) as (Hl & Hi & _).
  split; [exact Hl |]. split.
  - rewrite Hi. vm_compute. reflexivity.
  - apply Hok; [vm_compute; reflexivity | left; reflexivity].
Defined.

(** * Further properties of the code *)

(** ** The ledger *)

Lemma store_eta (st : StoreState) :
  set_attendance (attendance st) st = st.
Proof. now destruct st. Qed.

Lemma batchDataAt_Some_day (d b : string) (st : StoreState) (g : CellGroup) :
  Store.batchDataAt d b st = Some g ->
  exists day, attendance st !! d = Some day /\ day !! b = Some g.
Proof.
  unfold Store.batchDataAt. destruct (attendance st !! d) as [day|];
    [eauto | discriminate].
Qed.

Lemma initDateBatch_present (d b : string) (st : StoreState) (g : CellGroup) :
  Store.batchDataAt d b st = Some g -> Store.initDateBatch d b st = st.
Proof.
  intros H. destruct (batchDataAt_Some_day d b st g H) as (day & Hd & Hb).
  unfold Store.initDateBatch. rewrite Hd. cbn [from_option id]. rewrite Hb.
  rewrite insert_id by exact Hd. apply store_eta.
Qed.

Lemma initDateBatch_batchDataAt (d b : string) (st : StoreState) :
  Store.batchDataAt d b (Store.initDateBatch d b st) =
  Some (default (JsMap ((fun _ => LEAVE) <$> studentMap st))
          (Store.batchDataAt d b st)).
Proof.
  destruct (Store.batchDataAt d b st) as [g|] eqn:E.
  - rewrite (initDateBatch_present d b st g E). exact E.
  - unfold Store.batchDataAt at 1. rewrite (initDateBatch_missing d b st E).
    now rewrite !lookup_insert_eq.
Qed.

Lemma initDateBatch_reads (d b : string) (st : StoreState)
    (dk bk i : string) :
  Store.getStatusAt dk bk i (Store.initDateBatch d b st) =
  Store.getStatusAt dk bk i st.
Proof.
  destruct (Store.batchDataAt d b st) as [g|] eqn:E.
  - now rewrite (initDateBatch_present d b st g E).
  - rewrite !getStatusAt_entries. unfold Store.batchDataAt at 1.
    rewrite (initDateBatch_missing d b st E).
    destruct (decide (d = dk)) as [<-|Hd].
    + rewrite lookup_insert_eq.
      destruct (decide (b = bk)) as [<-|Hb].
      * rewrite lookup_insert_eq, E. cbn [groupRead].
        now rewrite or_else_leave_roster.
      * rewrite lookup_insert_ne by exact Hb. unfold Store.batchDataAt.
        destruct (attendance st !! d) as [day|]; [reflexivity |].
        cbn [from_option id]. now rewrite lookup_empty.
    + rewrite lookup_insert_ne by exact Hd. reflexivity.
Qed.

(** X1. [initDateBatch] is transparent to readers and idempotent: no status
    read changes, whatever the date, batch and student; an existing cell
    group is kept as it is and a missing one is created with the roster on
    leave; a second call changes nothing. *)
Theorem initDateBatch_transparent (d b : string) (st : StoreState) :
  (forall dateKey batchKey studentId,
     Store.getStatusAt dateKey batchKey studentId (Store.initDateBatch d b st)
     = Store.getStatusAt dateKey batchKey studentId st) /\
  Store.batchDataAt d b (Store.initDateBatch d b st) =
    Some (default (JsMap ((fun _ => LEAVE) <$> studentMap st))
            (Store.batchDataAt d b st)) /\
  Store.initDateBatch d b (Store.initDateBatch d b st) =
    Store.initDateBatch d b st.
Proof.
  split; [intros; apply initDateBatch_reads |].
  split; [apply initDateBatch_batchDataAt |].
  eapply initDateBatch_present. apply initDateBatch_batchDataAt.
Qed.

(** X2. A status write touches one cell: after [setStatus] for a student,
    every read of another student, another batch or another date gives what
    it gave before, the lock set, the photo links and the roster are
    unchanged, and the stored state is the serialisation of the store after
    the write. *)
Theorem setStatus_frame (studentId status : string) (w : World) :
  let w' := Store.setStatus studentId status w in
  (forall dateKey batchKey i,
     (dateKey, batchKey, i) <>
       (currentDate (store w), batchKeyOf (currentBatch (store w)),
        studentId) ->
     Store.getStatusAt dateKey batchKey i (store w') =
     Store.getStatusAt dateKey batchKey i (store w)) /\
  lockedBatches (store w') = lockedBatches (store w) /\
  photoUrls (store w') = photoUrls (store w) /\
  studentMap (store w') = studentMap (store w) /\
  localStorage w' !! CONFIG.STORAGE_KEYS.ATTENDANCE =
    Some (ItemState (StorageManager.serialize (store w'))).
Proof.
  intros w'. subst w'. split; [| repeat split; apply lookup_insert_eq].
  intros dk bk i Hne. rewrite !getStatusAt_entries.
  unfold Store.batchDataAt at 1. rewrite setStatus_attendance. cbv zeta.
  set (d := currentDate (store w)) in *.
  set (b := batchKeyOf (currentBatch (store w))) in *.
  destruct (decide (d = dk)) as [<-|Hd];
    [| now rewrite lookup_insert_ne by exact Hd].
  rewrite lookup_insert_eq.
  destruct (decide (b = bk)) as [<-|Hb].
  - rewrite lookup_insert_eq.
    assert (Hi : studentId <> i) by congruence.
    unfold Store.batchDataAt. fold d.
    destruct (attendance (store w) !! d) as [day|]; cbn [from_option id].
    + destruct (day !! b) as [[m|o]|]; cbn [from_option id groupRead].
      * now rewrite lookup_insert_ne by exact Hi.
      * now rewrite prop_assign_other by congruence.
      * now rewrite lookup_insert_ne by exact Hi.
    + rewrite lookup_empty. cbn [from_option id groupRead].
      rewrite lookup_insert_ne by exact Hi. now rewrite lookup_empty.
  - rewrite lookup_insert_ne by exact Hb. unfold Store.batchDataAt. fold d.
    destruct (attendance (store w) !! d) as [day|]; [reflexivity |].
    cbn [from_option id]. now rewrite lookup_empty.
Qed.

Lemma setStatus_frame_witness :
  Store.getStatusAt "2024-05-02" "batch_01" "S2"
    (store (Store.setStatus "S1" "present" readyWorld)) =
  Store.getStatusAt "2024-05-02" "batch_01" "S2" (store readyWorld).
Proof.
  apply (setStatus_frame "S1" "present" readyWorld). discriminate.
Defined.

Lemma loadState_of_saved (w : World) (boot : StoreState) :
  localStorage w !! CONFIG.STORAGE_KEYS.ATTENDANCE =
    Some (ItemState (StorageManager.serialize (store w))) ->
  store (StorageManager.loadState (with_store boot w)) =
  StorageManager.restore (StorageManager.serialize (store w)) boot.
Proof.
  intros H. unfold StorageManager.loadState.
  cbn [localStorage with_store]. rewrite H. reflexivity.
Qed.

Lemma lockCurrentBatch_lockedBatches (photoUrl : option string) (w : World) :
  lockedBatches (store (Store.lockCurrentBatch photoUrl w)) =
  {[ lockKey (currentDate (store w)) (batchKeyOf (currentBatch (store w))) ]}
    ∪ lockedBatches (store w).
Proof.
  unfold Store.lockCurrentBatch. destruct photoUrl as [[|c u]|]; reflexivity.
Qed.

Lemma lockCurrentBatch_saved (photoUrl : option string) (w : World) :
  localStorage (Store.lockCurrentBatch photoUrl w)
    !! CONFIG.STORAGE_KEYS.ATTENDANCE =
  Some (ItemState
          (StorageManager.serialize
             (store (Store.lockCurrentBatch photoUrl w)))).
Proof.
  unfold Store.lockCurrentBatch. destruct photoUrl as [[|c u]|];
    apply lookup_insert_eq.
Qed.

(** The cell written by [setStatus] holds the status as an own entry. *)
Lemma setStatus_entry (studentId status : string) (w : World) :
  studentId <> "__proto__" ->
  (Store.batchDataAt (currentDate (store w))
     (batchKeyOf (currentBatch (store w)))
     (store (Store.setStatus studentId status w))
     ≫= fun g => groupEntries g !! studentId) = Some status.
Proof.
  intros Hid. rewrite setStatus_batchDataAt.
  destruct (default _ _) as [m|o]; cbn.
  - apply lookup_insert_eq.
  - apply assign_same. now left.
Qed.

(** X3. What survives a reload of the page.  After [setStatus], the page
    started on the stored state reads the same status as the session for
    every date and batch and every student whose id names no member of
    [Object.prototype], and reads the status just written for the student
    written, whose id is not [__proto__].  After [lockCurrentBatch] it has
    the same lock memberships, in particular the lock just taken, and the
    same photo links. *)
Theorem writes_survive_reload (studentId status : string)
    (photoUrl : option string) (w : World) (boot : StoreState) :
  let reload := fun w0 =>
    store (StorageManager.loadState (with_store boot w0)) in
  let written := Store.setStatus studentId status w in
  let locked := Store.lockCurrentBatch photoUrl w in
  (forall dateKey batchKey i,
     i ∉ Js.ObjectPrototype ->
     Store.getStatusAt dateKey batchKey i (reload written) =
     Store.getStatusAt dateKey batchKey i (store written)) /\
  (studentId <> "__proto__" ->
   Store.getStatusAt (currentDate (store w))
     (batchKeyOf (currentBatch (store w))) studentId (reload written) =
     Js.or_else (Some status) LEAVE) /\
  (forall dateKey batchKey,
     Store.isDateBatchLocked dateKey batchKey (reload locked) =
     Store.isDateBatchLocked dateKey batchKey (store locked)) /\
  Store.isDateBatchLocked (currentDate (store w))
    (batchKeyOf (currentBatch (store w))) (reload locked) = true /\
  photoUrls (reload locked) = photoUrls (store locked).
Proof.
  intros reload written locked. subst reload written locked. cbv beta.
  assert (Hl : forall d b,
             Store.isDateBatchLocked d b
               (store (StorageManager.loadState
                         (with_store boot
                            (Store.lockCurrentBatch photoUrl w)))) =
             Store.isDateBatchLocked d b
               (store (Store.lockCurrentBatch photoUrl w))).
  { intros d b. rewrite loadState_of_saved by apply lockCurrentBatch_saved.
    unfold Store.isDateBatchLocked.
    now rewrite restore_serialize_lockedBatches. }
  split.
  { intros d b i Hi. rewrite loadState_of_saved by apply lookup_insert_eq.
    apply restore_serialize_read. now left. }
  split.
  { intros Hid. rewrite loadState_of_saved by apply lookup_insert_eq.
    rewrite restore_serialize_read.
    - now apply getStatus_setStatus_same.
    - right. rewrite setStatus_entry by exact Hid. now exists status. }
  split; [exact Hl |]. split.
  - rewrite Hl. unfold Store.isDateBatchLocked.
    rewrite lockCurrentBatch_lockedBatches.
    apply bool_decide_eq_true. set_solver.
  - rewrite loadState_of_saved by apply lockCurrentBatch_saved.
    apply restore_serialize_photoUrls.
Qed.

Lemma writes_survive_reload_witness :
  Store.getStatusAt "2024-05-02" "batch_01" "S2"
    (store (StorageManager.loadState
              (with_store (store bootWorld)
                 (Store.setStatus "S1" "present" readyWorld)))) =
  Store.getStatusAt "2024-05-02" "batch_01" "S2"
    (store (Store.setStatus "S1" "present" readyWorld)) /\
  Store.getStatusAt "2024-05-02" "batch_01" "S1"
    (store (StorageManager.loadState
              (with_store (store bootWorld)
                 (Store.setStatus "S1" "present" readyWorld)))) =
  "present".
Proof.
  pose proof (writes_survive_reload "S1" "present" None readyWorld
                (store bootWorld)) as H.
  cbv zeta beta in H. destruct H as (Hr & Hw & _).
  split.
  - apply Hr. apply (bool_decide_unpack _). vm_compute. exact I.
  - apply Hw. discriminate.
Defined.

(** X4. Locking the current batch: afterwards it is locked, every pair
    that was locked still is, no status read changes, and a photo link is
    recorded under the lock key exactly when a non-empty one is given. *)
Theorem lockCurrentBatch_effect (photoUrl : option string) (w : World) :
  let w' := Store.lockCurrentBatch photoUrl w in
  Store.isLocked (store w') = true /\
  (forall dateKey batchKey,
     Store.isDateBatchLocked dateKey batchKey (store w) = true ->
     Store.isDateBatchLocked dateKey batchKey (store w') = true) /\
  attendance (store w') = attendance (store w) /\
  photoUrls (store w') =
    match photoUrl with
    | Some (String c u) =>
        <[lockKey (currentDate (store w))
            (batchKeyOf (currentBatch (store w))) := String c u]>
          (photoUrls (store w))
    | _ => photoUrls (store w)
    end.
Proof.
  intros w'. subst w'. repeat split.
  - unfold Store.isLocked, Store.isDateBatchLocked.
    rewrite lockCurrentBatch_lockedBatches.
    assert (Hd : currentDate (store (Store.lockCurrentBatch photoUrl w))
                 = currentDate (store w))
      by (unfold Store.lockCurrentBatch;
          destruct photoUrl as [[|c u]|]; reflexivity).
    assert (Hb : currentBatch (store (Store.lockCurrentBatch photoUrl w))
                 = currentBatch (store w))
      by (unfold Store.lockCurrentBatch;
          destruct photoUrl as [[|c u]|]; reflexivity).
    rewrite Hd, Hb. apply bool_decide_eq_true. set_solver.
  - intros d b. unfold Store.isDateBatchLocked.
    rewrite lockCurrentBatch_lockedBatches, !bool_decide_eq_true.
    set_solver.
  - unfold Store.lockCurrentBatch. destruct photoUrl as [[|c u]|];
      reflexivity.
  - unfold Store.lockCurrentBatch. destruct photoUrl as [[|c u]|];
      reflexivity.
Qed.

Lemma lockCurrentBatch_effect_witness :
  Store.isDateBatchLocked "2024-05-02" "batch_01"
    (store (Store.lockCurrentBatch (Some "https://drive.example/p1")
              lockedWorld)) = true.
Proof.
  apply (lockCurrentBatch_effect (Some "https://drive.example/p1")
           lockedWorld).
  vm_compute. reflexivity.
Defined.

(** ** The computed view, continued *)

Lemma computeStep_visible (st : StoreState) (acc : View) (id : string) :
  visible (Store.computeStep st (Store.getBatch1PresentSet st)
             (Js.toLowerCase (Js.trim (searchQuery st))) acc id) =
  visible acc ++ match shownStudent st id with
                 | Some s => [s]
                 | None => []
                 end.
Proof.
  unfold Store.computeStep, shownStudent.
  destruct (studentMap st !! id) as [s|]; [| now rewrite app_nil_r].
  destruct (student_active s); cbn [negb andb]; [| now rewrite app_nil_r].
  assert (Hex : bool_decide (0 < size (Store.getBatch1PresentSet st))%nat
                && bool_decide (id ∈ Store.getBatch1PresentSet st)
                = bool_decide (id ∈ Store.getBatch1PresentSet st)).
  { destruct (decide (id ∈ Store.getBatch1PresentSet st)) as [Hin|Hin].
    - rewrite (bool_decide_eq_true_2 _ Hin), andb_true_r.
      apply bool_decide_eq_true.
      destruct (size (Store.getBatch1PresentSet st)) eqn:Esz; [| lia].
      apply size_empty_inv in Esz. set_solver.
    - rewrite (bool_decide_eq_false_2 _ Hin). apply andb_false_r. }
  rewrite Hex.
  destruct (bool_decide (id ∈ Store.getBatch1PresentSet st));
    cbn [negb andb]; [now rewrite app_nil_r |].
  destruct (Store.searchMiss _ s); cbn [negb]; [now rewrite app_nil_r |].
  repeat case_bool_decide; reflexivity.
Qed.

Lemma omap_cons {A B : Type} (f : A -> option B) (x : A) (l : list A) :
  omap f (x :: l) =
  match f x with
  | Some y => y :: omap f l
  | None => omap f l
  end.
Proof. reflexivity. Qed.

Lemma foldl_computeStep_visible (st : StoreState) (order : list string) :
  forall acc,
    visible (foldl (Store.computeStep st (Store.getBatch1PresentSet st)
                      (Js.toLowerCase (Js.trim (searchQuery st))))
               acc order) =
    visible acc ++ omap (shownStudent st) order.
Proof.
  induction order as [|id order IH]; intros acc; cbn [foldl].
  - apply eq_sym, app_nil_r.
  - rewrite IH, computeStep_visible, <- app_assoc, omap_cons.
    destruct (shownStudent st id); reflexivity.
Qed.

(** X5. The array [visible] that a recomputation returns lists, in the
    order of the roster, the students that are active, are not marked
    present in batch 1 while batch 2 is selected, and match the trimmed,
    lower-cased search text when there is one; nothing else decides who is
    shown. *)
Theorem visible_is_roster_selection (st : StoreState) :
  visible (Store.computeFresh st) =
  omap (shownStudent st) (studentOrder st).
Proof.
  unfold Store.computeFresh. now rewrite foldl_computeStep_visible.
Qed.

Lemma shownStudent_blank (st : StoreState) (id : string) :
  Store.getBatch1PresentSet st = ∅ ->
  Js.trim (searchQuery st) = "" ->
  shownStudent st id =
  match studentMap st !! id with
  | Some s => if student_active s then Some s else None
  | None => None
  end.
Proof.
  intros Hb Hq. unfold shownStudent, Store.searchMiss. rewrite Hb, Hq.
  destruct (studentMap st !! id) as [s|]; [| reflexivity].
  rewrite bool_decide_eq_false_2 by set_solver.
  cbn. now rewrite !andb_true_r.
Qed.

(** X6. With batch 1 selected and a search text that is empty or blank,
    every active student of the roster is visible, once per occurrence of
    the id in the roster order and in that order, and no inactive student
    is. *)
Theorem batch1_blank_search_shows_all_active (st : StoreState) :
  currentBatch st = batch_01 ->
  Js.trim (searchQuery st) = "" ->
  visible (Store.computeFresh st) =
  filter (fun s => student_active s = true)
    (omap (fun id => studentMap st !! id) (studentOrder st)).
Proof.
  intros Hb Hq. unfold Store.computeFresh.
  rewrite foldl_computeStep_visible.
  change (visible Store.emptyView ++ omap (shownStudent st) (studentOrder st))
    with (omap (shownStudent st) (studentOrder st)).
  assert (He : Store.getBatch1PresentSet st = ∅)
    by (unfold Store.getBatch1PresentSet; now rewrite Hb).
  induction (studentOrder st) as [|id order IH]; [reflexivity |].
  rewrite !omap_cons, (shownStudent_blank st id He Hq), IH.
  destruct (studentMap st !! id) as [s|]; [| reflexivity].
  rewrite filter_cons. destruct (student_active s) eqn:Ea.
  - rewrite decide_True by reflexivity. reflexivity.
  - rewrite decide_False by discriminate. reflexivity.
Qed.

Lemma batch1_blank_search_shows_all_active_witness :
  visible (Store.computeFresh (store readyWorld)) =
  filter (fun s => student_active s = true)
    (omap (fun id => studentMap (store readyWorld) !! id)
       (studentOrder (store readyWorld))).
Proof.
  apply (batch1_blank_search_shows_all_active (store readyWorld));
    reflexivity.
Defined.

Lemma computeStep_buckets (st : StoreState) (b1 : gset string) (q : string)
    (acc : View) (id : string) :
  rosterKeyed st ->
  (present acc =
     filter (fun s => Store.getStatus (student_id s) st = PRESENT)
       (visible acc) /\
   absent acc =
     filter (fun s => Store.getStatus (student_id s) st <> PRESENT /\
                      Store.getStatus (student_id s) st = ABSENT)
       (visible acc) /\
   leave acc =
     filter (fun s => Store.getStatus (student_id s) st <> PRESENT /\
                      Store.getStatus (student_id s) st <> ABSENT)
       (visible acc)) ->
  let acc' := Store.computeStep st b1 q acc id in
  present acc' =
    filter (fun s => Store.getStatus (student_id s) st = PRESENT)
      (visible acc') /\
  absent acc' =
    filter (fun s => Store.getStatus (student_id s) st <> PRESENT /\
                     Store.getStatus (student_id s) st = ABSENT)
      (visible acc') /\
  leave acc' =
    filter (fun s => Store.getStatus (student_id s) st <> PRESENT /\
                     Store.getStatus (student_id s) st <> ABSENT)
      (visible acc').
Proof.
  intros Hk (Hp & Ha & Hl) acc'. subst acc'. unfold Store.computeStep.
  destruct (studentMap st !! id) as [s|] eqn:Es; [| tauto].
  destruct (negb (student_active s)); [tauto |].
  destruct (_ && _); [tauto |].
  destruct (Store.searchMiss q s); [tauto |].
  pose proof (Hk _ _ Es) as Hid. unfold Store.push.
  repeat case_bool_decide; cbn [visible present absent leave];
    rewrite !filter_app, !filter_cons, !filter_nil, Hid, <- Hp, <- Ha, <- Hl;
    repeat case_decide; rewrite ?app_nil_r; try tauto; try congruence.
Qed.

(** X7. The three piles partition the visible students and keep their
    order: on a roster keyed by the students' ids, [present], [absent] and
    [leave] are the visible students whose status is present, is absent,
    and is anything else, each in the order of [visible]; their lengths add
    up to the length of [visible]. *)
Theorem piles_partition_visible (st : StoreState) :
  rosterKeyed st ->
  let v := Store.computeFresh st in
  present v =
    filter (fun s => Store.getStatus (student_id s) st = PRESENT)
      (visible v) /\
  absent v =
    filter (fun s => Store.getStatus (student_id s) st <> PRESENT /\
                     Store.getStatus (student_id s) st = ABSENT)
      (visible v) /\
  leave v =
    filter (fun s => Store.getStatus (student_id s) st <> PRESENT /\
                     Store.getStatus (student_id s) st <> ABSENT)
      (visible v) /\
  (length (present v) + length (absent v) + length (leave v)
   = length (visible v))%nat.
Proof.
  intros Hk v.
  pose (I := fun acc : View =>
    present acc =
      filter (fun s => Store.getStatus (student_id s) st = PRESENT)
        (visible acc) /\
    absent acc =
      filter (fun s => Store.getStatus (student_id s) st <> PRESENT /\
                       Store.getStatus (student_id s) st = ABSENT)
        (visible acc) /\
    leave acc =
      filter (fun s => Store.getStatus (student_id s) st <> PRESENT /\
                       Store.getStatus (student_id s) st <> ABSENT)
        (visible acc)).
  assert (H : I v).
  { subst v. unfold Store.computeFresh.
    assert (H0 : I Store.emptyView) by (repeat split).
    revert H0. generalize Store.emptyView.
    induction (studentOrder st) as [|id order IH]; intros acc Hacc;
      cbn [foldl].
    - exact Hacc.
    - apply IH. now apply computeStep_buckets. }
  destruct H as (Hp & Ha & Hl). repeat split; try assumption.
  rewrite Hp, Ha, Hl. clear Hp Ha Hl I.
  induction (visible v) as [|s l IH]; [reflexivity |].
  rewrite !filter_cons. repeat case_decide; cbn [length]; try lia;
    exfalso; tauto.
Qed.

Lemma rosterKeyed_same_roster (st st' : StoreState) :
  studentMap st' = studentMap st -> rosterKeyed st -> rosterKeyed st'.
Proof. unfold rosterKeyed. now intros ->. Qed.

Lemma piles_partition_visible_witness :
  (length (present (Store.computeFresh (store batch2World))) +
   length (absent (Store.computeFresh (store batch2World))) +
   length (leave (Store.computeFresh (store batch2World)))
   = length (visible (Store.computeFresh (store batch2World))))%nat.
Proof.
  apply (piles_partition_visible (store batch2World)).
  apply (rosterKeyed_same_roster
           (store (Store.setStudents [studentA; studentB; studentC]
                     bootWorld))).
  - vm_compute. reflexivity.
  - apply setStudents_rosterKeyed.
Defined.

(** ** The roster *)

Lemma foldl_insert_notin (l : list Student) :
  forall (acc : gmap string Student) (i : string),
    i ∉ student_id <$> l ->
    foldl (fun a x => <[student_id x := x]> a) acc l !! i = acc !! i.
Proof.
  induction l as [|x l IH]; intros acc i Hi; cbn [foldl]; [reflexivity |].
  rewrite fmap_cons in Hi. apply not_elem_of_cons in Hi as [Hx Hl].
  rewrite IH by exact Hl. now apply lookup_insert_ne.
Qed.

Lemma foldl_insert_in (l : list Student) :
  forall (acc : gmap string Student) (i : string),
    i ∈ student_id <$> l ->
    exists s, foldl (fun a x => <[student_id x := x]> a) acc l !! i = Some s
              /\ s ∈ l /\ student_id s = i.
Proof.
  induction l as [|x l IH]; intros acc i Hi; cbn [foldl].
  - rewrite fmap_nil in Hi. now apply elem_of_nil in Hi.
  - destruct (decide (i ∈ student_id <$> l)) as [Hl|Hl].
    + destruct (IH (<[student_id x := x]> acc) i Hl) as (s & Hs & Hin & Hid).
      exists s. repeat split; [exact Hs | now right | exact Hid].
    + rewrite fmap_cons in Hi. apply elem_of_cons in Hi as [->|Hi];
        [| contradiction].
      exists x. rewrite foldl_insert_notin by exact Hl.
      rewrite lookup_insert_eq. repeat split. now left.
Qed.

Lemma foldl_insert_nodup (l : list Student) :
  forall (acc : gmap string Student),
    NoDup (student_id <$> l) ->
    (fun i => foldl (fun a x => <[student_id x := x]> a) acc l !! i)
      <$> (student_id <$> l) = Some <$> l.
Proof.
  induction l as [|x l IH]; intros acc Hnd; [reflexivity |].
  rewrite !fmap_cons in *. apply NoDup_cons in Hnd as [Hx Hnd].
  cbn [foldl]. f_equal.
  - rewrite foldl_insert_notin by exact Hx. apply lookup_insert_eq.
  - now apply IH.
Qed.

(** X8. Loading a roster: the order holds one id per loaded student, in the
    order given; every id of the order resolves to a loaded student with
    that id, so [getAllStudents] never yields [undefined]; when the ids are
    pairwise distinct it returns the loaded list itself.  The ledger, the
    locks and the photo links are not touched. *)
Theorem setStudents_roster (students : list Student) (w : World) :
  let st' := store (Store.setStudents students w) in
  studentOrder st' = student_id <$> students /\
  Forall (fun o => exists s, o = Some s /\ s ∈ students)
    (Store.getAllStudents st') /\
  (NoDup (student_id <$> students) ->
   Store.getAllStudents st' = Some <$> students) /\
  attendance st' = attendance (store w) /\
  lockedBatches st' = lockedBatches (store w) /\
  photoUrls st' = photoUrls (store w).
Proof.
  intros st'. subst st'. unfold Store.getAllStudents, Store.setStudents.
  cbn [store emit with_store Store._invalidateCache set_cache set_roster
       studentMap studentOrder attendance lockedBatches photoUrls].
  repeat split.
  - apply Forall_fmap, Forall_forall. intros i Hi. cbn.
    destruct (foldl_insert_in students ∅ i Hi) as (s & Hs & Hin & _).
    eauto.
  - intros Hnd. now apply foldl_insert_nodup.
Qed.

Lemma setStudents_roster_witness :
  Store.getAllStudents
    (store (Store.setStudents [studentA; studentB; studentC] bootWorld)) =
  [Some studentA; Some studentB; Some studentC].
Proof.
  apply (setStudents_roster [studentA; studentB; studentC] bootWorld).
  apply (bool_decide_unpack _). vm_compute. exact I.
Defined.

Lemma renderAll_reads (w : World) (d b i : string) :
  Store.getStatusAt d b i (store (Renderer.renderAll w)) =
  Store.getStatusAt d b i (store w).
Proof.
  apply getStatusAt_attendance. unfold Renderer.renderAll.
  cbn [store with_store]. apply getComputed_attendance.
Qed.

Lemma renderAll_batchDataAt (w : World) (d b : string) :
  Store.batchDataAt d b (store (Renderer.renderAll w)) =
  Store.batchDataAt d b (store w).
Proof.
  unfold Store.batchDataAt, Renderer.renderAll. cbn [store with_store].
  now rewrite getComputed_attendance.
Qed.

Lemma initDateBatch_lockedBatches (d b : string) (st : StoreState) :
  lockedBatches (Store.initDateBatch d b st) = lockedBatches st.
Proof.
  unfold Store.initDateBatch. destruct (_ !! b); reflexivity.
Qed.

(** X9. Reloading the roster keeps the recorded attendance: after
    [_onStudentsLoaded] every status read, for any date, batch and student
    (in the new roster or not), gives what it gave before, the lock set is
    the same, and the cell group of the current date and batch exists. *)
Theorem onStudentsLoaded_keeps_ledger (students : list Student) (w : World) :
  let w' := API._onStudentsLoaded students w in
  (forall dateKey batchKey i,
     Store.getStatusAt dateKey batchKey i (store w') =
     Store.getStatusAt dateKey batchKey i (store w)) /\
  lockedBatches (store w') = lockedBatches (store w) /\
  is_Some (Store.batchDataAt (currentDate (store w))
             (batchKeyOf (currentBatch (store w))) (store w')).
Proof.
  intros w'. subst w'. unfold API._onStudentsLoaded. repeat split.
  - intros d b i. rewrite renderAll_reads. cbn [store with_store].
    rewrite initDateBatch_reads. reflexivity.
  - unfold Renderer.renderAll. cbn [store with_store].
    rewrite getComputed_lockedBatches, initDateBatch_lockedBatches.
    reflexivity.
  - rewrite renderAll_batchDataAt. cbn [store with_store].
    change (currentDate (store w))
      with (currentDate (store (Store.setStudents students w))).
    change (currentBatch (store w))
      with (currentBatch (store (Store.setStudents students w))).
    rewrite initDateBatch_batchDataAt. eauto.
Qed.

Lemma invalidateCache_reads (st : StoreState) (d b i : string) :
  Store.getStatusAt d b i (Store._invalidateCache st) =
  Store.getStatusAt d b i st.
Proof. reflexivity. Qed.

(** X10. Changing the date or the batch never changes what is recorded:
    after [onDateChange] and after [onBatchChange] every status read and the
    lock set are as before, the selection is the new one, and its cell
    group exists. *)
Theorem navigation_keeps_ledger (date : string) (batch : BatchId)
    (w : World) :
  let wd := Handlers.onDateChange date w in
  let wb := Handlers.onBatchChange batch w in
  (forall dateKey batchKey i,
     Store.getStatusAt dateKey batchKey i (store wd) =
     Store.getStatusAt dateKey batchKey i (store w) /\
     Store.getStatusAt dateKey batchKey i (store wb) =
     Store.getStatusAt dateKey batchKey i (store w)) /\
  lockedBatches (store wd) = lockedBatches (store w) /\
  lockedBatches (store wb) = lockedBatches (store w) /\
  currentDate (store wd) = date /\
  currentBatch (store wb) = batch /\
  is_Some (Store.batchDataAt date (batchKeyOf (currentBatch (store w)))
             (store wd)) /\
  is_Some (Store.batchDataAt (currentDate (store w)) (batchKeyOf batch)
             (store wb)).
Proof.
  intros wd wb. subst wd wb.
  unfold Handlers.onDateChange, Handlers.onBatchChange.
  split; [intros d b i; split; rewrite renderAll_reads;
          cbn [store with_store];
          rewrite invalidateCache_reads, initDateBatch_reads;
          reflexivity |].
  assert (Hid : forall d b st, currentDate (Store.initDateBatch d b st)
                               = currentDate st)
    by (intros; unfold Store.initDateBatch; destruct (_ !! _); reflexivity).
  assert (Hib : forall d b st, currentBatch (Store.initDateBatch d b st)
                               = currentBatch st)
    by (intros; unfold Store.initDateBatch; destruct (_ !! _); reflexivity).
  repeat split.
  - unfold Renderer.renderAll. cbn [store with_store].
    rewrite getComputed_lockedBatches.
    cbn [Store._invalidateCache set_cache lockedBatches].
    now rewrite initDateBatch_lockedBatches.
  - unfold Renderer.renderAll. cbn [store with_store].
    rewrite getComputed_lockedBatches.
    cbn [Store._invalidateCache set_cache lockedBatches].
    now rewrite initDateBatch_lockedBatches.
  - unfold Renderer.renderAll. cbn [store with_store].
    rewrite getComputed_currentDate.
    cbn [Store._invalidateCache set_cache currentDate].
    now rewrite Hid.
  - unfold Renderer.renderAll. cbn [store with_store].
    rewrite getComputed_currentBatch.
    cbn [Store._invalidateCache set_cache currentBatch].
    now rewrite Hib.
  - rewrite renderAll_batchDataAt. cbn [store with_store].
    change (is_Some
              (Store.batchDataAt date (batchKeyOf (currentBatch (store w)))
                 (Store.initDateBatch date
                    (batchKeyOf (currentBatch (store w)))
                    (set_current date (currentBatch (store w))
                       (searchQuery (store w)) (store w))))).
    rewrite initDateBatch_batchDataAt. eauto.
  - rewrite renderAll_batchDataAt. cbn [store with_store].
    change (is_Some
              (Store.batchDataAt (currentDate (store w)) (batchKeyOf batch)
                 (Store.initDateBatch (currentDate (store w))
                    (batchKeyOf batch)
                    (set_current (currentDate (store w)) batch
                       (searchQuery (store w)) (store w))))).
    rewrite initDateBatch_batchDataAt. eauto.
Qed.

(** ** Clearing everything *)

(** X11. Clearing all local data: afterwards every status read gives
    [leave], no pair is locked, the stored state is removed from local
    storage, so that a reload restores nothing, and the records stored by
    earlier saves and the photo links in memory are kept. *)
Theorem onClearAll_effect (w : World) :
  let w' := Handlers.onClearAll true w in
  (forall dateKey batchKey i,
     Store.getStatusAt dateKey batchKey i (store w') = LEAVE) /\
  (forall dateKey batchKey,
     Store.isDateBatchLocked dateKey batchKey (store w') = false) /\
  localStorage w' =
    delete CONFIG.STORAGE_KEYS.ATTENDANCE (localStorage w) /\
  StorageManager.loadState w' = w' /\
  photoUrls (store w') = photoUrls (store w).
Proof.
  intros w'. subst w'. unfold Handlers.onClearAll. cbn [negb].
  refine (conj _ (conj _ (conj _ (conj _ _)))).
  - intros d b i. rewrite renderAll_reads. cbn [store with_store].
    rewrite invalidateCache_reads, initDateBatch_reads. reflexivity.
  - intros d b. unfold Store.isDateBatchLocked, Renderer.renderAll.
    cbn [store with_store]. rewrite getComputed_lockedBatches.
    cbn [Store._invalidateCache set_cache lockedBatches].
    rewrite initDateBatch_lockedBatches. reflexivity.
  - reflexivity.
  - unfold StorageManager.loadState, Renderer.renderAll.
    cbn [localStorage with_store with_localStorage].
    now rewrite lookup_delete_eq.
  - unfold Renderer.renderAll. cbn [store with_store].
    rewrite getComputed_photoUrls.
    cbn [Store._invalidateCache set_cache photoUrls].
    unfold Store.initDateBatch. destruct (_ !! _); reflexivity.
Qed.

(** ** Taps on a student card *)

Lemma or_else_status (status : string) :
  status <> "" -> Js.or_else (Some status) LEAVE = status.
Proof. destruct status; [congruence | reflexivity]. Qed.

Lemma getStatus_renderAll (i : string) (w : World) :
  Store.getStatus i (store (Renderer.renderAll w)) =
  Store.getStatus i (store w).
Proof.
  unfold Store.getStatus, Renderer.renderAll. cbn [store with_store].
  rewrite getComputed_currentDate, getComputed_currentBatch.
  apply getStatusAt_attendance, getComputed_attendance.
Qed.

Lemma getStatus_after_setStatus (i status : string) (h : HandlersState)
    (w : World) :
  status <> "" -> i <> "__proto__" ->
  Store.getStatus i
    (store (Renderer.renderAll (Store.setStatus i status (with_handlers h w))))
  = status.
Proof.
  intros Hs Hi. rewrite getStatus_renderAll.
  etransitivity;
    [apply (getStatus_setStatus_same i status (with_handlers h w) Hi) |].
  now rewrite or_else_status.
Qed.

(** X12. A single tap: on an unlocked batch, a click that is not the second
    of a double tap changes nothing in the store and arms the timer with
    the student and the pile the card was in.  When the timer fires, the
    student, whose id is not [__proto__], goes from leave to present, from
    present to leave and from absent to leave, and no timer is left. *)
Theorem single_tap_cycle (studentId currentStatus : string) (now : Z)
    (w : World) :
  Store.isLocked (store w) = false ->
  (_lastTapStudentId (handlers w) <> Some studentId \/
   250 <= now - _lastTapTime (handlers w)) ->
  let w1 :=
    Handlers.onStudentClick (Some (studentId, currentStatus)) now w in
  let w2 := Handlers.onSingleTapTimeout w1 in
  store w1 = store w /\
  _singleTapTimer (handlers w1) = Some (studentId, currentStatus) /\
  _singleTapTimer (handlers w2) = None /\
  (studentId <> "__proto__" ->
   (currentStatus = LEAVE ->
    Store.getStatus studentId (store w2) = PRESENT) /\
   (currentStatus = PRESENT ->
    Store.getStatus studentId (store w2) = LEAVE) /\
   (currentStatus = ABSENT ->
    Store.getStatus studentId (store w2) = LEAVE)).
Proof.
  intros Hl Hnd w1 w2.
  assert (E : w1 =
              with_handlers
                {| _lastTapTime := now; _lastTapStudentId := Some studentId;
                   _singleTapTimer := Some (studentId, currentStatus);
                   _popoverStudentId := _popoverStudentId (handlers w) |} w).
  { subst w1. unfold Handlers.onStudentClick. rewrite Hl.
    destruct Hnd as [Hn | Hn].
    - now rewrite (bool_decide_eq_false_2 _ Hn).
    - rewrite (bool_decide_eq_false_2
                 (now - _lastTapTime (handlers w) < 250)) by lia.
      now rewrite andb_false_r. }
  subst w2. rewrite E. clear E w1.
  split; [reflexivity |]. split; [reflexivity |].
  unfold Handlers.onSingleTapTimeout.
  cbn [handlers with_handlers _singleTapTimer].
  split.
  - unfold Renderer.renderAll.
    repeat case_bool_decide; reflexivity.
  - intros Hid. repeat split; intros ->.
    + rewrite (bool_decide_eq_true_2 (LEAVE = LEAVE)) by reflexivity.
      now apply getStatus_after_setStatus.
    + rewrite (bool_decide_eq_false_2 (PRESENT = LEAVE)) by discriminate.
      rewrite (bool_decide_eq_true_2 (PRESENT = PRESENT)) by reflexivity.
      now apply getStatus_after_setStatus.
    + rewrite (bool_decide_eq_false_2 (ABSENT = LEAVE)) by discriminate.
      rewrite (bool_decide_eq_false_2 (ABSENT = PRESENT)) by discriminate.
      rewrite (bool_decide_eq_true_2 (ABSENT = ABSENT)) by reflexivity.
      now apply getStatus_after_setStatus.
Qed.

Lemma single_tap_cycle_witness :
  Store.getStatus "S1"
    (store (Handlers.onSingleTapTimeout
              (Handlers.onStudentClick (Some ("S1", "leave")) 1000
                 readyWorld))) = PRESENT.
Proof.
  pose proof (single_tap_cycle "S1" "leave" 1000 readyWorld) as H.
  cbv zeta in H. destruct H as (_ & _ & _ & H).
  - vm_compute. reflexivity.
  - left. discriminate.
  - apply H; [discriminate | reflexivity].
Defined.

(** X13. A double tap: on an unlocked batch, a second click on the same
    student less than 250 ms after the first marks the student absent, or
    on leave when the card was in the absent pile, and cancels the pending
    single tap, whose write then never happens.  The mark is stated for
    every student id but [__proto__]. *)
Theorem double_tap_marks_absent (studentId currentStatus : string) (now : Z)
    (w : World) :
  Store.isLocked (store w) = false ->
  _lastTapStudentId (handlers w) = Some studentId ->
  now - _lastTapTime (handlers w) < 250 ->
  let w' :=
    Handlers.onStudentClick (Some (studentId, currentStatus)) now w in
  (studentId <> "__proto__" ->
   Store.getStatus studentId (store w') =
     (if bool_decide (currentStatus = ABSENT) then LEAVE else ABSENT)) /\
  _singleTapTimer (handlers w') = None /\
  Handlers.onSingleTapTimeout w' = w'.
Proof.
  intros Hl Hid Ht w'. subst w'. unfold Handlers.onStudentClick.
  rewrite Hl, (bool_decide_eq_true_2 _ Hid), (bool_decide_eq_true_2 _ Ht).
  cbn [andb].
  assert (Ht' : forall x, _singleTapTimer (handlers (Renderer.renderAll x))
                          = _singleTapTimer (handlers x)) by reflexivity.
  split; [| split].
  - intros Hp. case_bool_decide; now apply getStatus_after_setStatus.
  - rewrite Ht'. case_bool_decide; reflexivity.
  - unfold Handlers.onSingleTapTimeout. rewrite Ht'.
    case_bool_decide; reflexivity.
Qed.

Lemma double_tap_marks_absent_witness :
  Store.getStatus "S1"
    (store (Handlers.onStudentClick (Some ("S1", "leave")) 1100
              (Handlers.onStudentClick (Some ("S1", "leave")) 1000
                 readyWorld))) = ABSENT.
Proof.
  pose proof (double_tap_marks_absent "S1" "leave" 1100
                (Handlers.onStudentClick (Some ("S1", "leave")) 1000
                   readyWorld)) as H.
  cbv zeta in H. destruct H as (H & _).
  - vm_compute. reflexivity.
  - reflexivity.
  - vm_compute. reflexivity.
  - apply H. discriminate.
Defined.

(** ** A successful save *)

Lemma recordsKey_not_state (st : StoreState) :
  StorageManager.recordsKey st <> CONFIG.STORAGE_KEYS.ATTENDANCE.
Proof.
  unfold StorageManager.recordsKey, CONFIG.STORAGE_KEYS.ATTENDANCE.
  rewrite !append_cons. intros H. inversion H.
Qed.

Lemma locked_onStudentClick (card : option (string * string)) (now : Z)
    (w : World) :
  Store.isLocked (store w) = true -> Handlers.onStudentClick card now w = w.
Proof.
  intros Hl. destruct card as [[i s]|]; unfold Handlers.onStudentClick;
    [now rewrite Hl | reflexivity].
Qed.

Lemma locked_onPopoverAction (action : string) (w : World) :
  Store.isLocked (store w) = true -> Handlers.onPopoverAction action w = w.
Proof.
  intros Hl. unfold Handlers.onPopoverAction. rewrite Hl.
  destruct (_popoverStudentId (handlers w)) as [[|c s]|]; reflexivity.
Qed.

(** X14. A save that succeeds, or that runs without endpoint, closes the
    batch: the current batch is locked and the ledger is unchanged; from
    then on a click on a card, a popover action and the save button do
    nothing; the lock is part of the stored state and is there after a
    reload; the records are stored under their own key, which is never the
    key of the stored state. *)
Theorem successful_save_closes_batch (response : SaveResponse)
    (timeStr savedAt : string) (w : World) (boot : StoreState) :
  (exists c p, photoBase64 (store w) = Some (String c p)) ->
  response = SaveResult true \/ Js.truthy (API_URL w) = false ->
  let w' := Handlers.onConfirmSave response timeStr savedAt w in
  Store.isLocked (store w') = true /\
  attendance (store w') = attendance (store w) /\
  (forall card now, Handlers.onStudentClick card now w' = w') /\
  (forall action, Handlers.onPopoverAction action w' = w') /\
  Handlers.onSaveClick w' = w' /\
  Store.isDateBatchLocked (currentDate (store w))
    (batchKeyOf (currentBatch (store w)))
    (store (StorageManager.loadState (with_store boot w'))) = true /\
  (exists r,
     localStorage w' !! StorageManager.recordsKey (store w)
       = Some (ItemRecords r) /\
     saved_records r =
       Handlers.buildRecords (store w)
         (cache_visible (Store.getComputed (store w)).1) timeStr).
Proof.
  intros (c0 & p & Hp) Hok w'. subst w'.
  destruct (onConfirmSave_unfold response timeStr savedAt w c0 p Hp)
    as [c' E]. cbv zeta in E. rewrite E. clear E.
  assert (Hb : (if Js.truthy (API_URL w) then Handlers.cloudSavedOf response
                else false) || negb (Js.truthy (API_URL w)) = true).
  { destruct Hok as [-> | ->]; [| reflexivity].
    destruct (Js.truthy (API_URL w)); reflexivity. }
  rewrite Hb. clear Hb Hok.
  set (w2 := StorageManager.saveRecords _ savedAt
               (Store.lockCurrentBatch None (with_cache c' w))).
  assert (Hl : Store.isLocked (store (Renderer.renderAll w2)) = true).
  { unfold Store.isLocked, Store.isDateBatchLocked, Renderer.renderAll.
    cbn [store with_store].
    rewrite getComputed_lockedBatches, getComputed_currentDate,
      getComputed_currentBatch.
    apply bool_decide_eq_true. cbn. set_solver. }
  refine (conj Hl (conj _ (conj _ (conj _ (conj _ (conj _ _)))))).
  - unfold Renderer.renderAll. cbn [store with_store].
    now rewrite getComputed_attendance.
  - intros card now. now apply locked_onStudentClick.
  - intros action. now apply locked_onPopoverAction.
  - unfold Handlers.onSaveClick. now rewrite Hl.
  - unfold StorageManager.loadState, Renderer.renderAll.
    cbn [localStorage with_store]. subst w2.
    unfold StorageManager.saveRecords.
    cbn [localStorage with_localStorage].
    rewrite lookup_insert_ne by apply recordsKey_not_state.
    rewrite lockCurrentBatch_saved. cbn [store with_store].
    unfold Store.isDateBatchLocked.
    rewrite restore_serialize_lockedBatches, lockCurrentBatch_lockedBatches.
    apply bool_decide_eq_true. cbn. set_solver.
  - eexists. split; [apply lookup_insert_eq | reflexivity].
Qed.

Lemma successful_save_closes_batch_witness :
  Store.isLocked
    (store (Handlers.onConfirmSave (SaveResult true) "06:05:00"
              "2024-05-02T00:35:00.000Z" saveWorld)) = true.
Proof.
  apply (successful_save_closes_batch (SaveResult true) "06:05:00"
           "2024-05-02T00:35:00.000Z" saveWorld initialStore).
  - eexists _, _. reflexivity.
  - left. reflexivity.
Defined.

(** ** Attendance pulled from the cloud *)

Lemma parseRow_key (date : string) (row : API.SheetRow) (k : string)
    (rec : string * string) :
  API.parseRow date row = Some (k, rec) -> k = "batch_01" \/ k = "batch_02".
Proof.
  unfold API.parseRow. destruct (_ || _); [discriminate |].
  destruct (_ || _); intros [= <- _]; auto.
Qed.

Lemma recordsFor_key (date : string) (rows : list API.SheetRow)
    (k : string) :
  recordsFor date rows k <> [] -> k = "batch_01" \/ k = "batch_02".
Proof.
  unfold recordsFor. induction rows as [|row rows IH];
    [intros H; now destruct H |].
  rewrite omap_cons.
  destruct (API.parseRow date row) as [[k' rec]|] eqn:E; [| exact IH].
  case_bool_decide as Hk; [| exact IH].
  intros _. subst k'. eapply parseRow_key, E.
Qed.

Lemma groupRows_acc (date : string) (rows : list API.SheetRow) (k : string) :
  forall acc : gmap string (list (string * string)),
    foldl (fun acc row =>
             match API.parseRow date row with
             | None => acc
             | Some (batchKey, rec) =>
                 <[batchKey := default [] (acc !! batchKey) ++ [rec]]> acc
             end) acc rows !! k =
    match recordsFor date rows k with
    | [] => acc !! k
    | recs => Some (default [] (acc !! k) ++ recs)
    end.
Proof.
  unfold recordsFor.
  induction rows as [|row rows IH]; intros acc; cbn [foldl];
    [reflexivity |].
  rewrite IH, omap_cons. clear IH.
  destruct (API.parseRow date row) as [[k' rec]|]; [| reflexivity].
  case_bool_decide as Hk.
  - subst k'. rewrite lookup_insert_eq. cbn [from_option id].
    destruct (omap _ rows); [reflexivity |].
    now rewrite <- app_assoc.
  - now rewrite lookup_insert_ne by exact Hk.
Qed.

Lemma groupRows_lookup (date : string) (rows : list API.SheetRow)
    (k : string) :
  API.groupRows date rows !! k =
  match recordsFor date rows k with
  | [] => None
  | recs => Some recs
  end.
Proof.
  unfold API.groupRows. rewrite groupRows_acc, lookup_empty.
  destruct (recordsFor date rows k); reflexivity.
Qed.

Lemma or_else_idem (a : option string) :
  Js.or_else (Some (Js.or_else a LEAVE)) LEAVE = Js.or_else a LEAVE.
Proof. destruct a as [[|c s]|]; reflexivity. Qed.

Lemma cloudBatchMap_status (roster : gmap string Student)
    (recs : list (string * string)) (i : string) :
  Js.or_else (API.cloudBatchMap roster recs !! i) LEAVE =
  lastStatusOf recs i.
Proof.
  unfold API.cloudBatchMap, lastStatusOf.
  induction recs as [|r recs IH] using rev_ind.
  - cbn [foldl]. rewrite filter_nil. apply or_else_leave_roster.
  - rewrite foldl_app, filter_app. cbn [foldl].
    rewrite filter_cons, filter_nil.
    destruct (decide (r.1 = i)) as [Hr|Hr].
    + rewrite <- Hr, lookup_insert_eq, last_snoc. apply or_else_idem.
    + rewrite lookup_insert_ne by exact Hr. now rewrite app_nil_r.
Qed.

(** The ledger and the locks after the loop over the batch keys. *)
Lemma mergeBatch_attendance (date : string)
    (batches : gmap string (list (string * string)))
    (st : StoreState) (k : string) :
  attendance (API.mergeBatch date batches st k) =
  match batches !! k with
  | None => attendance st
  | Some recs =>
      <[date := <[k := JsMap (API.cloudBatchMap (studentMap st) recs)]>
                  (default ∅ (attendance st !! date))]> (attendance st)
  end.
Proof. unfold API.mergeBatch. destruct (batches !! k); reflexivity. Qed.

Lemma mergeBatch_studentMap (date : string)
    (batches : gmap string (list (string * string)))
    (st : StoreState) (k : string) :
  studentMap (API.mergeBatch date batches st k) = studentMap st.
Proof. unfold API.mergeBatch. destruct (batches !! k); reflexivity. Qed.

Lemma mergeBatch_lockedBatches (date : string)
    (batches : gmap string (list (string * string)))
    (st : StoreState) (k : string) :
  lockedBatches (API.mergeBatch date batches st k) =
  match batches !! k with
  | None => lockedBatches st
  | Some _ => {[ lockKey date k ]} ∪ lockedBatches st
  end.
Proof. unfold API.mergeBatch. destruct (batches !! k); reflexivity. Qed.

Lemma mergeBatch_batchDataAt (date : string)
    (batches : gmap string (list (string * string)))
    (st : StoreState) (k d b : string) :
  Store.batchDataAt d b (API.mergeBatch date batches st k) =
  match batches !! k with
  | Some recs =>
      if bool_decide (d = date /\ b = k)
      then Some (JsMap (API.cloudBatchMap (studentMap st) recs))
      else Store.batchDataAt d b st
  | None => Store.batchDataAt d b st
  end.
Proof.
  unfold Store.batchDataAt. rewrite mergeBatch_attendance.
  destruct (batches !! k) as [recs|]; [| reflexivity].
  case_bool_decide as H.
  - destruct H as [-> ->]. now rewrite !lookup_insert_eq.
  - destruct (decide (date = d)) as [<-|Hd].
    + rewrite lookup_insert_eq.
      rewrite lookup_insert_ne by (intros <-; apply H; auto).
      destruct (attendance st !! date); [reflexivity |].
      cbn [from_option id]. now rewrite lookup_empty.
    + now rewrite lookup_insert_ne by exact Hd.
Qed.

Lemma ensureDate_batchDataAt (date d b : string) (st : StoreState) :
  Store.batchDataAt d b
    (set_attendance
       (<[date := default ∅ (attendance st !! date)]> (attendance st)) st)
  = Store.batchDataAt d b st.
Proof.
  unfold Store.batchDataAt. cbn [attendance set_attendance].
  destruct (decide (date = d)) as [<-|Hd].
  - rewrite lookup_insert_eq.
    destruct (attendance st !! date); [reflexivity |].
    cbn [from_option id]. now rewrite lookup_empty.
  - now rewrite lookup_insert_ne by exact Hd.
Qed.

Lemma mergedStore_batchDataAt (date : string) (rows : list API.SheetRow)
    (st : StoreState) (d b : string) :
  Store.batchDataAt d b (mergedStore date rows st) =
  match recordsFor date rows b with
  | [] => Store.batchDataAt d b st
  | recs =>
      if bool_decide (d = date)
      then Some (JsMap (API.cloudBatchMap (studentMap st) recs))
      else Store.batchDataAt d b st
  end.
Proof.
  unfold mergedStore. cbn [foldl].
  rewrite !mergeBatch_batchDataAt, !mergeBatch_studentMap,
    !ensureDate_batchDataAt, !groupRows_lookup.
  cbn [studentMap set_attendance].
  destruct (recordsFor date rows b) as [|r recs] eqn:Eb.
  - destruct (recordsFor date rows "batch_02") as [|r2 recs2] eqn:E2.
    + destruct (recordsFor date rows "batch_01") as [|r1 recs1] eqn:E1;
        [reflexivity |].
      case_bool_decide as H; [| reflexivity].
      destruct H as [_ ->]. congruence.
    + case_bool_decide as H; [destruct H as [_ ->]; congruence |].
      destruct (recordsFor date rows "batch_01") as [|r1 recs1] eqn:E1;
        [reflexivity |].
      case_bool_decide as H'; [| reflexivity].
      destruct H' as [_ ->]. congruence.
  - assert (Hk : b = "batch_01" \/ b = "batch_02")
      by (apply (recordsFor_key date rows); congruence).
    destruct Hk as [-> | ->].
    + rewrite Eb.
      destruct (recordsFor date rows "batch_02") as [|r2 recs2];
        repeat case_bool_decide; try reflexivity; naive_solver.
    + rewrite Eb.
      destruct (recordsFor date rows "batch_01") as [|r1 recs1];
        repeat case_bool_decide; try reflexivity; naive_solver.
Qed.

Lemma mergedStore_lockedBatches (date : string) (rows : list API.SheetRow)
    (st : StoreState) :
  lockedBatches (mergedStore date rows st) =
  (match recordsFor date rows "batch_02" with
   | [] => ∅
   | _ => {[ lockKey date "batch_02" ]}
   end) ∪
  (match recordsFor date rows "batch_01" with
   | [] => ∅
   | _ => {[ lockKey date "batch_01" ]}
   end) ∪ lockedBatches st.
Proof.
  unfold mergedStore. cbn [foldl].
  rewrite !mergeBatch_lockedBatches, !groupRows_lookup.
  cbn [lockedBatches set_attendance].
  destruct (recordsFor date rows "batch_02"),
    (recordsFor date rows "batch_01"); set_solver.
Qed.

Lemma onAttendanceResponse_store (date : string) (row : API.SheetRow)
    (rows : list API.SheetRow) (w : World) :
  exists c,
    store (API.onAttendanceResponse date (Some (row :: rows)) w).2 =
    set_cache c (mergedStore date (row :: rows) (store w)).
Proof.
  unfold API.onAttendanceResponse. cbn [snd].
  unfold Renderer.renderAll. cbn [store with_store].
  destruct (getComputed_store
              (store (StorageManager.saveState
                        (with_store
                           (Store._invalidateCache
                              (mergedStore date (row :: rows) (store w)))
                           w)))) as [c Hc].
  exists c. unfold mergedStore in *. rewrite Hc. reflexivity.
Qed.

(** X15. Cloud data replaces the local cell group: for a batch with at
    least one kept row (a row of the requested date with a student id),
    after the callback the batch of that date is locked and every student
    reads the status of their last kept row, or [leave] without one,
    whatever the local status was before. *)
Theorem cloud_attendance_replaces_batch (date : string)
    (rows : list API.SheetRow) (batchKey : string) (w : World) :
  recordsFor date rows batchKey <> [] ->
  let w' := (API.onAttendanceResponse date (Some rows) w).2 in
  (API.onAttendanceResponse date (Some rows) w).1 = true /\
  Store.isDateBatchLocked date batchKey (store w') = true /\
  (forall i,
     Store.getStatusAt date batchKey i (store w') =
     lastStatusOf (recordsFor date rows batchKey) i).
Proof.
  intros Hne w'. subst w'.
  destruct rows as [|row rows]; [now destruct Hne |].
  split; [reflexivity |].
  destruct (onAttendanceResponse_store date row rows w) as [c ->].
  split.
  - unfold Store.isDateBatchLocked. cbn [lockedBatches set_cache].
    rewrite mergedStore_lockedBatches. apply bool_decide_eq_true.
    destruct (recordsFor_key date (row :: rows) batchKey Hne) as [-> | ->];
      destruct (recordsFor date (row :: rows) _) eqn:E;
      try (now destruct Hne); set_solver.
  - intros i. rewrite getStatusAt_entries.
    change (Store.batchDataAt date batchKey
              (set_cache c (mergedStore date (row :: rows) (store w))))
      with (Store.batchDataAt date batchKey
              (mergedStore date (row :: rows) (store w))).
    rewrite mergedStore_batchDataAt.
    destruct (recordsFor date (row :: rows) batchKey) as [|r recs] eqn:E;
      [now destruct Hne |].
    rewrite bool_decide_eq_true_2 by reflexivity. cbn [groupRead].
    now rewrite cloudBatchMap_status.
Qed.

(** X16. What the callback leaves alone: without a table, or with an empty
    one, the promise resolves to [false] and nothing changes.  Otherwise it
    resolves to [true], also when no row is kept; every status read of
    another date, and of a batch without kept row, is as before; every pair
    that was locked still is, and the only locks added are those of the
    batches with a kept row; the roster is untouched and the new state is
    stored. *)
Theorem cloud_attendance_frame (date : string)
    (response : option (list API.SheetRow)) (w : World) :
  let r := API.onAttendanceResponse date response w in
  let rows := default [] response in
  r.1 = bool_decide (rows <> []) /\
  (r.1 = false -> r.2 = w) /\
  (forall d b i,
     d <> date \/ recordsFor date rows b = [] ->
     Store.getStatusAt d b i (store r.2) = Store.getStatusAt d b i (store w))
  /\
  lockedBatches (store r.2) =
    (match recordsFor date rows "batch_02" with
     | [] => ∅
     | _ => {[ lockKey date "batch_02" ]}
     end) ∪
    (match recordsFor date rows "batch_01" with
     | [] => ∅
     | _ => {[ lockKey date "batch_01" ]}
     end) ∪ lockedBatches (store w) /\
  studentMap (store r.2) = studentMap (store w) /\
  (r.1 = true ->
   localStorage r.2 !! CONFIG.STORAGE_KEYS.ATTENDANCE =
     Some (ItemState (StorageManager.serialize (store r.2)))).
Proof.
  intros r rows. subst r rows.
  destruct response as [[|row rows]|]; cbn [from_option id].
  - cbn. repeat split; try reflexivity; try discriminate. set_solver.
  - destruct (onAttendanceResponse_store date row rows w) as [c Hc].
    refine (conj _ (conj _ (conj _ (conj _ (conj _ _))))).
    + reflexivity.
    + discriminate.
    + intros d b i Hfr. rewrite Hc, !getStatusAt_entries.
      change (Store.batchDataAt d b
                (set_cache c (mergedStore date (row :: rows) (store w))))
        with (Store.batchDataAt d b
                (mergedStore date (row :: rows) (store w))).
      rewrite mergedStore_batchDataAt.
      destruct (recordsFor date (row :: rows) b) as [|r0 recs];
        [reflexivity |].
      destruct Hfr as [Hd | Hb]; [| discriminate Hb].
      now rewrite bool_decide_eq_false_2 by exact Hd.
    + rewrite Hc. cbn [lockedBatches set_cache].
      apply mergedStore_lockedBatches.
    + rewrite Hc. cbn [studentMap set_cache]. unfold mergedStore.
      cbn [foldl]. now rewrite !mergeBatch_studentMap.
    + intros _. unfold API.onAttendanceResponse. cbn [snd].
      unfold Renderer.renderAll.
      cbn [localStorage with_store store StorageManager.saveState
           with_localStorage].
      rewrite lookup_insert_eq. do 2 f_equal.
      all: destruct (getComputed_store
                       (Store._invalidateCache
                          (mergedStore date (row :: rows) (store w))))
             as [c' Hc'];
        unfold mergedStore in Hc'; rewrite Hc'; reflexivity.
  - cbn. repeat split; try reflexivity; try discriminate. set_solver.
Qed.

Lemma cloud_attendance_replaces_batch_witness :
  Store.isDateBatchLocked "2024-05-02" "batch_01"
    (store (API.onAttendanceResponse "2024-05-02" (Some sampleRows)
              readyWorld).2) = true /\
  Store.getStatusAt "2024-05-02" "batch_01" "S2"
    (store (API.onAttendanceResponse "2024-05-02" (Some sampleRows)
              readyWorld).2) = "absent".
Proof.
  assert (Hne : recordsFor "2024-05-02" sampleRows "batch_01" <> [])
    by (vm_compute; discriminate).
  destruct (cloud_attendance_replaces_batch "2024-05-02" sampleRows
              "batch_01" readyWorld Hne) as (_ & Hl & Hs).
  split; [exact Hl |]. rewrite Hs. vm_compute. reflexivity.
Defined.

Lemma cloud_attendance_frame_witness :
  Store.getStatusAt "2024-05-02" "batch_02" "S3"
    (store (API.onAttendanceResponse "2024-05-02" (Some sampleRows)
              readyWorld).2) =
  Store.getStatusAt "2024-05-02" "batch_02" "S3" (store readyWorld) /\
  (API.onAttendanceResponse "2024-05-02" None readyWorld).2 = readyWorld.
Proof.
  split.
  - apply (cloud_attendance_frame "2024-05-02" (Some sampleRows) readyWorld).
    right. vm_compute. reflexivity.
  - apply (cloud_attendance_frame "2024-05-02" None readyWorld).
    reflexivity.
Defined.

(** ** The merge report and the section view *)

Lemma finalStatus_present (b1 b2 : Js.value) :
  MergeView.finalStatus b1 b2 = "present" <->
  b1 = Js.Str "present" \/ b2 = Js.Str "present".
Proof.
  unfold MergeView.finalStatus, Store.getFinalStatus. split.
  - repeat case_bool_decide; cbn; intros Hx; subst;
      try discriminate Hx; auto; exfalso; congruence.
  - intros [-> | ->]; repeat case_bool_decide; cbn; subst;
      try reflexivity; try discriminate; try congruence; naive_solver.
Qed.

Lemma countRow_invariant (d1 d2 : option CellGroup) (s : Student)
    (c : MergeView.Counts) (n : nat) :
  (MergeView.b1Present c <= MergeView.finalPresent c /\
   MergeView.b2Present c <= MergeView.finalPresent c /\
   MergeView.finalPresent c + MergeView.finalAbsent c
     + MergeView.finalLeave c <= n /\
   MergeView.b1Present c + MergeView.b1Absent c <= n /\
   MergeView.b2Present c + MergeView.b2Absent c <= n)%nat ->
  let c' := MergeView.countRow c (MergeView.mergedRow d1 d2 s) in
  (MergeView.b1Present c' <= MergeView.finalPresent c' /\
   MergeView.b2Present c' <= MergeView.finalPresent c' /\
   MergeView.finalPresent c' + MergeView.finalAbsent c'
     + MergeView.finalLeave c' <= S n /\
   MergeView.b1Present c' + MergeView.b1Absent c' <= S n /\
   MergeView.b2Present c' + MergeView.b2Absent c' <= S n)%nat.
Proof.
  intros H c'. subst c'. unfold MergeView.countRow, MergeView.mergedRow.
  cbn [MergeView.batch1Status MergeView.batch2Status
       MergeView.row_finalStatus MergeView.b1Present MergeView.b1Absent
       MergeView.b2Present MergeView.b2Absent MergeView.finalPresent
       MergeView.finalAbsent MergeView.finalLeave].
  set (b1 := MergeView.getVal d1 (student_id s)).
  set (b2 := MergeView.getVal d2 (student_id s)).
  pose proof (finalStatus_present b1 b2) as Hp.
  destruct (decide (b1 = "present")) as [E1|E1];
    destruct (decide (b2 = "present")) as [E2|E2];
    destruct (decide (MergeView.finalStatus b1 b2 = "present")) as [Ef|Ef];
    try (exfalso; tauto);
    rewrite ?(bool_decide_eq_true_2 _ E1), ?(bool_decide_eq_false_2 _ E1),
      ?(bool_decide_eq_true_2 _ E2), ?(bool_decide_eq_false_2 _ E2),
      ?(bool_decide_eq_true_2 _ Ef), ?(bool_decide_eq_false_2 _ Ef);
    repeat case_bool_decide; lia.
Qed.

(** X17. The counters of the merge report: whenever [open] builds a report,
    the final present count is at least the present count of each batch
    (a student present in either batch is finally present), and neither
    the three final counters together nor the present and absent counters
    of one batch exceed the number of rows. *)
Theorem reportCounts_bounds (st : StoreState) (c : MergeView.Counts)
    (rows : list MergeView.MergedRow) :
  MergeView.reportCounts st = Some c ->
  MergeView.mergedRows st = Some rows ->
  (MergeView.b1Present c <= MergeView.finalPresent c /\
   MergeView.b2Present c <= MergeView.finalPresent c /\
   MergeView.finalPresent c + MergeView.finalAbsent c
     + MergeView.finalLeave c <= length rows /\
   MergeView.b1Present c + MergeView.b1Absent c <= length rows /\
   MergeView.b2Present c + MergeView.b2Absent c <= length rows)%nat.
Proof.
  unfold MergeView.reportCounts. intros Hc Hr. rewrite Hr in Hc.
  injection Hc as <-.
  unfold MergeView.mergedRows in Hr.
  set (d1 := Store.batchDataAt (currentDate st) "batch_01" st) in *.
  set (d2 := Store.batchDataAt (currentDate st) "batch_02" st) in *.
  assert (E : rows = MergeView.mergedRow d1 d2
                       <$> omap id (Store.getAllStudents st))
    by (destruct d1, d2; congruence).
  rewrite E. clear E Hr. rewrite length_fmap.
  assert (G : forall (l : list Student) (c0 : MergeView.Counts) (n : nat),
             (MergeView.b1Present c0 <= MergeView.finalPresent c0 /\
              MergeView.b2Present c0 <= MergeView.finalPresent c0 /\
              MergeView.finalPresent c0 + MergeView.finalAbsent c0
                + MergeView.finalLeave c0 <= n /\
              MergeView.b1Present c0 + MergeView.b1Absent c0 <= n /\
              MergeView.b2Present c0 + MergeView.b2Absent c0 <= n)%nat ->
             let c' := foldl MergeView.countRow c0
                         (MergeView.mergedRow d1 d2 <$> l) in
             (MergeView.b1Present c' <= MergeView.finalPresent c' /\
              MergeView.b2Present c' <= MergeView.finalPresent c' /\
              MergeView.finalPresent c' + MergeView.finalAbsent c'
                + MergeView.finalLeave c' <= n + length l /\
              MergeView.b1Present c' + MergeView.b1Absent c' <= n + length l /\
              MergeView.b2Present c' + MergeView.b2Absent c' <= n + length l
             )%nat).
  { induction l as [|s l IH]; intros c0 n H0; cbn [foldl fmap list_fmap length].
    - now rewrite Nat.add_0_r.
    - replace (n + S (length l))%nat with (S n + length l)%nat by lia.
      apply IH. now apply countRow_invariant. }
  apply (G _ MergeView.zeroCounts 0%nat). cbn. lia.
Qed.

Lemma reportCounts_bounds_witness :
  (MergeView.b1Present
     (default MergeView.zeroCounts
        (MergeView.reportCounts (store batch2World))) <=
   MergeView.finalPresent
     (default MergeView.zeroCounts
        (MergeView.reportCounts (store batch2World))))%nat.
Proof.
  assert (Hc : MergeView.reportCounts (store batch2World) =
               Some (default MergeView.zeroCounts
                       (MergeView.reportCounts (store batch2World))))
    by (vm_compute; reflexivity).
  assert (Hr : MergeView.mergedRows (store batch2World) =
               Some (default [] (MergeView.mergedRows (store batch2World))))
    by (vm_compute; reflexivity).
  apply (reportCounts_bounds _ _ _ Hc Hr).
Defined.

(** X18. The numbers of a batch card in the section view: the three
    counters add up to the number of entries of the cell group, not to the
    size of the roster; the present counter is the size of the set that
    hides students from batch 2; without cell group all three are zero. *)
Theorem getStats_totals (data : option CellGroup) :
  let s := SectionView.getStats data in
  (SectionView.stat_present s + SectionView.stat_absent s
   + SectionView.stat_leave s
   = from_option (fun g => size (groupEntries g)) 0 data)%nat /\
  SectionView.stat_present s =
    from_option (fun g => size (Store.presentIds (groupEntries g))) 0%nat
      data.
Proof.
  destruct data as [g|]; [| split; reflexivity].
  cbn [SectionView.getStats from_option]. unfold Store.presentIds.
  rewrite size_dom.
  apply (map_fold_weak_ind
           (fun (r : SectionView.Stats) (m : gmap string string) =>
              (SectionView.stat_present r + SectionView.stat_absent r
               + SectionView.stat_leave r = size m)%nat /\
              SectionView.stat_present r =
                size (filter (fun kv : string * string => kv.2 = PRESENT) m))).
  - split; [reflexivity |]. now rewrite map_filter_empty, map_size_empty.
  - intros i x m r Hi [Hsum Hp].
    rewrite (map_size_insert_None i x m Hi).
    unfold SectionView.countStatus.
    case_bool_decide as Hx.
    + cbn [SectionView.stat_present SectionView.stat_absent
           SectionView.stat_leave].
      rewrite map_filter_insert_True by exact Hx.
      rewrite map_size_insert_None
        by (apply map_lookup_filter_None; now left).
      split; lia.
    + rewrite map_filter_insert_not'
        by (try exact Hx; intros y Hy; congruence).
      case_bool_decide;
        cbn [SectionView.stat_present SectionView.stat_absent
             SectionView.stat_leave]; split; lia.
Qed.

(** ** Escaping text for the page *)

Lemma chars_app (s t : string) :
  String.list_ascii_of_string (s +:+ t) =
  String.list_ascii_of_string s ++ String.list_ascii_of_string t.
Proof.
  induction s as [|a s IH]; [reflexivity |].
  rewrite append_cons. cbn [String.list_ascii_of_string]. now rewrite IH.
Qed.

Lemma replaceAll_Forall (P : ascii -> Prop) (c : ascii) (by_ s : string) :
  Forall P (String.list_ascii_of_string by_) ->
  Forall (fun a => a <> c -> P a) (String.list_ascii_of_string s) ->
  Forall P (String.list_ascii_of_string (Utils.replaceAll c by_ s)).
Proof.
  intros Hby. induction s as [|a s IH]; cbn [Utils.replaceAll];
    intros Hs; [constructor |].
  cbn [String.list_ascii_of_string] in Hs. apply Forall_cons in Hs as [Ha Hs].
  destruct (Ascii.eqb a c) eqn:E.
  - rewrite chars_app. apply Forall_app. split; [exact Hby | now apply IH].
  - cbn [String.list_ascii_of_string]. constructor; [| now apply IH].
    apply Ha. intros ->. rewrite Ascii.eqb_refl in E. discriminate E.
Qed.

(** X19. [escapeHtml] leaves no character that could open or close a tag
    or an attribute: its result contains no [<], no [>] and no double
    quote, whatever the text. *)
Theorem escapeHtml_safe (text : string) :
  Forall (fun a => a <> "<"%char /\ a <> ">"%char /\ a <> "034"%char)
    (String.list_ascii_of_string (Utils.escapeHtml text)).
Proof.
  unfold Utils.escapeHtml.
  set (t1 := Utils.replaceAll "&" "&amp;" text).
  assert (H2 : Forall (fun a => a <> "<"%char)
                 (String.list_ascii_of_string
                    (Utils.replaceAll "<" "&lt;" t1))).
  { apply replaceAll_Forall.
    - repeat constructor; discriminate.
    - apply Forall_forall. auto. }
  set (t2 := Utils.replaceAll "<" "&lt;" t1) in *.
  assert (H3 : Forall (fun a => a <> "<"%char /\ a <> ">"%char)
                 (String.list_ascii_of_string
                    (Utils.replaceAll ">" "&gt;" t2))).
  { apply replaceAll_Forall.
    - repeat constructor; discriminate.
    - eapply Forall_impl; [exact H2 |]. cbn. auto. }
  set (t3 := Utils.replaceAll ">" "&gt;" t2) in *.
  apply replaceAll_Forall.
  - repeat constructor; discriminate.
  - eapply Forall_impl; [exact H3 |]. cbn. intuition.
Qed.

(** ** Locks stored in the older format *)

Lemma migrate_inner (dateKey : string) (day : gmap string bool)
    (acc : gset string) (k : string) :
  k ∈ map_fold (fun batchKey (flag : bool) acc' =>
                  if flag then {[ lockKey dateKey batchKey ]} ∪ acc'
                  else acc') acc day <->
  k ∈ acc \/ exists batchKey,
               day !! batchKey = Some true /\ k = lockKey dateKey batchKey.
Proof.
  apply (map_fold_weak_ind
           (fun (r : gset string) (m : gmap string bool) =>
              k ∈ r <-> k ∈ acc \/
                        exists b, m !! b = Some true /\ k = lockKey dateKey b)).
  - split; [auto | intros [H | (b & H & _)]; [exact H |]].
    rewrite lookup_empty in H. discriminate H.
  - intros b flag m r Hb IH. destruct flag.
    + rewrite elem_of_union, elem_of_singleton, IH. split.
      * intros [-> | [H | (b' & Hb' & ->)]]; [right | auto | right].
        -- exists b. now rewrite lookup_insert_eq.
        -- exists b'. rewrite lookup_insert_ne by congruence. auto.
      * intros [H | (b' & Hb' & ->)]; [auto |].
        destruct (decide (b = b')) as [<-|Hne]; [auto |].
        rewrite lookup_insert_ne in Hb' by exact Hne. right. right. eauto.
    + rewrite IH. split.
      * intros [H | (b' & Hb' & ->)]; [auto | right].
        exists b'. rewrite lookup_insert_ne by congruence. auto.
      * intros [H | (b' & Hb' & ->)]; [auto |].
        destruct (decide (b = b')) as [<-|Hne].
        -- rewrite lookup_insert_eq in Hb'. discriminate Hb'.
        -- rewrite lookup_insert_ne in Hb' by exact Hne. right. eauto.
Qed.

Lemma migrateNested_spec (flags : gmap string (gmap string bool))
    (k : string) :
  k ∈ StorageManager.migrateNested flags <->
  exists dateKey batchKey day,
    flags !! dateKey = Some day /\ day !! batchKey = Some true /\
    k = lockKey dateKey batchKey.
Proof.
  unfold StorageManager.migrateNested.
  apply (map_fold_weak_ind
           (fun (r : gset string) (m : gmap string (gmap string bool)) =>
              k ∈ r <-> exists d b day,
                          m !! d = Some day /\ day !! b = Some true /\
                          k = lockKey d b)).
  - split; [set_solver |]. intros (d & b & day & H & _).
    rewrite lookup_empty in H. discriminate H.
  - intros d day m r Hd IH. rewrite migrate_inner, IH. split.
    + intros [(d' & b & day' & Hm & Hb & ->) | (b & Hb & ->)].
      * exists d', b, day'. rewrite lookup_insert_ne by congruence. auto.
      * exists d, b, day. now rewrite lookup_insert_eq.
    + intros (d' & b & day' & Hm & Hb & ->).
      destruct (decide (d = d')) as [<-|Hne].
      * rewrite lookup_insert_eq in Hm. injection Hm as <-. right. eauto.
      * rewrite lookup_insert_ne in Hm by exact Hne. left. eauto 6.
Qed.

(** X20. Loading a state stored in the older format, where the locks are a
    nested object of flags: the lock set after [loadState] holds exactly the
    lock keys of the pairs whose flag is set, so a pair is locked when its
    flag is [true] and no pair with an unset flag adds a key. *)
Theorem legacy_locks_migrated (d : SavedState)
    (flags : gmap string (gmap string bool)) (w : World) :
  localStorage w !! CONFIG.STORAGE_KEYS.ATTENDANCE = Some (ItemState d) ->
  saved_savedBatches d = SavedNested flags ->
  forall k,
    k ∈ lockedBatches (store (StorageManager.loadState w)) <->
    exists dateKey batchKey day,
      flags !! dateKey = Some day /\ day !! batchKey = Some true /\
      k = lockKey dateKey batchKey.
Proof.
  intros Hls Hsb k. unfold StorageManager.loadState. rewrite Hls.
  cbn [store with_store]. unfold StorageManager.restore. rewrite Hsb.
  cbn [lockedBatches set_photoUrls set_lockedBatches].
  apply migrateNested_spec.
Qed.

Lemma legacy_locks_migrated_witness :
  "2024-05-01|batch_01" ∈
    lockedBatches (store (StorageManager.loadState legacyWorld)).
Proof.
  eapply (legacy_locks_migrated _ _ legacyWorld); [reflexivity ..|].
  exists "2024-05-01", "batch_01",
    ({[ "batch_01" := true; "batch_02" := false ]} : gmap string bool).
  repeat split; vm_compute; reflexivity.
Defined.

(** ** The compact records of a save request *)

Lemma lacks_cons (c a : ascii) (s : string) :
  lacks c (String a s) <-> a <> c /\ lacks c s.
Proof.
  unfold lacks. cbn [String.list_ascii_of_string].
  exact (Forall_cons (fun x => x <> c) a (String.list_ascii_of_string s)).
Qed.

Lemma lacks_app (c : ascii) (s t : string) :
  lacks c (s +:+ t) <-> lacks c s /\ lacks c t.
Proof.
  unfold lacks. rewrite chars_app.
  exact (Forall_app (fun x => x <> c) _ _).
Qed.

Lemma eqb_neq (a c : ascii) : a <> c -> Ascii.eqb a c = false.
Proof.
  intros H. destruct (Ascii.eqb a c) eqn:E; [| reflexivity].
  apply Ascii.eqb_eq in E. contradiction.
Qed.

Lemma split_lacks (c : ascii) (s : string) :
  lacks c s -> JsUri.split c s = [s].
Proof.
  induction s as [|a s IH]; [reflexivity |].
  rewrite lacks_cons. intros [Ha Hs]. cbn [JsUri.split].
  now rewrite (eqb_neq a c Ha), (IH Hs).
Qed.

Lemma split_app_sep (c : ascii) (s t : string) :
  lacks c s -> JsUri.split c (s +:+ String c t) = s :: JsUri.split c t.
Proof.
  induction s as [|a s IH].
  - intros _. rewrite append_empty. cbn [JsUri.split].
    now rewrite Ascii.eqb_refl.
  - rewrite lacks_cons. intros [Ha Hs]. rewrite append_cons.
    cbn [JsUri.split]. now rewrite (eqb_neq a c Ha), (IH Hs).
Qed.

Lemma split_join (c : ascii) (l : list string) :
  l <> [] -> Forall (lacks c) l ->
  JsUri.split c (JsUri.join (String c EmptyString) l) = l.
Proof.
  induction l as [|x l IH]; [congruence |]. intros _ Hl.
  apply Forall_cons in Hl as [Hx Hl]. destruct l as [|y l].
  - cbn [JsUri.join]. now apply split_lacks.
  - change (JsUri.join (String c EmptyString) (x :: y :: l))
      with (x +:+ String c EmptyString
              +:+ JsUri.join (String c EmptyString) (y :: l)).
    rewrite append_cons, append_empty, split_app_sep by exact Hx.
    f_equal. apply IH; [discriminate | exact Hl].
Qed.

Lemma unreserved_plain (c : ascii) :
  JsUri.is_unreserved c = true ->
  c <> ":"%char /\ c <> "|"%char /\ c <> "%"%char.
Proof.
  destruct c as [[] [] [] [] [] [] [] []]; vm_compute; intros H;
    try discriminate H; repeat split; discriminate.
Qed.

Lemma hexDigit_plain (c : ascii) :
  let h := JsUri.hexDigit (N_of_ascii c / 16) in
  let l := JsUri.hexDigit (N_of_ascii c mod 16) in
  (h <> ":"%char /\ h <> "|"%char) /\ (l <> ":"%char /\ l <> "|"%char) /\
  JsUri.hexValue h = Some (N_of_ascii c / 16)%N /\
  JsUri.hexValue l = Some (N_of_ascii c mod 16)%N /\
  ascii_of_N (16 * (N_of_ascii c / 16) + N_of_ascii c mod 16) = c.
Proof.
  destruct c as [[] [] [] [] [] [] [] []]; vm_compute;
    repeat split; discriminate.
Qed.

Lemma encode_lacks (s : string) :
  lacks ":" (JsUri.encodeURIComponent s) /\
  lacks "|" (JsUri.encodeURIComponent s).
Proof.
  induction s as [|c s [IH1 IH2]]; [split; constructor |].
  cbn [JsUri.encodeURIComponent].
  destruct (JsUri.is_unreserved c) eqn:E.
  - destruct (unreserved_plain c E) as (H1 & H2 & _).
    rewrite !lacks_cons. auto.
  - destruct (hexDigit_plain c) as ((Hh1 & Hh2) & (Hl1 & Hl2) & _).
    rewrite !lacks_cons. repeat split; try assumption; discriminate.
Qed.

Lemma decodeURIComponent_encode (s : string) :
  JsUri.decodeURIComponent (JsUri.encodeURIComponent s) = Some s.
Proof.
  induction s as [|c s IH]; [reflexivity |].
  cbn [JsUri.encodeURIComponent].
  destruct (JsUri.is_unreserved c) eqn:E.
  - destruct (unreserved_plain c E) as (_ & _ & Hp).
    cbn [JsUri.decodeURIComponent]. rewrite (eqb_neq c "%" Hp), IH.
    reflexivity.
  - destruct (hexDigit_plain c) as (_ & _ & Hh & Hl & Hc).
    cbn [JsUri.decodeURIComponent]. rewrite Ascii.eqb_refl.
    cbv zeta in Hh, Hl. rewrite Hh, Hl, IH, Hc. reflexivity.
Qed.

Lemma statusCode_lacks (status : Js.value) :
  lacks ":" (Handlers.statusCode status) /\
  lacks "|" (Handlers.statusCode status).
Proof.
  unfold Handlers.statusCode.
  repeat case_bool_decide; split; repeat constructor; discriminate.
Qed.

Lemma compactRecord_split (r : AttendanceRecord) :
  JsUri.split ":" (Handlers.compactRecord r) =
  [ JsUri.encodeURIComponent (rec_studentId r);
    Handlers.statusCode (rec_status r);
    JsUri.encodeURIComponent (rec_studentName r);
    JsUri.encodeURIComponent (rec_appNumber r) ].
Proof.
  unfold Handlers.compactRecord.
  rewrite !(append_cons ":" EmptyString), !append_empty.
  rewrite split_app_sep by apply encode_lacks.
  rewrite split_app_sep by apply statusCode_lacks.
  rewrite split_app_sep by apply encode_lacks.
  rewrite split_lacks by apply encode_lacks.
  reflexivity.
Qed.

Lemma compactRecord_lacks_bar (r : AttendanceRecord) :
  lacks "|" (Handlers.compactRecord r).
Proof.
  unfold Handlers.compactRecord.
  rewrite !(append_cons ":" EmptyString), !append_empty.
  repeat match goal with
         | |- lacks _ (_ +:+ _) => apply lacks_app; split
         | |- lacks _ (String _ _) => apply lacks_cons; split
         end;
    try apply encode_lacks; try apply statusCode_lacks; discriminate.
Qed.

Lemma parsePart_compactRecord (date batch time savedAt : string)
    (r : AttendanceRecord) :
  CodeGs.parsePart date batch time savedAt (Handlers.compactRecord r) =
  Some (Some (CodeGs.rowOfRecord date batch time savedAt r)).
Proof.
  unfold CodeGs.parsePart. rewrite compactRecord_split.
  rewrite !decodeURIComponent_encode. reflexivity.
Qed.

Lemma parseParts_compactRecords (date batch time savedAt : string)
    (records : list AttendanceRecord) :
  CodeGs.parseParts date batch time savedAt
    (Handlers.compactRecord <$> records) =
  Some (CodeGs.rowOfRecord date batch time savedAt <$> records).
Proof.
  induction records as [|r records IH]; [reflexivity |].
  rewrite !fmap_cons. cbn [CodeGs.parseParts].
  rewrite parsePart_compactRecord, IH. reflexivity.
Qed.

Lemma compactRecords_nonempty (records : list AttendanceRecord) :
  records <> [] ->
  exists c s, Handlers.compactRecords records = String c s.
Proof.
  destruct records as [|r records]; [congruence |]. intros _.
  unfold Handlers.compactRecords. rewrite fmap_cons.
  assert (H : exists c s, Handlers.compactRecord r = String c s).
  { unfold Handlers.compactRecord.
    destruct (JsUri.encodeURIComponent (rec_studentId r)) as [|c s];
      [rewrite append_empty, append_cons | rewrite append_cons]; eauto. }
  destruct H as (c & s & ->).
  destruct (Handlers.compactRecord <$> records) as [|y l];
    cbn [JsUri.join]; [| rewrite append_cons]; eauto.
Qed.

(** Decoding undoes encoding, and the encoded text contains neither the
    field separator [:] nor the record separator [|] of the compact
    records. *)
Lemma uri_component_roundtrip (s : string) :
  JsUri.decodeURIComponent (JsUri.encodeURIComponent s) = Some s /\
  lacks ":" (JsUri.encodeURIComponent s) /\
  lacks "|" (JsUri.encodeURIComponent s).
Proof.
  split; [apply decodeURIComponent_encode | apply encode_lacks].
Qed.

(** ** The backend of [config.js] *)

Lemma batchName_given (b : BatchId) :
  CodeGs.given (Some (CONFIG.batch_name (Handlers.batchConfigOf b))) =
  Some (CONFIG.batch_name (Handlers.batchConfigOf b)).
Proof. destruct b; reflexivity. Qed.

(** X21. What the app sends is what the backend stores: for a save request
    built by [onConfirmSave] from at least one record, on a date that is
    not empty and a batch without rows in the sheet, [saveAttendanceViaGet]
    succeeds, reports as many saved rows as there are records, and appends
    one row per record, in order, with the same student id, name and
    application number, the status expanded from its code, and leaves the
    rows above untouched. *)
Theorem save_request_roundtrip (st : StoreState)
    (records : list AttendanceRecord) (timeStr nowTime savedAt : string)
    (sheet : list CodeGs.Row) :
  records <> [] ->
  currentDate st <> "" ->
  CodeGs.checkBatchLocked (currentDate st)
    (CONFIG.batch_name (Handlers.batchConfigOf (currentBatch st))) sheet
    = false ->
  CodeGs.saveAttendanceViaGet (CodeGs.saveRequest st records timeStr)
    nowTime savedAt sheet =
  (CodeGs.Saved (length records),
   sheet ++
   (CodeGs.rowOfRecord (currentDate st)
      (CONFIG.batch_name (Handlers.batchConfigOf (currentBatch st)))
      (default nowTime (CodeGs.given (Some timeStr))) savedAt <$> records)).
Proof.
  intros Hrec Hdate Hopen.
  unfold CodeGs.saveAttendanceViaGet, CodeGs.saveRequest.
  cbn [CodeGs.param_date CodeGs.param_batch CodeGs.param_time
       CodeGs.param_records].
  rewrite batchName_given.
  destruct (currentDate st) as [|c d] eqn:Ed; [congruence |].
  cbn [CodeGs.given].
  destruct (compactRecords_nonempty records Hrec) as (c1 & s1 & E).
  rewrite E. rewrite Hopen. rewrite <- E. unfold Handlers.compactRecords.
  rewrite split_join.
  - rewrite parseParts_compactRecords, length_fmap. reflexivity.
  - destruct records; [congruence | discriminate].
  - apply Forall_fmap, Forall_forall. intros r _.
    apply compactRecord_lacks_bar.
Qed.

Lemma save_request_roundtrip_witness :
  CodeGs.saveAttendanceViaGet
    (CodeGs.saveRequest (store saveWorld) sampleRecords "06:05:00")
    "06:06:00" "2024-05-02T00:36:00.000Z" [] =
  (CodeGs.Saved 2,
   CodeGs.rowOfRecord "2024-05-02" "Batch 01" "06:05:00"
     "2024-05-02T00:36:00.000Z" <$> sampleRecords).
Proof.
  apply (save_request_roundtrip (store saveWorld) sampleRecords "06:05:00"
           "06:06:00" "2024-05-02T00:36:00.000Z" []).
  - discriminate.
  - discriminate.
  - reflexivity.
Defined.

Lemma parsePart_fields (date batch time savedAt part : string)
    (row : CodeGs.Row) :
  CodeGs.parsePart date batch time savedAt part = Some (Some row) ->
  CodeGs.col_date row = date /\ CodeGs.col_batch row = batch.
Proof.
  unfold CodeGs.parsePart.
  destruct (JsUri.split ":" part) as [|p0 [|code more]];
    try discriminate.
  intros H.
  apply bind_Some in H as (studentId & _ & H).
  apply bind_Some in H as (studentName & _ & H).
  apply bind_Some in H as (appNumber & _ & H).
  injection H as <-. split; reflexivity.
Qed.

Lemma parseParts_fields (date batch time savedAt : string)
    (parts : list string) :
  forall rows,
    CodeGs.parseParts date batch time savedAt parts = Some rows ->
    Forall (fun r => CodeGs.col_date r = date /\ CodeGs.col_batch r = batch)
      rows.
Proof.
  induction parts as [|part parts IH]; cbn [CodeGs.parseParts];
    intros rows H.
  - injection H as <-. constructor.
  - apply bind_Some in H as (r & Ep & H).
    apply bind_Some in H as (rs & Ers & H).
    injection H as <-.
    destruct r as [row|]; [| now apply IH].
    constructor; [eapply parsePart_fields, Ep | now apply IH].
Qed.

Lemma checkBatchLocked_app (date batch : string)
    (sheet rows : list CodeGs.Row) :
  CodeGs.checkBatchLocked date batch (sheet ++ rows) =
  CodeGs.checkBatchLocked date batch sheet
  || CodeGs.checkBatchLocked date batch rows.
Proof. apply existsb_app. Qed.

(** X22. The backend only ever appends, and a refusal writes nothing: the
    sheet after [saveAttendanceViaGet] is the sheet before followed by as
    many rows as the reply counts, all of them of the date and batch of the
    request; when the reply is a failure the sheet is unchanged; a request
    for a date and batch that already have a row is refused. *)
Theorem saveViaGet_append_only (params : CodeGs.Params)
    (nowTime savedAt : string) (sheet : list CodeGs.Row) :
  let r := CodeGs.saveAttendanceViaGet params nowTime savedAt sheet in
  (exists added,
     r.2 = sheet ++ added /\
     length added = match r.1 with
                    | CodeGs.Saved n => n
                    | CodeGs.Failed _ => 0%nat
                    end /\
     Forall (fun row =>
               Some (CodeGs.col_date row)
               = CodeGs.given (CodeGs.param_date params)
               /\ Some (CodeGs.col_batch row)
                  = CodeGs.given (CodeGs.param_batch params)) added) /\
  (forall date batch,
     CodeGs.given (CodeGs.param_date params) = Some date ->
     CodeGs.given (CodeGs.param_batch params) = Some batch ->
     CodeGs.checkBatchLocked date batch sheet = true ->
     exists error, r = (CodeGs.Failed error, sheet)).
Proof.
  intros r. subst r. unfold CodeGs.saveAttendanceViaGet. split.
  - destruct (CodeGs.given (CodeGs.param_date params)) as [date|];
      [| exists []; now rewrite app_nil_r].
    destruct (CodeGs.given (CodeGs.param_batch params)) as [batch|];
      [| exists []; now rewrite app_nil_r].
    destruct (CodeGs.given (CodeGs.param_records params)) as [records|];
      [| exists []; now rewrite app_nil_r].
    destruct (CodeGs.checkBatchLocked date batch sheet);
      [exists []; now rewrite app_nil_r |].
    destruct (CodeGs.parseParts date batch _ savedAt _) as [rows|] eqn:E;
      [| exists []; now rewrite app_nil_r].
    exists rows. repeat split.
    eapply Forall_impl; [eapply parseParts_fields, E |].
    cbn. intros row [-> ->]. auto.
  - intros date batch -> -> Hl.
    destruct (CodeGs.given (CodeGs.param_records params)); [| eauto].
    rewrite Hl. eauto.
Qed.

Lemma saveViaGet_append_only_witness :
  exists error,
    CodeGs.saveAttendanceViaGet
      (CodeGs.saveRequest (store saveWorld) sampleRecords "06:10:00")
      "06:10:00" "2024-05-02T00:40:00.000Z"
      (CodeGs.rowOfRecord "2024-05-02" "Batch 01" "06:05:00"
         "2024-05-02T00:36:00.000Z" <$> sampleRecords) =
    (CodeGs.Failed error,
     CodeGs.rowOfRecord "2024-05-02" "Batch 01" "06:05:00"
       "2024-05-02T00:36:00.000Z" <$> sampleRecords).
Proof.
  pose proof (saveViaGet_append_only
                (CodeGs.saveRequest (store saveWorld) sampleRecords
                   "06:10:00")
                "06:10:00" "2024-05-02T00:40:00.000Z"
                (CodeGs.rowOfRecord "2024-05-02" "Batch 01" "06:05:00"
                   "2024-05-02T00:36:00.000Z" <$> sampleRecords)) as H.
  cbv zeta in H. destruct H as [_ H].
  apply (H "2024-05-02" "Batch 01"); reflexivity.
Defined.

(** X23. A batch is written once: after a save that stored at least one
    row, any further request for the same date and batch, whatever its
    records and its time, is refused with the message that the batch is
    already saved, and the sheet stays as the first save left it. *)
Theorem saveViaGet_write_once (params params' : CodeGs.Params)
    (nowTime savedAt nowTime' savedAt' : string)
    (sheet sheet' : list CodeGs.Row) (n : nat) :
  CodeGs.saveAttendanceViaGet params nowTime savedAt sheet
    = (CodeGs.Saved n, sheet') ->
  (0 < n)%nat ->
  CodeGs.given (CodeGs.param_date params')
    = CodeGs.given (CodeGs.param_date params) ->
  CodeGs.given (CodeGs.param_batch params')
    = CodeGs.given (CodeGs.param_batch params) ->
  CodeGs.given (CodeGs.param_records params') <> None ->
  CodeGs.saveAttendanceViaGet params' nowTime' savedAt' sheet' =
  (CodeGs.Failed "This batch is already saved and locked.", sheet').
Proof.
  unfold CodeGs.saveAttendanceViaGet. intros H Hn Hd Hb Hr.
  rewrite Hd, Hb.
  destruct (CodeGs.given (CodeGs.param_date params)) as [date|];
    [| discriminate H].
  destruct (CodeGs.given (CodeGs.param_batch params)) as [batch|];
    [| discriminate H].
  destruct (CodeGs.given (CodeGs.param_records params)) as [records|];
    [| discriminate H].
  destruct (CodeGs.checkBatchLocked date batch sheet); [discriminate H |].
  destruct (CodeGs.parseParts date batch _ savedAt _) as [rows|] eqn:E;
    [| discriminate H].
  injection H as <- <-.
  destruct (CodeGs.given (CodeGs.param_records params')); [| congruence].
  assert (Hl : CodeGs.checkBatchLocked date batch (sheet ++ rows) = true).
  { rewrite checkBatchLocked_app. apply orb_true_iff. right.
    pose proof (parseParts_fields _ _ _ _ _ _ E) as Hf.
    destruct rows as [|row rows]; [cbn in Hn; lia |].
    apply Forall_cons in Hf as [[Hrd Hrb] _].
    unfold CodeGs.checkBatchLocked. cbn [existsb].
    rewrite (bool_decide_eq_true_2 _ Hrd), (bool_decide_eq_true_2 _ Hrb).
    reflexivity. }
  now rewrite Hl.
Qed.

Lemma saveViaGet_write_once_witness :
  CodeGs.saveAttendanceViaGet
    (CodeGs.saveRequest (store saveWorld) sampleRecords "06:10:00")
    "06:10:00" "2024-05-02T00:40:00.000Z"
    (CodeGs.rowOfRecord "2024-05-02" "Batch 01" "06:05:00"
       "2024-05-02T00:36:00.000Z" <$> sampleRecords) =
  (CodeGs.Failed "This batch is already saved and locked.",
   CodeGs.rowOfRecord "2024-05-02" "Batch 01" "06:05:00"
     "2024-05-02T00:36:00.000Z" <$> sampleRecords).
Proof.
  apply (saveViaGet_write_once
           (CodeGs.saveRequest (store saveWorld) sampleRecords "06:05:00")
           (CodeGs.saveRequest (store saveWorld) sampleRecords "06:10:00")
           "06:06:00" "2024-05-02T00:36:00.000Z"
           "06:10:00" "2024-05-02T00:40:00.000Z" [] _ 2).
  - vm_compute. reflexivity.
  - lia.
  - reflexivity.
  - reflexivity.
  - vm_compute. discriminate.
Defined.

(** X24. A save without visible student cannot succeed: the request built
    from no record carries an empty [records] parameter, which the backend
    refuses as missing, whatever the date, the batch and the sheet, and
    without touching the sheet. *)
Theorem empty_save_is_refused (st : StoreState)
    (timeStr nowTime savedAt : string) (sheet : list CodeGs.Row) :
  CodeGs.saveAttendanceViaGet (CodeGs.saveRequest st [] timeStr)
    nowTime savedAt sheet =
  (CodeGs.Failed "Missing date, batch, or records", sheet).
Proof.
  unfold CodeGs.saveAttendanceViaGet, CodeGs.saveRequest.
  cbn [CodeGs.param_date CodeGs.param_batch CodeGs.param_records
       Handlers.compactRecords fmap list_fmap JsUri.join CodeGs.given].
  destruct (currentDate st); [reflexivity |].
  destruct (currentBatch st); reflexivity.
Qed.

(** X25. Pulling and saving agree on what a locked batch is: the [locked]
    flag that [getAttendance] reports for a date and batch is the one
    [checkBatchLocked] computes, true exactly when the sheet has a row of
    that date and batch; there is one reported record per such row, each
    of that date and batch. *)
Theorem getAttendance_locked (date batch : string)
    (sheet : list CodeGs.Row) :
  (CodeGs.getAttendance date batch sheet).2 =
    CodeGs.checkBatchLocked date batch sheet /\
  length (CodeGs.getAttendance date batch sheet).1 =
    length (filter (fun r => CodeGs.col_date r = date /\
                             CodeGs.col_batch r = batch) sheet) /\
  Forall (fun f => CodeGs.got_date f = date /\ CodeGs.got_batch f = batch)
    (CodeGs.getAttendance date batch sheet).1.
Proof.
  unfold CodeGs.getAttendance. cbn [fst snd]. rewrite length_fmap.
  refine (conj _ (conj eq_refl _)).
  - unfold CodeGs.checkBatchLocked.
    induction sheet as [|r sheet IH]; [reflexivity |].
    rewrite filter_cons. cbn [existsb]. rewrite <- IH. clear IH.
    destruct (decide (CodeGs.col_date r = date /\ CodeGs.col_batch r = batch))
      as [[Hd Hb]|Hn].
    + rewrite (bool_decide_eq_true_2 _ Hd), (bool_decide_eq_true_2 _ Hb).
      cbn [length andb orb]. apply bool_decide_eq_true. lia.
    + assert (E : bool_decide (CodeGs.col_date r = date)
                  && bool_decide (CodeGs.col_batch r = batch) = false).
      { apply andb_false_iff.
        destruct (decide (CodeGs.col_date r = date)) as [Hd|Hd].
        - right. apply bool_decide_eq_false. tauto.
        - left. now apply bool_decide_eq_false. }
      rewrite E. reflexivity.
  - apply Forall_fmap, Forall_forall. intros r Hr.
    apply list_elem_of_filter in Hr as [Hr _]. exact Hr.
Qed.

(** ** The backend with duplicate detection *)

Lemma ensureHeaders_app (sheet rows : list AppsScript.Row) :
  AppsScript.ensureHeaders (AppsScript.ensureHeaders sheet ++ rows) =
  AppsScript.ensureHeaders sheet ++ rows.
Proof.
  destruct sheet as [|first rest]; [reflexivity |].
  cbn [AppsScript.ensureHeaders].
  destruct (AppsScript.isEmptyRow first) eqn:E; [reflexivity |].
  cbn [app AppsScript.ensureHeaders]. now rewrite E.
Qed.

Lemma existingKeys_app (sheet rows : list AppsScript.Row) :
  AppsScript.existingKeys (AppsScript.ensureHeaders sheet ++ rows) =
  AppsScript.existingKeys (AppsScript.ensureHeaders sheet)
  ∪ list_to_set (AppsScript.rowKey <$> rows).
Proof.
  unfold AppsScript.existingKeys.
  assert (H : exists h t, AppsScript.ensureHeaders sheet = h :: t).
  { destruct sheet as [|first rest]; cbn [AppsScript.ensureHeaders];
      [eauto |]. destruct (AppsScript.isEmptyRow first); eauto. }
  destruct H as (h & t & ->). cbn [app tail].
  now rewrite fmap_app, list_to_set_app_L.
Qed.

Lemma filter_fresh_nil (keys : gset string)
    (records : list AppsScript.BodyRecord) :
  Forall (fun r => AppsScript.recordKey r ∈ keys) records ->
  filter (fun r => AppsScript.recordKey r ∉ keys) records = [].
Proof.
  induction 1 as [|r records Hr _ IH]; [reflexivity |].
  rewrite filter_cons, decide_False by tauto. exact IH.
Qed.

Lemma handleSaveAttendance_nonempty
    (records : list AppsScript.BodyRecord)
    (savedAt : string) (sheet : list AppsScript.Row) :
  records <> [] ->
  AppsScript.handleSaveAttendance records savedAt sheet =
  (AppsScript.Saved
     (length (filter (fun r => AppsScript.recordKey r ∉
                        AppsScript.existingKeys
                          (AppsScript.ensureHeaders sheet)) records))
     (length records -
      length (filter (fun r => AppsScript.recordKey r ∉
                        AppsScript.existingKeys
                          (AppsScript.ensureHeaders sheet)) records))
     (length records),
   AppsScript.ensureHeaders sheet ++
   (AppsScript.newRow savedAt <$>
    filter (fun r => AppsScript.recordKey r ∉
              AppsScript.existingKeys (AppsScript.ensureHeaders sheet))
      records)).
Proof.
  intros Hne. destruct records as [|r0 records0]; [congruence |].
  unfold AppsScript.handleSaveAttendance. now rewrite length_fmap.
Qed.

(** X26. Sending the same records again adds nothing: after
    [handleSaveAttendance] has handled a request, the same list of records
    submitted a second time, at any later time, appends no row; the reply
    counts zero saved and every record skipped, and the sheet is the one
    the first request left. *)
Theorem handleSaveAttendance_idempotent
    (records : list AppsScript.BodyRecord)
    (savedAt savedAt' : string) (sheet : list AppsScript.Row) :
  records <> [] ->
  let sheet1 := (AppsScript.handleSaveAttendance records savedAt sheet).2 in
  AppsScript.handleSaveAttendance records savedAt' sheet1 =
  (AppsScript.Saved 0 (length records) (length records), sheet1).
Proof.
  intros Hne sheet1. subst sheet1.
  rewrite (handleSaveAttendance_nonempty records savedAt sheet Hne).
  cbn [snd].
  set (keys := AppsScript.existingKeys (AppsScript.ensureHeaders sheet)).
  set (fresh := filter (fun r => AppsScript.recordKey r ∉ keys) records).
  assert (Hall : Forall (fun r => AppsScript.recordKey r ∈
                   AppsScript.existingKeys
                     (AppsScript.ensureHeaders sheet ++
                      (AppsScript.newRow savedAt <$> fresh))) records).
  { apply Forall_forall. intros r Hr. rewrite existingKeys_app. fold keys.
    destruct (decide (AppsScript.recordKey r ∈ keys)) as [Hk|Hk];
      [apply elem_of_union; now left |].
    apply elem_of_union. right. apply elem_of_list_to_set.
    apply list_elem_of_fmap. exists (AppsScript.newRow savedAt r).
    split; [reflexivity |].
    apply list_elem_of_fmap. exists r. split; [reflexivity |].
    apply list_elem_of_filter. auto. }
  rewrite (handleSaveAttendance_nonempty records savedAt' _ Hne).
  rewrite ensureHeaders_app, (filter_fresh_nil _ _ Hall).
  cbn [fmap list_fmap length]. rewrite app_nil_r, Nat.sub_0_r.
  reflexivity.
Qed.

Lemma handleSaveAttendance_idempotent_witness :
  AppsScript.handleSaveAttendance sampleBody "2024-05-02T00:40:00.000Z"
    (AppsScript.handleSaveAttendance sampleBody
       "2024-05-02T00:36:00.000Z" []).2 =
  (AppsScript.Saved 0 2 2,
   (AppsScript.handleSaveAttendance sampleBody
      "2024-05-02T00:36:00.000Z" []).2).
Proof.
  apply (handleSaveAttendance_idempotent sampleBody
           "2024-05-02T00:36:00.000Z" "2024-05-02T00:40:00.000Z" []).
  discriminate.
Defined.

(** X27. The keys of the sheet after a save.  When [handleSaveAttendance]
    has handled a list of records that is not empty, the keys of date,
    batch and student id below the header are the keys that were there
    together with the keys of all the records of the request: every record
    is in the sheet, written now or found there.  The rows the sheet had
    are kept, with the header ensured, and no row that is added has a key
    that was in the sheet; the sheet grows by the number the reply counts
    as saved, and the saved and the skipped records add up to the total,
    the number of records. *)
Theorem handleSaveAttendance_keys (records : list AppsScript.BodyRecord)
    (savedAt : string) (sheet : list AppsScript.Row) :
  records <> [] ->
  let keys := AppsScript.existingKeys (AppsScript.ensureHeaders sheet) in
  let r := AppsScript.handleSaveAttendance records savedAt sheet in
  AppsScript.existingKeys r.2 =
    keys ∪ list_to_set (AppsScript.recordKey <$> records) /\
  (exists added,
     r.2 = AppsScript.ensureHeaders sheet ++ added /\
     Forall (fun row => AppsScript.rowKey row ∉ keys) added /\
     exists skipped,
       r.1 = AppsScript.Saved (length added) skipped (length records) /\
       (length added + skipped = length records)%nat).
Proof.
  intros Hne keys r. subst r.
  rewrite (handleSaveAttendance_nonempty records savedAt sheet Hne).
  cbn [fst snd]. fold keys.
  set (fresh := filter (fun r => AppsScript.recordKey r ∉ keys) records).
  split.
  - rewrite existingKeys_app. fold keys. apply set_eq. intros k.
    rewrite !elem_of_union, !elem_of_list_to_set, <- list_fmap_compose.
    rewrite !list_elem_of_fmap. split.
    + intros [Hk | (r & -> & Hr)]; [now left |].
      apply list_elem_of_filter in Hr as [_ Hr]. right. now exists r.
    + intros [Hk | (r & -> & Hr)]; [now left |].
      destruct (decide (AppsScript.recordKey r ∈ keys)) as [Hin|Hin];
        [now left |].
      right. exists r. split; [reflexivity |].
      apply list_elem_of_filter. auto.
  - exists (AppsScript.newRow savedAt <$> fresh).
    split; [reflexivity |]. split.
    + apply Forall_fmap, Forall_forall. intros r Hr.
      apply list_elem_of_filter in Hr as [Hr _]. exact Hr.
    + exists (length records - length fresh)%nat. rewrite length_fmap.
      split; [reflexivity |].
      pose proof (length_filter (fun r => AppsScript.recordKey r ∉ keys)
                    records) as Hle.
      fold fresh in Hle. lia.
Qed.

Lemma handleSaveAttendance_keys_witness :
  AppsScript.existingKeys
    (AppsScript.handleSaveAttendance sampleBody
       "2024-05-02T00:36:00.000Z" []).2 =
  {[ "2024-05-02|Batch 01|S1"; "2024-05-02|Batch 01|S2" ]}.
Proof.
  pose proof (handleSaveAttendance_keys sampleBody
                "2024-05-02T00:36:00.000Z" []) as H.
  cbv zeta in H. destruct H as (H & _); [discriminate |].
  rewrite H. vm_compute. reflexivity.
Defined.

(** ** From one device to another *)

Lemma cellText_cellOf (v : string) : API.cellText (cellOf v) = Js.trim v.
Proof. destruct v; reflexivity. Qed.

Lemma cellStatus_expand (status : Js.value) :
  API.cellStatus (cellOf (CodeGs.expandStatus (Handlers.statusCode status)))
  = sheetStatus status.
Proof.
  unfold Handlers.statusCode, sheetStatus.
  repeat case_bool_decide; reflexivity.
Qed.

Lemma parseRow_saved (date time savedAt : string) (b : BatchId)
    (r : AttendanceRecord) :
  Js.trim date = date ->
  rec_studentId r <> "" -> Js.trim (rec_studentId r) = rec_studentId r ->
  API.parseRow date
    (queryRow (CodeGs.rowOfRecord date
                 (CONFIG.batch_name (Handlers.batchConfigOf b))
                 time savedAt r)) =
  Some (batchKeyOf b, (rec_studentId r, sheetStatus (rec_status r))).
Proof.
  intros Hd Hne Hid. unfold API.parseRow, queryRow, CodeGs.rowOfRecord.
  cbn [API.cell_date API.cell_batch API.cell_studentId API.cell_status
       CodeGs.col_date CodeGs.col_batch CodeGs.col_studentId
       CodeGs.col_status].
  rewrite !cellText_cellOf, cellStatus_expand, Hd, Hid.
  rewrite (bool_decide_eq_true_2 (date = date)) by reflexivity.
  destruct (rec_studentId r) as [|c i]; [congruence |].
  cbn [Js.truthy negb orb]. destruct b; reflexivity.
Qed.

Lemma parseRow_other_date (date : string) (r : CodeGs.Row) :
  Js.trim (CodeGs.col_date r) <> date ->
  API.parseRow date (queryRow r) = None.
Proof.
  intros H. unfold API.parseRow, queryRow. cbn [API.cell_date].
  rewrite cellText_cellOf, (bool_decide_eq_false_2 _ H).
  cbn [negb]. now rewrite orb_true_r.
Qed.

Lemma recordsFor_app (date : string) (rows1 rows2 : list API.SheetRow)
    (k : string) :
  recordsFor date (rows1 ++ rows2) k =
  recordsFor date rows1 k ++ recordsFor date rows2 k.
Proof.
  unfold recordsFor. induction rows1 as [|row rows1 IH]; [reflexivity |].
  cbn [app]. rewrite !omap_cons, IH.
  destruct (API.parseRow date row) as [[k' rec]|]; [| reflexivity].
  case_bool_decide; reflexivity.
Qed.

Lemma recordsFor_other_dates (date : string) (sheet : list CodeGs.Row)
    (k : string) :
  Forall (fun r => Js.trim (CodeGs.col_date r) <> date) sheet ->
  recordsFor date (queryRow <$> sheet) k = [].
Proof.
  unfold recordsFor. induction 1 as [|r sheet Hr _ IH]; [reflexivity |].
  rewrite fmap_cons, omap_cons, (parseRow_other_date date r Hr). exact IH.
Qed.

Lemma recordsFor_saved (date time savedAt : string) (b : BatchId)
    (records : list AttendanceRecord) :
  Js.trim date = date ->
  Forall (fun r => rec_studentId r <> "" /\
                   Js.trim (rec_studentId r) = rec_studentId r) records ->
  recordsFor date
    (queryRow <$>
       (CodeGs.rowOfRecord date
          (CONFIG.batch_name (Handlers.batchConfigOf b)) time savedAt
          <$> records)) (batchKeyOf b) =
  (fun r => (rec_studentId r, sheetStatus (rec_status r))) <$> records.
Proof.
  intros Hd. unfold recordsFor.
  induction 1 as [|r records [Hne Hid] _ IH]; [reflexivity |].
  rewrite !fmap_cons, omap_cons, (parseRow_saved _ _ _ _ _ Hd Hne Hid).
  rewrite bool_decide_eq_true_2 by reflexivity. now rewrite IH.
Qed.

Lemma sheetStatus_read (status : Js.value) :
  Js.or_else (Some (sheetStatus status)) LEAVE = sheetStatus status.
Proof. unfold sheetStatus. repeat case_bool_decide; reflexivity. Qed.

Lemma lastStatusOf_uniform (recs : list (string * string)) (i v : string) :
  (exists r, r ∈ recs /\ r.1 = i) ->
  (forall r, r ∈ recs -> r.1 = i -> r.2 = v) ->
  lastStatusOf recs i = Js.or_else (Some v) LEAVE.
Proof.
  intros (r0 & Hin & Hi) Hall. unfold lastStatusOf.
  destruct (last (filter (fun r => r.1 = i) recs)) as [r|] eqn:El.
  - apply last_Some_elem_of in El. apply list_elem_of_filter in El as [Hr Hrin].
    now rewrite (Hall r Hrin Hr).
  - apply last_None in El.
    assert (Hf : r0 ∈ filter (fun r => r.1 = i) recs)
      by (apply list_elem_of_filter; auto).
    rewrite El in Hf. now apply elem_of_nil in Hf.
Qed.

(** X28. From one device to another: when a device saves the records of
    its visible students through [saveAttendanceViaGet], on a sheet without
    row of that date, and another device then receives the rows of the
    sheet in its [fetchAttendance] callback for that date, the save reports
    one row per student, the callback resolves to [true], the batch is
    locked on the second device, and every saved student reads there the
    status the first device had: present, absent, or leave for anything
    else.  Student ids and the date are not empty and carry no blanks at
    their ends. *)
Theorem save_then_pull (st : StoreState) (vis : list Student)
    (timeStr nowTime savedAt : string) (sheet : list CodeGs.Row)
    (device : World) :
  let date := currentDate st in
  let records := Handlers.buildRecords st vis timeStr in
  vis <> [] ->
  date <> "" -> Js.trim date = date ->
  Forall (fun s => student_id s <> "" /\
                   Js.trim (student_id s) = student_id s) vis ->
  Forall (fun r => Js.trim (CodeGs.col_date r) <> date) sheet ->
  let saved :=
    CodeGs.saveAttendanceViaGet (CodeGs.saveRequest st records timeStr)
      nowTime savedAt sheet in
  let pulled :=
    API.onAttendanceResponse date (Some (queryRow <$> saved.2)) device in
  saved.1 = CodeGs.Saved (length vis) /\
  pulled.1 = true /\
  Store.isDateBatchLocked date (batchKeyOf (currentBatch st))
    (store pulled.2) = true /\
  (forall s, s ∈ vis ->
     Store.getStatusAt date (batchKeyOf (currentBatch st)) (student_id s)
       (store pulled.2) = sheetStatus (Store.getStatus (student_id s) st)).
Proof.
  intros date records Hvis Hdate Htrim Hids Hsheet saved pulled.
  set (batch := CONFIG.batch_name (Handlers.batchConfigOf (currentBatch st))).
  set (time := default nowTime (CodeGs.given (Some timeStr))).
  assert (Hrec : records <> []).
  { subst records. unfold Handlers.buildRecords.
    destruct vis; [congruence | discriminate]. }
  assert (Hopen : CodeGs.checkBatchLocked date batch sheet = false).
  { unfold CodeGs.checkBatchLocked. clear -Hsheet Htrim.
    induction Hsheet as [|r sheet Hr _ IH]; [reflexivity |].
    cbn [existsb]. rewrite IH, orb_false_r.
    rewrite bool_decide_eq_false_2; [reflexivity |].
    intros E. apply Hr. rewrite E. exact Htrim. }
  assert (Hsaved : saved =
            (CodeGs.Saved (length records),
             sheet ++ (CodeGs.rowOfRecord date batch time savedAt
                         <$> records))).
  { subst saved. unfold CodeGs.saveAttendanceViaGet, CodeGs.saveRequest.
    cbn [CodeGs.param_date CodeGs.param_batch CodeGs.param_time
         CodeGs.param_records].
    rewrite batchName_given. fold date batch time.
    destruct date as [|c d] eqn:Ed; [congruence |].
    cbn [CodeGs.given].
    destruct (compactRecords_nonempty records Hrec) as (c1 & s1 & E).
    rewrite E, Hopen, <- E. unfold Handlers.compactRecords.
    rewrite split_join.
    - now rewrite parseParts_compactRecords, length_fmap.
    - destruct records; [congruence | discriminate].
    - apply Forall_fmap, Forall_forall. intros r _.
      apply compactRecord_lacks_bar. }
  assert (Hlen : length records = length vis)
    by (subst records; unfold Handlers.buildRecords; apply length_fmap).
  assert (Hrids : Forall (fun r => rec_studentId r <> "" /\
                            Js.trim (rec_studentId r) = rec_studentId r)
                    records).
  { subst records. unfold Handlers.buildRecords.
    apply Forall_fmap. eapply Forall_impl; [exact Hids |]. cbn. auto. }
  set (rows := queryRow <$> saved.2).
  assert (Hfor : recordsFor date rows (batchKeyOf (currentBatch st)) =
                 (fun r => (rec_studentId r, sheetStatus (rec_status r)))
                   <$> records).
  { subst rows. rewrite Hsaved. cbn [snd].
    rewrite fmap_app, recordsFor_app,
      (recordsFor_other_dates date sheet _ Hsheet).
    cbn [app]. now apply recordsFor_saved. }
  assert (Hne : recordsFor date rows (batchKeyOf (currentBatch st)) <> []).
  { rewrite Hfor. destruct records; [congruence | discriminate]. }
  split; [rewrite Hsaved; cbn [fst]; now rewrite Hlen |].
  assert (Hrows : exists row rest, rows = row :: rest).
  { destruct rows as [|row rest]; [now destruct Hne | eauto]. }
  destruct Hrows as (row & rest & Erows).
  subst pulled. fold rows. rewrite Erows.
  split; [reflexivity |].
  destruct (onAttendanceResponse_store date row rest device) as [c Hc].
  rewrite Hc. rewrite <- Erows in *. clear Hc.
  split.
  - unfold Store.isDateBatchLocked. cbn [lockedBatches set_cache].
    rewrite mergedStore_lockedBatches. apply bool_decide_eq_true.
    destruct (recordsFor date rows (batchKeyOf (currentBatch st)))
      as [|r0 recs] eqn:E; [now destruct Hne |].
    destruct (currentBatch st); cbn [batchKeyOf] in E |- *; rewrite E;
      set_solver.
  - intros s Hs. rewrite getStatusAt_entries.
    change (Store.batchDataAt date (batchKeyOf (currentBatch st))
              (set_cache c (mergedStore date rows (store device))))
      with (Store.batchDataAt date (batchKeyOf (currentBatch st))
              (mergedStore date rows (store device))).
    rewrite mergedStore_batchDataAt.
    destruct (recordsFor date rows (batchKeyOf (currentBatch st)))
      as [|r0 recs] eqn:E; [now destruct Hne |].
    rewrite bool_decide_eq_true_2 by reflexivity. cbn [groupRead].
    rewrite cloudBatchMap_status, Hfor.
    rewrite (lastStatusOf_uniform _ (student_id s)
               (sheetStatus (Store.getStatus (student_id s) st))).
    + now rewrite sheetStatus_read.
    + exists (student_id s, sheetStatus (Store.getStatus (student_id s) st)).
      split; [| reflexivity].
      apply list_elem_of_fmap.
      exists {| rec_date := currentDate st;
                rec_batch := CONFIG.batch_name
                               (Handlers.batchConfigOf (currentBatch st));
                rec_batchTime := CONFIG.batch_time
                                   (Handlers.batchConfigOf (currentBatch st));
                rec_studentId := student_id s;
                rec_studentName := student_name s;
                rec_appNumber := student_appNumber s;
                rec_status := Store.getStatus (student_id s) st;
                rec_time := timeStr |}.
      split; [reflexivity |].
      subst records. unfold Handlers.buildRecords.
      apply list_elem_of_fmap. exists s. split; [reflexivity | exact Hs].
    + intros r Hr Hi. apply list_elem_of_fmap in Hr as (rc & -> & Hrc).
      subst records. unfold Handlers.buildRecords in Hrc.
      apply list_elem_of_fmap in Hrc as (s' & -> & _).
      cbn in Hi |- *. now rewrite Hi.
Qed.

Lemma save_then_pull_witness :
  Store.getStatusAt "2024-05-02" "batch_01" "S1"
    (store
       (API.onAttendanceResponse "2024-05-02"
          (Some
             (queryRow <$>
                (CodeGs.saveAttendanceViaGet
                   (CodeGs.saveRequest (store saveWorld) sampleRecords
                      "06:05:00")
                   "06:06:00" "2024-05-02T00:36:00.000Z"
                   (CodeGs.rowOfRecord "2024-05-01" "Batch 01" "06:00:00"
                      "2024-05-01T00:31:00.000Z" <$> sampleRecords)).2))
          bootWorld).2) = "present".
Proof.
  pose proof (save_then_pull (store saveWorld) [studentA; studentB]
                "06:05:00" "06:06:00" "2024-05-02T00:36:00.000Z"
                (CodeGs.rowOfRecord "2024-05-01" "Batch 01" "06:00:00"
                   "2024-05-01T00:31:00.000Z" <$> sampleRecords)
                bootWorld) as H.
  cbv zeta in H.
  destruct H as (_ & _ & _ & H).
  - discriminate.
  - discriminate.
  - reflexivity.
  - repeat constructor; discriminate.
  - repeat constructor; vm_compute; discriminate.
  - apply (H studentA). apply list_elem_of_here.
Defined.
